(** * Bulk order import and stock allocation (saleor/graphql/order/bulk_mutations/order_bulk_create.py)

    A shallow embedding of the [OrderBulkCreate] mutation: the per-order
    construction pipeline, the stock allocation simulation, the error policy
    and the persistence step, followed by the properties established for
    them. *)

From Stdlib Require Import ZArith QArith Qabs Qpower Qfield Lia Lqa Ascii.
From stdpp Require Import gmap strings list fin_maps pretty.

Open Scope Z_scope.

(** ** Uncaught Python exceptions

    Exceptions that no handler of the mutation catches; they abort the call
    and roll the surrounding transaction back. *)
Inductive Exception : Type :=
  | InvalidOperation      (* decimal.InvalidOperation *)
  | DivisionByZero        (* decimal.DivisionByZero *)
  | IndexError.           (* list index out of range *)

(** ** Python [decimal.Decimal] under the default context

    A finite [Decimal] is modelled by its numeric value in [Q].  Arithmetic
    follows the default context: results are rounded to [prec] = 28
    significant digits with ROUND_HALF_EVEN; [quantize] rounds to a fixed
    exponent and signals [InvalidOperation] when the coefficient would need
    more than [prec] digits.  Exponent limits (Emax/Emin) are not modelled. *)
Module Decimal.

Definition prec : Z := 28.

Definition pow10 (e : Z) : Q := Qpower (10 # 1) e.

(** Nearest integer, ties to the even neighbour. *)
Definition round_half_even (x : Q) : Z :=
  let n := Qnum x in
  let d := Z.pos (Qden x) in
  let f := n / d in
  match (2 * (n mod d)) ?= d with
  | Lt => f
  | Gt => f + 1
  | Eq => if Z.even f then f else f + 1
  end.

(** The integer coefficient of [x] at exponent [e]. *)
Definition coefficient (e : Z) (x : Q) : Z :=
  round_half_even (x / pow10 e).

(** [x] rounded to a multiple of [10^e]. *)
Definition rescale (e : Z) (x : Q) : Q :=
  Qred (inject_Z (coefficient e x) * pow10 e).

Fixpoint ndigits_fuel (fuel : nat) (n : Z) : Z :=
  match fuel with
  | O => 1
  | S f => if n <? 10 then 1 else 1 + ndigits_fuel f (n / 10)
  end.

(** Number of decimal digits of a positive integer. *)
Definition ndigits (n : Z) : Z :=
  ndigits_fuel (Z.to_nat (Z.log2 n)) n.

(** [Decimal.adjusted()]: the exponent of the most significant digit,
    i.e. the [k] with [10^k <= |x| < 10^(k+1)], for [x <> 0]. *)
Definition adjusted (x : Q) : Z :=
  let e0 := ndigits (Z.abs (Qnum x)) - ndigits (Z.pos (Qden x)) in
  if Qle_bool (pow10 e0) (Qabs x) then e0 else e0 - 1.

(** Context rounding ([Decimal._fix]): keep [prec] significant digits. *)
Definition fix_context (x : Q) : Q :=
  if Qeq_bool x 0 then 0%Q else rescale (adjusted x - (prec - 1)) x.

Definition add (x y : Q) : Q := fix_context (x + y).
Definition sub (x y : Q) : Q := fix_context (x - y).
Definition mul (x y : Q) : Q := fix_context (x * y).

(** [x / y]: division by zero signals [DivisionByZero], or
    [InvalidOperation] for 0/0. *)
Definition div (x y : Q) : Exception + Q :=
  if Qeq_bool y 0 then
    inl (if Qeq_bool x 0 then InvalidOperation else DivisionByZero)
  else inr (fix_context (x / y)).

(** [x.quantize(Decimal(10) ** -places)]. *)
Definition quantize (x : Q) (places : Z) : Exception + Q :=
  if 10 ^ prec <=? Z.abs (coefficient (- places) x)
  then inl InvalidOperation
  else inr (rescale (- places) x).

Definition lt (x y : Q) : bool := negb (Qle_bool y x).

End Decimal.

(** ** Error codes and errors *)

(** Modelled from the spec: the members of [OrderBulkCreateErrorCode]
    (saleor/order/error_codes.py is not among the sources; the error
    taxonomy lists them). *)
Inductive OrderBulkCreateErrorCode : Type :=
  | FUTURE_DATE | INVALID | PRICE_ERROR | INVALID_QUANTITY | UNIQUE
  | NOT_FOUND | TOO_MANY_IDENTIFIERS | REQUIRED | METADATA_KEY_REQUIRED
  | NOTE_LENGTH | NEGATIVE_INDEX | NO_RELATED_ORDER_LINE
  | ORDER_LINE_FULFILLMENT_LINE_MISMATCH | NON_EXISTING_STOCK
  | INSUFFICIENT_STOCK | BULK_LIMIT.

#[global] Instance code_eq_dec : EqDecision OrderBulkCreateErrorCode.
Proof. solve_decision. Defined.

Record OrderBulkError : Type := mkError {
  message : string;
  code : option OrderBulkCreateErrorCode;
  path : option string
}.

#[global] Instance error_eq_dec : EqDecision OrderBulkError.
Proof. solve_decision. Defined.

Definition has_code (c : OrderBulkCreateErrorCode) (e : OrderBulkError) : bool :=
  bool_decide (code e = Some c).

(** A [django.core.exceptions.ValidationError] as raised by the resolution
    helper: message, code and the [params["path"]] entry when present. *)
Record ValidationError : Type := mkValidationError {
  ve_message : string;
  ve_code : OrderBulkCreateErrorCode;
  ve_path : option string
}.

(** What a call [get_instance(input, model, key_map, object_storage, ...)]
    does on an input fragment.  [get_instance] (bulk_mutations/utils.py) is
    not among the sources, so its behaviour on each fragment is part of the
    modelled input: it returns an instance, returns nothing, or raises. *)
Inductive Resolved (A : Type) : Type :=
  | Instance (a : A)
  | NoInstance
  | Raises (e : ValidationError).
Arguments Instance {A} a.
Arguments NoInstance {A}.
Arguments Raises {A} e.

(** ** Constants *)

Definition MINUTES_DIFF : Z := 5.
Definition MAX_ORDERS : nat := 50.
Definition MAX_NOTE_LENGTH : nat := 200.

(** Datetimes are counted in microseconds; [timedelta(minutes=m)]. *)
Definition timedelta_minutes (m : Z) : Z := m * 60 * 1000000.

(** ** Enumerations used by the mutation *)

(** The three statuses the source names; every other member of
    [OrderStatus] is carried by its name. *)
Inductive OrderStatus : Type :=
  | UNFULFILLED | PARTIALLY_FULFILLED | FULFILLED
  | OtherStatus (name : string).

Inductive StockUpdatePolicy : Type := FORCE | SKIP | UPDATE.

(** [ErrorPolicy]: the two policies [handle_error_policy] acts on and the
    remaining member, on which it does nothing. *)
Inductive ErrorPolicy : Type :=
  | IGNORE_FAILED | REJECT_EVERYTHING | REJECT_FAILED_ROWS.

#[global] Instance status_eq_dec : EqDecision OrderStatus.
Proof. solve_decision. Defined.
#[global] Instance stock_policy_eq_dec : EqDecision StockUpdatePolicy.
Proof. solve_decision. Defined.
#[global] Instance error_policy_eq_dec : EqDecision ErrorPolicy.
Proof. solve_decision. Defined.

(** ** Persisted entities the import refers to *)

Record User : Type := { user_id : Z; user_email : string }.
Record Channel : Type := { channel_id : Z; channel_slug : string }.
Record Warehouse : Type := { warehouse_id : string; warehouse_name : string }.
Record ProductVariant : Type := { variant_id : Z; variant_name : string }.
Record ShippingMethod : Type :=
  { shipping_method_id : Z; shipping_method_name : string }.
Record TaxClass : Type := { tax_class_id : Z; tax_class_name : string }.
Record Voucher : Type := { voucher_code : string }.
Record GiftCard : Type := { gift_card_code : string }.
Record App : Type := { app_id : Z }.
Record Address : Type := { address_text : string }.
Record TransactionItem : Type := { transaction_name : string }.

(** A stock row: [quantity] physically present, [quantity_allocated]
    reserved by unfulfilled order lines. *)
Record Stock : Type := mkStock {
  stock_pk : Z;
  stock_product_variant_id : Z;
  stock_warehouse_id : string;
  stock_quantity : Z;
  stock_quantity_allocated : Z
}.

#[global] Instance stock_eq_dec : EqDecision Stock.
Proof. solve_decision. Defined.

(** ** Model instances built by the import *)

Definition Metadata : Type := gmap string string.

Record OrderLine : Type := mkOrderLine {
  (* the uuid4 primary key, modelled by a number unique within the order:
     the index of the input line the instance was built from *)
  ol_id : nat;
  ol_variant : ProductVariant;
  ol_product_name : string;
  ol_variant_name : string;
  ol_translated_product_name : string;
  ol_translated_variant_name : string;
  ol_created_at : Z;
  ol_is_shipping_required : bool;
  ol_is_gift_card : bool;
  ol_currency : string;
  ol_quantity : Z;
  ol_unit_price_net_amount : Q;
  ol_unit_price_gross_amount : Q;
  ol_total_price_net_amount : Q;
  ol_total_price_gross_amount : Q;
  ol_undiscounted_unit_price_net_amount : Q;
  ol_undiscounted_unit_price_gross_amount : Q;
  ol_undiscounted_total_price_net_amount : Q;
  ol_undiscounted_total_price_gross_amount : Q;
  ol_tax_rate : option Q;
  ol_tax_class : option TaxClass;
  ol_tax_class_name : option string;
  ol_metadata : Metadata;
  ol_private_metadata : Metadata;
  ol_tax_class_metadata : Metadata;
  ol_tax_class_private_metadata : Metadata;
  ol_quantity_fulfilled : Z
}.

Definition ol_variant_id (l : OrderLine) : Z := variant_id (ol_variant l).

Record Fulfillment : Type := mkFulfillment {
  ful_id : option Z;
  ful_tracking_number : string;
  ful_fulfillment_order : Z
}.

Record FulfillmentLine : Type := mkFulfillmentLine {
  (* [order_line]: the referenced order line, by its key *)
  fl_order_line : nat;
  fl_quantity : Z;
  fl_fulfillment_id : option Z
}.

(** A note: an [OrderEvent] of type NOTE_ADDED. *)
Record OrderEvent : Type := mkOrderEvent {
  ev_date : option Z;
  ev_message : string;
  ev_user : option User;
  ev_app : option App
}.

(** An invoice; its status is always [JobStatus.SUCCESS]. *)
Record Invoice : Type := mkInvoice {
  inv_number : option string;
  inv_external_url : option string;
  inv_created_at : option Z;
  inv_metadata : Metadata;
  inv_private_metadata : Metadata
}.

Record OrderDiscount : Type := mkOrderDiscount {
  disc_value_type : string;
  disc_value : Q;
  disc_reason : option string
}.

Record Order : Type := mkOrder {
  (* [None]: the default drawn from the database sequence, which no number
     given in the input is equal to *)
  ord_number : option string;
  ord_external_reference : option string;
  ord_channel : option Channel;
  ord_created_at : option Z;
  ord_status : option OrderStatus;
  ord_user : option User;
  ord_billing_address : option Address;
  ord_shipping_address : option Address;
  ord_language_code : string;
  ord_user_email : option string;
  ord_collection_point : option Warehouse;
  ord_collection_point_name : option string;
  ord_shipping_method : option ShippingMethod;
  ord_shipping_method_name : option string;
  ord_shipping_tax_class : option TaxClass;
  ord_shipping_tax_class_name : option string;
  ord_shipping_tax_rate : Q;
  ord_shipping_price_gross_amount : Q;
  ord_shipping_price_net_amount : Q;
  ord_total_gross_amount : Q;
  ord_undiscounted_total_gross_amount : Q;
  ord_total_net_amount : Q;
  ord_undiscounted_total_net_amount : Q;
  ord_customer_note : string;
  ord_redirect_url : option string;
  ord_weight : Q;
  ord_tracking_client_id : option string;
  ord_currency : string;
  ord_voucher : option Voucher;
  ord_metadata : Metadata;
  ord_private_metadata : Metadata;
  ord_shipping_tax_class_metadata : Metadata;
  ord_shipping_tax_class_private_metadata : Metadata
}.

(** [Order(currency=...)]; the origin is set to BULK_CREATE and
    [should_refresh_prices] to False on every order and are left out. *)
Definition new_Order (currency : string) : Order :=
  {| ord_number := None; ord_external_reference := None;
     ord_channel := None; ord_created_at := None; ord_status := None;
     ord_user := None; ord_billing_address := None;
     ord_shipping_address := None; ord_language_code := EmptyString;
     ord_user_email := None; ord_collection_point := None;
     ord_collection_point_name := None; ord_shipping_method := None;
     ord_shipping_method_name := None; ord_shipping_tax_class := None;
     ord_shipping_tax_class_name := None; ord_shipping_tax_rate := 0%Q;
     ord_shipping_price_gross_amount := 0%Q;
     ord_shipping_price_net_amount := 0%Q; ord_total_gross_amount := 0%Q;
     ord_undiscounted_total_gross_amount := 0%Q;
     ord_total_net_amount := 0%Q;
     ord_undiscounted_total_net_amount := 0%Q; ord_customer_note := EmptyString;
     ord_redirect_url := None; ord_weight := 0%Q;
     ord_tracking_client_id := None; ord_currency := currency;
     ord_voucher := None; ord_metadata := ∅; ord_private_metadata := ∅;
     ord_shipping_tax_class_metadata := ∅;
     ord_shipping_tax_class_private_metadata := ∅ |}.

(** ** The in-memory aggregate of one order *)

Record OrderBulkFulfillmentLine : Type := mkBulkFulfillmentLine {
  bfl_line : FulfillmentLine;
  bfl_warehouse : Warehouse
}.

Record OrderBulkFulfillment : Type := mkBulkFulfillment {
  bf_fulfillment : Fulfillment;
  bf_lines : list OrderBulkFulfillmentLine
}.

Record OrderBulkOrderLine : Type := mkBulkOrderLine {
  bol_line : OrderLine;
  bol_warehouse : Warehouse
}.

Record OrderBulkClass : Type := mkOrderBulkClass {
  order : option Order;
  errors : list OrderBulkError;
  lines : list OrderBulkOrderLine;
  notes : list OrderEvent;
  fulfillments : list OrderBulkFulfillment;
  transactions : list TransactionItem;
  invoices : list Invoice;
  discounts : list OrderDiscount;
  gift_cards : list GiftCard;
  user : option User;
  billing_address : option Address;
  channel : option Channel;
  shipping_address : option Address;
  voucher : option Voucher;
  (* error which ignores error policy and disqualify order *)
  is_critical_error : bool
}.

(** [OrderBulkClass()] *)
Definition new_OrderBulkClass : OrderBulkClass :=
  {| order := None; errors := []; lines := []; notes := [];
     fulfillments := []; transactions := []; invoices := [];
     discounts := []; gift_cards := []; user := None;
     billing_address := None; channel := None; shipping_address := None;
     voucher := None; is_critical_error := false |}.

(** Field assignments on the aggregate ([order.errors = ...] and the like). *)
Definition set_order (v : option Order) (o : OrderBulkClass) : OrderBulkClass :=
  {| order := v; errors := errors o; lines := lines o; notes := notes o;
     fulfillments := fulfillments o; transactions := transactions o;
     invoices := invoices o; discounts := discounts o;
     gift_cards := gift_cards o; user := user o;
     billing_address := billing_address o; channel := channel o;
     shipping_address := shipping_address o; voucher := voucher o;
     is_critical_error := is_critical_error o |}.

Definition set_errors (v : list OrderBulkError) (o : OrderBulkClass) : OrderBulkClass :=
  {| order := order o; errors := v; lines := lines o; notes := notes o;
     fulfillments := fulfillments o; transactions := transactions o;
     invoices := invoices o; discounts := discounts o;
     gift_cards := gift_cards o; user := user o;
     billing_address := billing_address o; channel := channel o;
     shipping_address := shipping_address o; voucher := voucher o;
     is_critical_error := is_critical_error o |}.

Definition set_lines (v : list OrderBulkOrderLine) (o : OrderBulkClass) : OrderBulkClass :=
  {| order := order o; errors := errors o; lines := v; notes := notes o;
     fulfillments := fulfillments o; transactions := transactions o;
     invoices := invoices o; discounts := discounts o;
     gift_cards := gift_cards o; user := user o;
     billing_address := billing_address o; channel := channel o;
     shipping_address := shipping_address o; voucher := voucher o;
     is_critical_error := is_critical_error o |}.

Definition set_notes (v : list OrderEvent) (o : OrderBulkClass) : OrderBulkClass :=
  {| order := order o; errors := errors o; lines := lines o; notes := v;
     fulfillments := fulfillments o; transactions := transactions o;
     invoices := invoices o; discounts := discounts o;
     gift_cards := gift_cards o; user := user o;
     billing_address := billing_address o; channel := channel o;
     shipping_address := shipping_address o; voucher := voucher o;
     is_critical_error := is_critical_error o |}.

Definition set_fulfillments (v : list OrderBulkFulfillment) (o : OrderBulkClass) : OrderBulkClass :=
  {| order := order o; errors := errors o; lines := lines o; notes := notes o;
     fulfillments := v; transactions := transactions o;
     invoices := invoices o; discounts := discounts o;
     gift_cards := gift_cards o; user := user o;
     billing_address := billing_address o; channel := channel o;
     shipping_address := shipping_address o; voucher := voucher o;
     is_critical_error := is_critical_error o |}.

Definition set_transactions (v : list TransactionItem) (o : OrderBulkClass) : OrderBulkClass :=
  {| order := order o; errors := errors o; lines := lines o; notes := notes o;
     fulfillments := fulfillments o; transactions := v;
     invoices := invoices o; discounts := discounts o;
     gift_cards := gift_cards o; user := user o;
     billing_address := billing_address o; channel := channel o;
     shipping_address := shipping_address o; voucher := voucher o;
     is_critical_error := is_critical_error o |}.

Definition set_invoices (v : list Invoice) (o : OrderBulkClass) : OrderBulkClass :=
  {| order := order o; errors := errors o; lines := lines o; notes := notes o;
     fulfillments := fulfillments o; transactions := transactions o;
     invoices := v; discounts := discounts o;
     gift_cards := gift_cards o; user := user o;
     billing_address := billing_address o; channel := channel o;
     shipping_address := shipping_address o; voucher := voucher o;
     is_critical_error := is_critical_error o |}.

Definition set_discounts (v : list OrderDiscount) (o : OrderBulkClass) : OrderBulkClass :=
  {| order := order o; errors := errors o; lines := lines o; notes := notes o;
     fulfillments := fulfillments o; transactions := transactions o;
     invoices := invoices o; discounts := v;
     gift_cards := gift_cards o; user := user o;
     billing_address := billing_address o; channel := channel o;
     shipping_address := shipping_address o; voucher := voucher o;
     is_critical_error := is_critical_error o |}.

Definition set_gift_cards (v : list GiftCard) (o : OrderBulkClass) : OrderBulkClass :=
  {| order := order o; errors := errors o; lines := lines o; notes := notes o;
     fulfillments := fulfillments o; transactions := transactions o;
     invoices := invoices o; discounts := discounts o;
     gift_cards := v; user := user o;
     billing_address := billing_address o; channel := channel o;
     shipping_address := shipping_address o; voucher := voucher o;
     is_critical_error := is_critical_error o |}.

Definition set_is_critical_error (v : bool) (o : OrderBulkClass) : OrderBulkClass :=
  {| order := order o; errors := errors o; lines := lines o; notes := notes o;
     fulfillments := fulfillments o; transactions := transactions o;
     invoices := invoices o; discounts := discounts o;
     gift_cards := gift_cards o; user := user o;
     billing_address := billing_address o; channel := channel o;
     shipping_address := shipping_address o; voucher := voucher o;
     is_critical_error := v |}.

(** [order.user = user; order.channel = channel; ...] at the end of
    [get_instances_related_to_order]. *)
Definition set_related (u : option User) (c : option Channel)
    (b s : option Address) (v : option Voucher) (o : OrderBulkClass) : OrderBulkClass :=
  {| order := order o; errors := errors o; lines := lines o; notes := notes o;
     fulfillments := fulfillments o; transactions := transactions o;
     invoices := invoices o; discounts := discounts o;
     gift_cards := gift_cards o; user := u;
     billing_address := b; channel := c;
     shipping_address := s; voucher := v;
     is_critical_error := is_critical_error o |}.

(** ** Derived properties of the aggregate *)

(** Python's [sum] over integers. *)
Definition sum_Z (l : list Z) : Z := fold_left Z.add l 0.

(** The key of a stock row in the stock dictionary:
    [f"{variant_id}_{warehouse_id}"]. *)
Definition stock_key (variant : Z) (warehouse : string) : string :=
  pretty variant +:+ "_" +:+ warehouse.

Definition order_lines_duplicates (o : OrderBulkClass) : bool :=
  let keys :=
    map (fun l => stock_key (variant_id (ol_variant (bol_line l)))
                            (warehouse_id (bol_warehouse l)))
        (lines o) in
  negb (length keys =? length (remove_dups keys))%nat.

Definition all_order_lines (o : OrderBulkClass) : list OrderLine :=
  map bol_line (lines o).

Definition all_fulfillment_lines (o : OrderBulkClass) : list FulfillmentLine :=
  concat (map (fun f => map bfl_line (bf_lines f)) (fulfillments o)).

(** The [defaultdict(list)] from an order line's key to the fulfillment
    lines that refer to it, filled in fulfillment order. *)
Definition orderline_fulfillmentlines_map (o : OrderBulkClass)
    : gmap nat (list OrderBulkFulfillmentLine) :=
  fold_left
    (fun m f =>
       fold_left
         (fun m l =>
            let k := fl_order_line (bfl_line l) in
            <[k := default [] (m !! k) ++ [l]]> m)
         (bf_lines f) m)
    (fulfillments o) ∅.

Definition orderline_quantityfulfilled_map (o : OrderBulkClass) : gmap nat Z :=
  (fun ls => sum_Z (map (fun l => fl_quantity (bfl_line l)) ls))
    <$> orderline_fulfillmentlines_map o.

Definition unique_variant_ids (o : OrderBulkClass) : list Z :=
  remove_dups (map (fun l => variant_id (ol_variant (bol_line l))) (lines o)).

Definition unique_warehouse_ids (o : OrderBulkClass) : list string :=
  remove_dups (map (fun l => warehouse_id (bol_warehouse l)) (lines o)).

Definition total_order_quantity (o : OrderBulkClass) : Z :=
  sum_Z (map (fun l => ol_quantity (bol_line l)) (lines o)).

Definition total_fulfillment_quantity (o : OrderBulkClass) : Z :=
  sum_Z (map fl_quantity (all_fulfillment_lines o)).

Definition with_quantity_fulfilled (q : Z) (l : OrderLine) : OrderLine :=
  {| ol_id := ol_id l; ol_variant := ol_variant l;
     ol_product_name := ol_product_name l;
     ol_variant_name := ol_variant_name l;
     ol_translated_product_name := ol_translated_product_name l;
     ol_translated_variant_name := ol_translated_variant_name l;
     ol_created_at := ol_created_at l;
     ol_is_shipping_required := ol_is_shipping_required l;
     ol_is_gift_card := ol_is_gift_card l; ol_currency := ol_currency l;
     ol_quantity := ol_quantity l;
     ol_unit_price_net_amount := ol_unit_price_net_amount l;
     ol_unit_price_gross_amount := ol_unit_price_gross_amount l;
     ol_total_price_net_amount := ol_total_price_net_amount l;
     ol_total_price_gross_amount := ol_total_price_gross_amount l;
     ol_undiscounted_unit_price_net_amount :=
       ol_undiscounted_unit_price_net_amount l;
     ol_undiscounted_unit_price_gross_amount :=
       ol_undiscounted_unit_price_gross_amount l;
     ol_undiscounted_total_price_net_amount :=
       ol_undiscounted_total_price_net_amount l;
     ol_undiscounted_total_price_gross_amount :=
       ol_undiscounted_total_price_gross_amount l;
     ol_tax_rate := ol_tax_rate l; ol_tax_class := ol_tax_class l;
     ol_tax_class_name := ol_tax_class_name l;
     ol_metadata := ol_metadata l;
     ol_private_metadata := ol_private_metadata l;
     ol_tax_class_metadata := ol_tax_class_metadata l;
     ol_tax_class_private_metadata := ol_tax_class_private_metadata l;
     ol_quantity_fulfilled := q |}.

Definition set_quantity_fulfilled (o : OrderBulkClass) : OrderBulkClass :=
  let m := orderline_quantityfulfilled_map o in
  set_lines
    (map (fun l =>
            {| bol_line :=
                 with_quantity_fulfilled
                   (default 0 (m !! ol_id (bol_line l))) (bol_line l);
               bol_warehouse := bol_warehouse l |})
         (lines o))
    o.

Fixpoint number_fulfillments (n : Z) (fs : list OrderBulkFulfillment)
    : list OrderBulkFulfillment :=
  match fs with
  | [] => []
  | f :: rest =>
      {| bf_fulfillment :=
           {| ful_id := ful_id (bf_fulfillment f);
              ful_tracking_number := ful_tracking_number (bf_fulfillment f);
              ful_fulfillment_order := n |};
         bf_lines := bf_lines f |}
      :: number_fulfillments (n + 1) rest
  end.

Definition set_fulfillment_order (o : OrderBulkClass) : OrderBulkClass :=
  set_fulfillments (number_fulfillments 1 (fulfillments o)) o.

Definition set_fulfillment_id (o : OrderBulkClass) : OrderBulkClass :=
  set_fulfillments
    (map (fun f =>
            {| bf_fulfillment := bf_fulfillment f;
               bf_lines :=
                 map (fun l =>
                        {| bfl_line :=
                             {| fl_order_line := fl_order_line (bfl_line l);
                                fl_quantity := fl_quantity (bfl_line l);
                                fl_fulfillment_id := ful_id (bf_fulfillment f) |};
                           bfl_warehouse := bfl_warehouse l |})
                     (bf_lines f) |})
         (fulfillments o))
    o.

(** ** Input documents

    Every input record carries the fields the source reads.  Calls to
    collaborators that are not part of the sources are carried by their
    outcome on the fragment: [Resolved] for [get_instance], an optional
    value or message for the address, URL, discount and transaction
    validators. *)

Record TaxedMoneyInput : Type := { tm_gross : Q; tm_net : Q }.

Record MetadataInput : Type := { md_key : string; md_value : string }.

Record OrderBulkCreateUserInput : Type := {
  usr_id : option string;
  usr_email : option string;
  usr_external_reference : option string;
  (* get_instance over id / email / external_reference, path "user" *)
  usr_resolved : Resolved User
}.

Record OrderBulkCreateInvoiceInput : Type := {
  inv_in_created_at : Z;
  inv_in_number : option string;
  inv_in_url : option string;
  (* whether [URLValidator()(url)] accepts the url *)
  inv_in_url_valid : bool;
  inv_in_metadata : list MetadataInput;
  inv_in_private_metadata : list MetadataInput
}.

Record OrderBulkCreateDeliveryMethodInput : Type := {
  dm_warehouse_id : option string;
  dm_warehouse_name : option string;
  dm_shipping_method_id : option string;
  dm_shipping_method_name : option string;
  dm_shipping_price : option TaxedMoneyInput;
  dm_shipping_tax_rate : option Q;
  dm_shipping_tax_class_id : option string;
  dm_shipping_tax_class_name : option string;
  dm_shipping_tax_class_metadata : list MetadataInput;
  dm_shipping_tax_class_private_metadata : list MetadataInput;
  (* get_instance over warehouse_id, shipping_method_id and
     shipping_tax_class_id, path "delivery_method" *)
  dm_warehouse : Resolved Warehouse;
  dm_shipping_method : Resolved ShippingMethod;
  dm_shipping_tax_class : Resolved TaxClass
}.

Record OrderBulkCreateNoteInput : Type := {
  note_message : string;
  note_date : option Z;
  note_user_id : option string;
  note_user_email : option string;
  note_user_external_reference : option string;
  note_app_id : option string;
  (* get_instance over the user keys and over app_id, path "notes.[i]" *)
  note_user : Resolved User;
  note_app : Resolved App
}.

Record OrderBulkCreateFulfillmentLineInput : Type := {
  fli_quantity : Z;
  fli_order_line_index : Z;
  (* get_instance over the variant keys and over warehouse *)
  fli_variant : Resolved ProductVariant;
  fli_warehouse : Resolved Warehouse
}.

Record OrderBulkCreateFulfillmentInput : Type := {
  ful_in_tracking_code : option string;
  ful_in_lines : list OrderBulkCreateFulfillmentLineInput
}.

Record OrderBulkCreateOrderLineInput : Type := {
  li_variant_name : option string;
  li_product_name : option string;
  li_translated_variant_name : option string;
  li_translated_product_name : option string;
  li_created_at : Z;
  li_is_shipping_required : bool;
  li_is_gift_card : bool;
  li_quantity : Z;
  li_total_price : TaxedMoneyInput;
  li_undiscounted_total_price : TaxedMoneyInput;
  li_metadata : list MetadataInput;
  li_private_metadata : list MetadataInput;
  li_tax_rate : option Q;
  li_tax_class_name : option string;
  li_tax_class_metadata : list MetadataInput;
  li_tax_class_private_metadata : list MetadataInput;
  (* get_instance over the variant keys, warehouse and tax_class_id,
     path "lines.[i]" *)
  li_variant : Resolved ProductVariant;
  li_warehouse : Resolved Warehouse;
  li_tax_class : Resolved TaxClass
}.

Record OrderDiscountInput : Type := {
  di_value_type : string;
  di_value : Q;
  di_reason : option string;
  (* [err.messages[0]] when validate_order_discount_input raises *)
  di_invalid : option string
}.

(** What [TransactionCreate.prepare_transaction_item_for_order] does on a
    transaction input: the item, or a ValidationError whose [error_dict]
    gives one (message, code) per field. *)
Inductive TransactionOutcome : Type :=
  | Prepared (t : TransactionItem)
  | Rejected (errs : list (string * OrderBulkCreateErrorCode)).

Record OrderBulkCreateInput : Type := {
  oi_number : option string;
  oi_external_reference : option string;
  oi_created_at : Z;
  oi_status : OrderStatus;
  oi_user : OrderBulkCreateUserInput;
  oi_tracking_client_id : option string;
  (* validate_address on billing_address; None when it raises *)
  oi_billing_address : option Address;
  (* shipping_address when given, with the outcome of validate_address *)
  oi_shipping_address : option (option Address);
  oi_currency : string;
  oi_metadata : list MetadataInput;
  oi_private_metadata : list MetadataInput;
  oi_customer_note : option string;
  oi_notes : list OrderBulkCreateNoteInput;
  oi_language_code : string;
  oi_weight : option Q;
  (* redirect_url with the message of the ValidationError that
     validate_storefront_url raises on it, if any *)
  oi_redirect_url : option (string * option string);
  oi_lines : list OrderBulkCreateOrderLineInput;
  oi_delivery_method : OrderBulkCreateDeliveryMethodInput;
  oi_gift_cards : list string;
  oi_voucher : option string;
  oi_discounts : list OrderDiscountInput;
  oi_fulfillments : list OrderBulkCreateFulfillmentInput;
  oi_transactions : list TransactionOutcome;
  oi_invoices : list OrderBulkCreateInvoiceInput;
  (* get_instance over channel (slug) and over voucher (code) *)
  oi_channel : Resolved Channel;
  oi_voucher_resolved : Resolved Voucher
}.

(** Python truthiness of an optional string: present and not empty. *)
Definition truthy (s : option string) : bool :=
  match s with
  | Some (String _ _) => true
  | _ => false
  end.

(** ** The object storage

    The dictionary built by [get_all_instances], split by key pattern.  The
    entries that only [get_instance] reads are represented by the
    [Resolved] outcomes of the input. *)
Record ObjectStorage : Type := mkStorage {
  (* "Order.number.{number}": numbers of orders that already exist *)
  os_order_numbers : gset string;
  (* "GiftCard.code.{code}" *)
  os_gift_cards : gmap string GiftCard;
  (* "shipping_price.{shipping_method_id}" *)
  os_shipping_prices : gmap Z Q
}.

(** ** Environment and state of the construction of one order *)

Record Env : Type := mkEnv {
  (* the successive readings of [timezone.now()] *)
  clock : nat -> Z;
  (* [get_currency_precision], as used by quantize_price *)
  currency_precision : string -> Z;
  (* price_amount of the first ShippingMethodChannelListing of a shipping
     method in a channel *)
  listing_price : Z -> Z -> option Q
}.

Record State : Type := mkState {
  st_order : OrderBulkClass;
  st_storage : ObjectStorage;
  st_ticks : nat
}.

(** Computations that update the state or end with an uncaught exception. *)
Definition M (A : Type) : Type := State -> Exception + (A * State).

#[global] Instance M_ret : MRet M := fun A a s => inr (a, s).
#[global] Instance M_bind : MBind M := fun A B f m s =>
  match m s with
  | inl e => inl e
  | inr (a, s') => f a s'
  end.

Definition raise {A : Type} (e : Exception) : M A := fun _ => inl e.

Definition get_order : M OrderBulkClass := fun s => inr (st_order s, s).

Definition modify_order (f : OrderBulkClass -> OrderBulkClass) : M unit :=
  fun s => inr (tt, {| st_order := f (st_order s);
                       st_storage := st_storage s;
                       st_ticks := st_ticks s |}).

Definition get_storage : M ObjectStorage := fun s => inr (st_storage s, s).

Definition put_storage (os : ObjectStorage) : M unit :=
  fun s => inr (tt, {| st_order := st_order s;
                       st_storage := os;
                       st_ticks := st_ticks s |}).

Definition lift {A : Type} (r : Exception + A) : M A :=
  fun s => match r with inl e => inl e | inr a => inr (a, s) end.

(** [errors.append(e)] on the error list of the order being built. *)
Definition append_error (e : OrderBulkError) : M unit :=
  modify_order (fun o => set_errors (errors o ++ [e]) o).

Definition when (b : bool) (m : M unit) : M unit :=
  if b then m else mret tt.

Record DeliveryMethod : Type := mkDeliveryMethod {
  dlv_warehouse : option Warehouse;
  dlv_shipping_method : option ShippingMethod;
  dlv_shipping_tax_class : option TaxClass;
  dlv_shipping_tax_class_metadata : list MetadataInput;
  dlv_shipping_tax_class_private_metadata : list MetadataInput
}.

Record OrderAmounts : Type := mkOrderAmounts {
  oa_shipping_price_gross : Q;
  oa_shipping_price_net : Q;
  oa_total_gross : Q;
  oa_total_net : Q;
  oa_undiscounted_total_gross : Q;
  oa_undiscounted_total_net : Q;
  oa_shipping_tax_rate : Q
}.

Record LineAmounts : Type := mkLineAmounts {
  la_total_gross : Q;
  la_total_net : Q;
  la_unit_gross : Q;
  la_unit_net : Q;
  la_undiscounted_total_gross : Q;
  la_undiscounted_total_net : Q;
  la_undiscounted_unit_gross : Q;
  la_undiscounted_unit_net : Q;
  la_quantity : Z;
  la_tax_rate : option Q
}.

(** [str.strip()] leaves nothing: every character is (ASCII) whitespace. *)
Definition is_space (a : ascii) : bool :=
  let n := nat_of_ascii a in
  ((9 <=? n) && (n <=? 13) || (28 <=? n) && (n <=? 32))%nat.

Fixpoint blank (s : string) : bool :=
  match s with
  | EmptyString => true
  | String a rest => is_space a && blank rest
  end.

(** Modelled from the spec: [metadata_contains_empty_key]
    (saleor/graphql/payment/utils.py is not among the sources), the test
    behind METADATA_KEY_REQUIRED: some key is empty once stripped, the
    condition under which the source then drops entries. *)
Definition metadata_contains_empty_key (metadata : list MetadataInput) : bool :=
  existsb (fun d => blank (md_key d)) metadata.

Section Construction.

Variable env : Env.

Definition timezone_now : M Z :=
  fun s => inr (clock env (st_ticks s),
                {| st_order := st_order s; st_storage := st_storage s;
                   st_ticks := S (st_ticks s) |}).

(** We accept future time values with 5 minutes from current time. *)
Definition is_datetime_valid (date : Z) : M bool :=
  now ← timezone_now;
  mret (date <? now + timedelta_minutes MINUTES_DIFF).

(** Modelled from the spec: [quantize_price] (saleor/core/prices.py is
    not among the sources) quantizes an amount to the currency's
    minor-unit precision. *)
Definition quantize_price (price : Q) (currency : string) : Exception + Q :=
  Decimal.quantize price (currency_precision env currency).

Definition validate_order_input (order_input : OrderBulkCreateInput) : M unit :=
  valid ← is_datetime_valid (oi_created_at order_input);
  when (negb valid)
    (append_error
       (mkError "Order input contains future date."
                (Some FUTURE_DATE) (Some "created_at")));;
  match oi_redirect_url order_input with
  | Some (String _ _, Some err_message) =>
      append_error
        (mkError ("Invalid redirect url: " +:+ err_message +:+ ".")
                 (Some INVALID) (Some "redirect_url"))
  | _ => mret tt
  end;;
  match oi_weight order_input with
  | Some w =>
      when (Decimal.lt w 0)
        (append_error
           (mkError "Order can't have negative weight."
                    (Some INVALID) (Some "weight")))
  | None => mret tt
  end;;
  match oi_number order_input with
  | Some (String _ _ as number) =>
      os ← get_storage;
      when (bool_decide (number ∈ os_order_numbers os))
        (append_error
           (mkError ("Order with number: " +:+ number +:+ " already exists.")
                    (Some UNIQUE) (Some "number"));;
         modify_order (set_is_critical_error true))
  | _ => mret tt
  end.

Definition validate_order_status (status : OrderStatus) : M unit :=
  o ← get_order;
  let total_order_quantity := total_order_quantity o in
  let total_fulfillment_quantity := total_fulfillment_quantity o in
  let is_invalid :=
    (total_fulfillment_quantity =? 0)
      && bool_decide (status ∈ [PARTIALLY_FULFILLED; FULFILLED])
    || (0 <? total_fulfillment_quantity)
         && (0 <? total_order_quantity - total_fulfillment_quantity)
         && bool_decide (status ∈ [FULFILLED; UNFULFILLED])
    || (total_order_quantity =? total_fulfillment_quantity)
         && bool_decide (status ∈ [PARTIALLY_FULFILLED; UNFULFILLED]) in
  when is_invalid
    (append_error
       (mkError "Invalid order status." (Some INVALID) (Some "status"))).

(** Returns the updated [field] dictionary. *)
Definition process_metadata (metadata : list MetadataInput)
    (path : string) (field : Metadata) : M Metadata :=
  kept ←
    (if metadata_contains_empty_key metadata then
       append_error
         (mkError "Metadata key cannot be empty."
                  (Some METADATA_KEY_REQUIRED) (Some path));;
       mret (filter (fun d => negb (blank (md_key d)) = true) metadata)
     else mret metadata);
  mret (fold_left (fun f d => <[md_key d := md_value d]> f) kept field).

(** [if metadata := input.get(...): process_metadata(...)] *)
Definition process_metadata_if_given (metadata : list MetadataInput)
    (path : string) (field : Metadata) : M Metadata :=
  match metadata with
  | [] => mret field
  | _ => process_metadata metadata path field
  end.

Definition get_instance_with_errors {A : Type} (r : Resolved A) : M (option A) :=
  match r with
  | Instance a => mret (Some a)
  | NoInstance => mret None
  | Raises err =>
      append_error
        (mkError (ve_message err) (Some (ve_code err)) (ve_path err));;
      mret None
  end.

Fixpoint resolve_gift_cards (codes : list string) (code_index : nat) : M unit :=
  match codes with
  | [] => mret tt
  | code :: rest =>
      os ← get_storage;
      match os_gift_cards os !! code with
      | Some gift_card =>
          modify_order (fun o => set_gift_cards (gift_cards o ++ [gift_card]) o);;
          resolve_gift_cards rest (S code_index)
      | None =>
          append_error
            (mkError ("Gift card with code " +:+ code +:+ " doesn't exist.")
                     (Some NOT_FOUND)
                     (Some ("gift_cards.[" +:+ pretty code_index +:+ "]")));;
          resolve_gift_cards rest code_index
      end
  end.

(** Get all instances of objects needed to create an order. *)
Definition get_instances_related_to_order (order_input : OrderBulkCreateInput) : M unit :=
  user ← get_instance_with_errors (usr_resolved (oi_user order_input));
  (* If user can't be found, but email is provided, consider it as valid. *)
  match user with
  | Some _ => mret tt
  | None =>
      o ← get_order;
      match last (errors o) with
      | None => raise IndexError
      | Some e =>
          when (bool_decide (code e = Some NOT_FOUND)
                && truthy (usr_email (oi_user order_input)))
            (modify_order (fun o => set_errors (removelast (errors o)) o))
      end
  end;;
  channel ← get_instance_with_errors (oi_channel order_input);
  billing_address ←
    match oi_billing_address order_input with
    | Some a => mret (Some a)
    | None =>
        append_error
          (mkError "Invalid billing address."
                   (Some INVALID) (Some "billing_address"));;
        mret None
    end;
  shipping_address ←
    match oi_shipping_address order_input with
    | None => mret None
    | Some (Some a) => mret (Some a)
    | Some None =>
        append_error
          (mkError "Invalid shipping address."
                   (Some INVALID) (Some "shipping_address"));;
        mret None
    end;
  voucher ←
    (if truthy (oi_voucher order_input)
     then get_instance_with_errors (oi_voucher_resolved order_input)
     else mret None);
  resolve_gift_cards (oi_gift_cards order_input) 0;;
  modify_order (set_related user channel billing_address shipping_address voucher).

Definition make_order_line_calculations
    (line_input : OrderBulkCreateOrderLineInput) (currency : string)
    (index : nat) : M (option LineAmounts) :=
  let gross_amount := tm_gross (li_total_price line_input) in
  let net_amount := tm_net (li_total_price line_input) in
  let undiscounted_gross_amount :=
    tm_gross (li_undiscounted_total_price line_input) in
  let undiscounted_net_amount :=
    tm_net (li_undiscounted_total_price line_input) in
  let quantity := li_quantity line_input in
  let tax_rate := li_tax_rate line_input in
  let bad_quantity := quantity <? 1 in
  let bad_price := Decimal.lt gross_amount net_amount in
  let bad_undiscounted :=
    Decimal.lt undiscounted_gross_amount undiscounted_net_amount in
  when bad_quantity
    (append_error
       (mkError "Invalid quantity. Must be integer greater then or equal to 1."
                (Some INVALID_QUANTITY)
                (Some ("lines.[" +:+ pretty index +:+ "].quantity"))));;
  when bad_price
    (append_error
       (mkError "Net price can't be greater then gross price."
                (Some PRICE_ERROR)
                (Some ("lines.[" +:+ pretty index +:+ "].total_price"))));;
  when bad_undiscounted
    (append_error
       (mkError "Net price can't be greater then gross price."
                (Some PRICE_ERROR)
                (Some ("lines.[" +:+ pretty index
                         +:+ "].undiscounted_total_price"))));;
  if bad_quantity || bad_price || bad_undiscounted then mret None
  else
    let unit_of (amount : Q) : M Q :=
      q ← lift (Decimal.div amount (inject_Z quantity));
      lift (quantize_price q currency) in
    unit_price_net_amount ← unit_of net_amount;
    unit_price_gross_amount ← unit_of gross_amount;
    undiscounted_unit_price_net_amount ← unit_of undiscounted_net_amount;
    undiscounted_unit_price_gross_amount ← unit_of undiscounted_gross_amount;
    tax_rate ←
      match tax_rate with
      | None =>
          if Decimal.lt 0 net_amount then
            r ← lift (Decimal.div gross_amount net_amount);
            mret (Some (Decimal.sub r 1))
          else mret None
      | Some r => mret (Some r)
      end;
    mret (Some
            {| la_total_gross := gross_amount;
               la_total_net := net_amount;
               la_unit_gross := unit_price_gross_amount;
               la_unit_net := unit_price_net_amount;
               la_undiscounted_total_gross := undiscounted_gross_amount;
               la_undiscounted_total_net := undiscounted_net_amount;
               la_undiscounted_unit_gross := undiscounted_unit_price_gross_amount;
               la_undiscounted_unit_net := undiscounted_unit_price_net_amount;
               la_quantity := quantity;
               la_tax_rate := tax_rate |}).

(** Python's [sum] over Decimals: additions in the decimal context. *)
Definition sum_decimal (l : list Q) : Q := fold_left Decimal.add l 0%Q.

(** Calculate all order amount fields. *)
Definition make_order_calculations (delivery_method : DeliveryMethod)
    (order_lines : list OrderLine) (channel : Channel)
    (delivery_input : OrderBulkCreateDeliveryMethodInput) : M OrderAmounts :=
  (* Calculate shipping amounts *)
  let shipping_price_tax_rate0 :=
    default 0%Q (dm_shipping_tax_rate delivery_input) in
  '(shipping_price_net_amount, shipping_price_gross_amount,
    shipping_price_tax_rate) ←
    match dlv_shipping_method delivery_method with
    | None => mret (0%Q, 0%Q, shipping_price_tax_rate0)
    | Some shipping_method =>
        match dm_shipping_price delivery_input with
        | Some shipping_price =>
            let net := tm_net shipping_price in
            let gross := tm_gross shipping_price in
            r ← lift (Decimal.div gross net);
            mret (net, gross, Decimal.sub r 1)
        | None =>
            let lookup_key := shipping_method_id shipping_method in
            os ← get_storage;
            let cached :=
              match os_shipping_prices os !! lookup_key with
              | Some p => if Qeq_bool p 0 then None else Some p
              | None => None
              end in
            let db_price_amount :=
              match cached with
              | Some p => Some p
              | None => listing_price env lookup_key (channel_id channel)
              end in
            match db_price_amount with
            | Some p =>
                if Qeq_bool p 0
                then mret (0%Q, 0%Q, shipping_price_tax_rate0)
                else
                  put_storage
                    {| os_order_numbers := os_order_numbers os;
                       os_gift_cards := os_gift_cards os;
                       os_shipping_prices :=
                         <[lookup_key := p]> (os_shipping_prices os) |};;
                  mret (p,
                        Decimal.mul p (Decimal.add 1 shipping_price_tax_rate0),
                        shipping_price_tax_rate0)
            | None => mret (0%Q, 0%Q, shipping_price_tax_rate0)
            end
        end
    end;
  (* Calculate lines *)
  mret
    {| oa_shipping_price_gross := shipping_price_gross_amount;
       oa_shipping_price_net := shipping_price_net_amount;
       oa_shipping_tax_rate := shipping_price_tax_rate;
       oa_total_gross :=
         sum_decimal (map ol_total_price_gross_amount order_lines);
       oa_total_net :=
         sum_decimal (map ol_total_price_net_amount order_lines);
       oa_undiscounted_total_gross :=
         sum_decimal (map ol_undiscounted_total_price_gross_amount order_lines);
       oa_undiscounted_total_net :=
         sum_decimal (map ol_undiscounted_total_price_net_amount order_lines) |}.

Definition get_delivery_method
    (input : OrderBulkCreateDeliveryMethodInput) : M (option DeliveryMethod) :=
  let is_warehouse_delivery := truthy (dm_warehouse_id input) in
  let is_shipping_delivery := truthy (dm_shipping_method_id input) in
  when (is_warehouse_delivery && is_shipping_delivery)
    (append_error
       (mkError "Can't provide both warehouse and shipping method IDs."
                (Some TOO_MANY_IDENTIFIERS) (Some "delivery_method")));;
  warehouse ←
    (if is_warehouse_delivery
     then get_instance_with_errors (dm_warehouse input)
     else mret None);
  '(shipping_method, shipping_tax_class, shipping_tax_class_metadata,
    shipping_tax_class_private_metadata) ←
    (if is_shipping_delivery then
       sm ← get_instance_with_errors (dm_shipping_method input);
       tc ← get_instance_with_errors (dm_shipping_tax_class input);
       mret (sm, tc, dm_shipping_tax_class_metadata input,
             dm_shipping_tax_class_private_metadata input)
     else mret (None, None, [], []));
  match warehouse, shipping_method with
  | None, None =>
      append_error
        (mkError "No delivery method provided."
                 (Some REQUIRED) (Some "delivery_method"));;
      mret None
  | _, _ =>
      mret (Some
              {| dlv_warehouse := warehouse;
                 dlv_shipping_method := shipping_method;
                 dlv_shipping_tax_class := shipping_tax_class;
                 dlv_shipping_tax_class_metadata := shipping_tax_class_metadata;
                 dlv_shipping_tax_class_private_metadata :=
                   shipping_tax_class_private_metadata |})
  end.

Definition create_single_note (note_input : OrderBulkCreateNoteInput)
    (index : nat) : M (option OrderEvent) :=
  if (MAX_NOTE_LENGTH <? String.length (note_message note_input))%nat then
    append_error
      (mkError ("Note message exceeds character limit: "
                  +:+ pretty MAX_NOTE_LENGTH +:+ ".")
               (Some NOTE_LENGTH)
               (Some ("notes.[" +:+ pretty index +:+ "].message")));;
    mret None
  else
    date ←
      match note_date note_input with
      | None => mret None
      | Some d =>
          valid ← is_datetime_valid d;
          if valid : bool then mret (Some d)
          else
            append_error
              (mkError "Note input contains future date."
                       (Some FUTURE_DATE)
                       (Some ("notes.[" +:+ pretty index +:+ "].date")));;
            now ← timezone_now;
            mret (Some now)
      end;
    user ←
      (if truthy (note_user_id note_input)
          || truthy (note_user_email note_input)
          || truthy (note_user_external_reference note_input)
       then get_instance_with_errors (note_user note_input)
       else mret None);
    app ←
      (if truthy (note_app_id note_input)
       then get_instance_with_errors (note_app note_input)
       else mret None);
    '(user, app) ←
      match user, app with
      | Some _, Some _ =>
          append_error
            (mkError "Note input contains both user and app identifier."
                     (Some TOO_MANY_IDENTIFIERS)
                     (Some ("notes.[" +:+ pretty index +:+ "]")));;
          mret (None, None)
      | _, _ => mret (user, app)
      end;
    mret (Some {| ev_date := date; ev_message := note_message note_input;
                  ev_user := user; ev_app := app |}).

Definition create_single_discount (discount_input : OrderDiscountInput)
    (index : nat) : M OrderDiscount :=
  match di_invalid discount_input with
  | Some msg =>
      append_error
        (mkError msg (Some INVALID)
                 (Some ("discounts.[" +:+ pretty index +:+ "]")))
  | None => mret tt
  end;;
  mret {| disc_value_type := di_value_type discount_input;
          disc_value := di_value discount_input;
          disc_reason := di_reason discount_input |}.

Definition create_single_invoice (invoice_input : OrderBulkCreateInvoiceInput)
    (index : nat) : M Invoice :=
  valid ← is_datetime_valid (inv_in_created_at invoice_input);
  created_at ←
    (if valid : bool then mret (Some (inv_in_created_at invoice_input))
     else
       append_error
         (mkError "Invoice input contains future date."
                  (Some FUTURE_DATE)
                  (Some ("invoices.[" +:+ pretty index +:+ "].created_at")));;
       mret None);
  url ←
    (if truthy (inv_in_url invoice_input) then
       if inv_in_url_valid invoice_input
       then mret (inv_in_url invoice_input)
       else
         append_error
           (mkError "Invalid URL format." (Some INVALID)
                    (Some ("invoices.[" +:+ pretty index +:+ "].url")));;
         mret None
     else mret (inv_in_url invoice_input));
  metadata ←
    process_metadata_if_given (inv_in_metadata invoice_input)
      ("invoices.[" +:+ pretty index +:+ "].metadata") ∅;
  private_metadata ←
    process_metadata_if_given (inv_in_private_metadata invoice_input)
      ("invoices.[" +:+ pretty index +:+ "].private_metadata") ∅;
  mret {| inv_number := inv_in_number invoice_input;
          inv_external_url := url;
          inv_created_at := created_at;
          inv_metadata := metadata;
          inv_private_metadata := private_metadata |}.

Definition create_single_order_line
    (order_line_input : OrderBulkCreateOrderLineInput)
    (order_input : OrderBulkCreateInput) (index : nat)
    : M (option OrderBulkOrderLine) :=
  let path := "lines.[" +:+ pretty index +:+ "]" in
  variant ← get_instance_with_errors (li_variant order_line_input);
  match variant with
  | None => mret None
  | Some variant =>
  warehouse ← get_instance_with_errors (li_warehouse order_line_input);
  match warehouse with
  | None => mret None
  | Some warehouse =>
  line_tax_class ← get_instance_with_errors (li_tax_class order_line_input);
  let tax_class_name :=
    match li_tax_class_name order_line_input with
    | Some n => Some n
    | None => tax_class_name <$> line_tax_class
    end in
  line_amounts ←
    make_order_line_calculations order_line_input
      (oi_currency order_input) index;
  match line_amounts with
  | None => mret None
  | Some line_amounts =>
  valid ← is_datetime_valid (li_created_at order_line_input);
  when (negb valid)
    (append_error
       (mkError "Order line input contains future date."
                (Some FUTURE_DATE) (Some (path +:+ ".created_at"))));;
  metadata ←
    process_metadata_if_given (li_metadata order_line_input)
      (path +:+ ".metadata") ∅;
  private_metadata ←
    process_metadata_if_given (li_private_metadata order_line_input)
      (path +:+ ".private_metadata") ∅;
  tax_class_metadata ←
    process_metadata_if_given (li_tax_class_metadata order_line_input)
      (path +:+ ".tax_class_metadata") ∅;
  tax_class_private_metadata ←
    process_metadata_if_given (li_tax_class_private_metadata order_line_input)
      (path +:+ ".tax_class_private_metadata") ∅;
  mret (Some
    {| bol_line :=
         {| ol_id := index;
            ol_variant := variant;
            ol_product_name := default EmptyString (li_product_name order_line_input);
            ol_variant_name :=
              default (variant_name variant) (li_variant_name order_line_input);
            ol_translated_product_name :=
              default EmptyString (li_translated_product_name order_line_input);
            ol_translated_variant_name :=
              default EmptyString (li_translated_variant_name order_line_input);
            ol_created_at := li_created_at order_line_input;
            ol_is_shipping_required := li_is_shipping_required order_line_input;
            ol_is_gift_card := li_is_gift_card order_line_input;
            ol_currency := oi_currency order_input;
            ol_quantity := la_quantity line_amounts;
            ol_unit_price_net_amount := la_unit_net line_amounts;
            ol_unit_price_gross_amount := la_unit_gross line_amounts;
            ol_total_price_net_amount := la_total_net line_amounts;
            ol_total_price_gross_amount := la_total_gross line_amounts;
            ol_undiscounted_unit_price_net_amount :=
              la_undiscounted_unit_net line_amounts;
            ol_undiscounted_unit_price_gross_amount :=
              la_undiscounted_unit_gross line_amounts;
            ol_undiscounted_total_price_net_amount :=
              la_undiscounted_total_net line_amounts;
            ol_undiscounted_total_price_gross_amount :=
              la_undiscounted_total_gross line_amounts;
            ol_tax_rate := la_tax_rate line_amounts;
            ol_tax_class := line_tax_class;
            ol_tax_class_name := tax_class_name;
            ol_metadata := metadata;
            ol_private_metadata := private_metadata;
            ol_tax_class_metadata := tax_class_metadata;
            ol_tax_class_private_metadata := tax_class_private_metadata;
            ol_quantity_fulfilled := 0 |};
       bol_warehouse := warehouse |})
  end end end.

(** The loop of [create_single_fulfillment] over the lines of one
    fulfillment input; [None] is the early [return None]. *)
Fixpoint create_fulfillment_lines (index : nat)
    (order_lines : list OrderBulkOrderLine)
    (lines_input : list OrderBulkCreateFulfillmentLineInput)
    (acc : list OrderBulkFulfillmentLine) (line_index : nat)
    : M (option (list OrderBulkFulfillmentLine)) :=
  match lines_input with
  | [] => mret (Some acc)
  | line_input :: rest =>
      let path :=
        "fulfillments.[" +:+ pretty index +:+ "].lines.["
          +:+ pretty line_index +:+ "]" in
      variant ← get_instance_with_errors (fli_variant line_input);
      match variant with
      | None => mret None
      | Some variant =>
      warehouse ← get_instance_with_errors (fli_warehouse line_input);
      match warehouse with
      | None => mret None
      | Some warehouse =>
      let order_line_index := fli_order_line_index line_input in
      if order_line_index <? 0 then
        append_error
          (mkError "Order line index can't be negative."
                   (Some NEGATIVE_INDEX)
                   (Some (path +:+ ".order_line_index")));;
        mret None
      else
        match order_lines !! Z.to_nat order_line_index with
        | None =>
            append_error
              (mkError ("There is no order line with index: "
                          +:+ pretty order_line_index +:+ ".")
                       (Some NO_RELATED_ORDER_LINE)
                       (Some (path +:+ ".order_line_index")));;
            mret None
        | Some order_line =>
            if negb (String.eqb (warehouse_id (bol_warehouse order_line))
                                (warehouse_id warehouse)) then
              append_error
                (mkError ("Fulfillment line's warehouse is different"
                            +:+ " then order line's warehouse.")
                         (Some ORDER_LINE_FULFILLMENT_LINE_MISMATCH)
                         (Some (path +:+ ".warehouse")));;
              mret None
            else if negb (variant_id (ol_variant (bol_line order_line))
                            =? variant_id variant) then
              append_error
                (mkError ("Fulfillment line's product variant is different"
                            +:+ " then order line's product variant.")
                         (Some ORDER_LINE_FULFILLMENT_LINE_MISMATCH)
                         (Some (path +:+ ".variant_id")));;
              mret None
            else
              let fulfillment_line :=
                {| fl_order_line := ol_id (bol_line order_line);
                   fl_quantity := fli_quantity line_input;
                   fl_fulfillment_id := None |} in
              create_fulfillment_lines index order_lines rest
                (acc ++ [{| bfl_line := fulfillment_line;
                            bfl_warehouse := warehouse |}])
                (S line_index)
        end
      end end
  end.

Definition create_single_fulfillment
    (fulfillment_input : OrderBulkCreateFulfillmentInput)
    (order_lines : list OrderBulkOrderLine) (index : nat)
    : M (option OrderBulkFulfillment) :=
  let fulfillment :=
    {| ful_id := None;
       ful_tracking_number := default EmptyString (ful_in_tracking_code fulfillment_input);
       ful_fulfillment_order := 1 |} in
  lines ←
    create_fulfillment_lines index order_lines
      (ful_in_lines fulfillment_input) [] 0;
  mret ((fun ls => {| bf_fulfillment := fulfillment; bf_lines := ls |})
          <$> lines).

(** The loops of [create_single_order]. *)
Fixpoint create_order_lines
    (order_lines_input : list OrderBulkCreateOrderLineInput)
    (order_input : OrderBulkCreateInput) (order_line_index : nat) : M unit :=
  match order_lines_input with
  | [] => mret tt
  | order_line_input :: rest =>
      order_line ←
        create_single_order_line order_line_input order_input order_line_index;
      match order_line with
      | Some order_line =>
          modify_order (fun o => set_lines (lines o ++ [order_line]) o)
      | None => modify_order (set_is_critical_error true)
      end;;
      create_order_lines rest order_input (S order_line_index)
  end.

Fixpoint create_notes (notes_input : list OrderBulkCreateNoteInput)
    (note_index : nat) : M unit :=
  match notes_input with
  | [] => mret tt
  | note_input :: rest =>
      note ← create_single_note note_input note_index;
      match note with
      | Some note => modify_order (fun o => set_notes (notes o ++ [note]) o)
      | None => mret tt
      end;;
      create_notes rest (S note_index)
  end.

Fixpoint create_fulfillments
    (fulfillments_input : list OrderBulkCreateFulfillmentInput)
    (fulfillment_index : nat) : M unit :=
  match fulfillments_input with
  | [] => mret tt
  | fulfillment_input :: rest =>
      o ← get_order;
      fulfillment ←
        create_single_fulfillment fulfillment_input (lines o) fulfillment_index;
      match fulfillment with
      | Some fulfillment =>
          modify_order
            (fun o => set_fulfillments (fulfillments o ++ [fulfillment]) o)
      | None => modify_order (set_is_critical_error true)
      end;;
      create_fulfillments rest (S fulfillment_index)
  end.

Fixpoint append_transaction_errors
    (errs : list (string * OrderBulkCreateErrorCode))
    (transaction_index : nat) : M unit :=
  match errs with
  | [] => mret tt
  | (msg, c) :: rest =>
      append_error
        (mkError msg (Some c)
                 (Some ("transactions.[" +:+ pretty transaction_index +:+ "]")));;
      append_transaction_errors rest transaction_index
  end.

Fixpoint create_transactions (transactions_input : list TransactionOutcome)
    (transaction_index : nat) : M unit :=
  match transactions_input with
  | [] => mret tt
  | transaction_input :: rest =>
      match transaction_input with
      | Prepared transaction =>
          modify_order
            (fun o => set_transactions (transactions o ++ [transaction]) o)
      | Rejected errs => append_transaction_errors errs transaction_index
      end;;
      create_transactions rest (S transaction_index)
  end.

Fixpoint create_invoices (invoices_input : list OrderBulkCreateInvoiceInput)
    (invoice_index : nat) : M unit :=
  match invoices_input with
  | [] => mret tt
  | invoice_input :: rest =>
      invoice ← create_single_invoice invoice_input invoice_index;
      modify_order (fun o => set_invoices (invoices o ++ [invoice]) o);;
      create_invoices rest (S invoice_index)
  end.

Fixpoint create_discounts (discounts_input : list OrderDiscountInput)
    (discount_index : nat) : M unit :=
  match discounts_input with
  | [] => mret tt
  | discount_input :: rest =>
      discount ← create_single_discount discount_input discount_index;
      modify_order (fun o => set_discounts (discounts o ++ [discount]) o);;
      create_discounts rest (S discount_index)
  end.

(** [a or b] on optional strings. *)
Definition or_else (a b : option string) : option string :=
  if truthy a then a else b.

(** Builds the aggregate of one order in the state; the aggregate starts
    as [OrderBulkClass()].  The call of
    [update_order_display_gross_prices], which only sets the display flag
    of the order from the channel's tax configuration, is left out. *)
Definition create_single_order (order_input : OrderBulkCreateInput) : M unit :=
  validate_order_input order_input;;
  o ← get_order;
  if is_critical_error o then mret tt
  else
  modify_order (set_order (Some (new_Order (oi_currency order_input))));;
  (* get order related instances *)
  get_instances_related_to_order order_input;;
  let delivery_input := oi_delivery_method order_input in
  delivery_method ← get_delivery_method delivery_input;
  o ← get_order;
  match delivery_method, channel o, billing_address o,
        bool_decide (is_Some (user o)) || truthy (usr_email (oi_user order_input)) with
  | Some delivery_method, Some order_channel, Some _, true =>
  (* create lines *)
  create_order_lines (oi_lines order_input) order_input 0;;
  o ← get_order;
  if is_critical_error o then modify_order (set_order None)
  else
  (* calculate order amounts *)
  order_amounts ←
    make_order_calculations delivery_method (all_order_lines o)
      order_channel delivery_input;
  (* create notes *)
  create_notes (oi_notes order_input) 0;;
  (* create fulfillments *)
  create_fulfillments (oi_fulfillments order_input) 0;;
  o ← get_order;
  if is_critical_error o then modify_order (set_order None)
  else
  (* create transactions *)
  create_transactions (oi_transactions order_input) 0;;
  (* create invoices *)
  create_invoices (oi_invoices order_input) 0;;
  (* create discounts *)
  create_discounts (oi_discounts order_input) 0;;
  validate_order_status (oi_status order_input);;
  metadata ←
    process_metadata_if_given (oi_metadata order_input) "metadata" ∅;
  private_metadata ←
    process_metadata_if_given (oi_private_metadata order_input)
      "private_metadata" ∅;
  shipping_metadata ←
    process_metadata_if_given
      (dlv_shipping_tax_class_metadata delivery_method)
      "delivery_method.shipping_tax_class_metadata" ∅;
  shipping_private_metadata ←
    process_metadata_if_given
      (dlv_shipping_tax_class_private_metadata delivery_method)
      "delivery_method.shipping_tax_class_private_metadata" ∅;
  modify_order (fun o => set_order (Some
    {| ord_number :=
         if truthy (oi_number order_input)
         then oi_number order_input else None;
       ord_external_reference := oi_external_reference order_input;
       ord_channel := channel o;
       ord_created_at := Some (oi_created_at order_input);
       ord_status := Some (oi_status order_input);
       ord_user := user o;
       ord_billing_address := billing_address o;
       ord_shipping_address := shipping_address o;
       ord_language_code := oi_language_code order_input;
       ord_user_email :=
         match user o with
         | Some u => Some (user_email u)
         | None => usr_email (oi_user order_input)
         end;
       ord_collection_point := dlv_warehouse delivery_method;
       ord_collection_point_name :=
         or_else (dm_warehouse_name delivery_input)
                 (warehouse_name <$> dlv_warehouse delivery_method);
       ord_shipping_method := dlv_shipping_method delivery_method;
       ord_shipping_method_name :=
         or_else (dm_shipping_method_name delivery_input)
                 (shipping_method_name <$> dlv_shipping_method delivery_method);
       ord_shipping_tax_class := dlv_shipping_tax_class delivery_method;
       ord_shipping_tax_class_name :=
         or_else (dm_shipping_tax_class_name delivery_input)
                 (tax_class_name <$> dlv_shipping_tax_class delivery_method);
       ord_shipping_tax_rate := oa_shipping_tax_rate order_amounts;
       ord_shipping_price_gross_amount := oa_shipping_price_gross order_amounts;
       ord_shipping_price_net_amount := oa_shipping_price_net order_amounts;
       ord_total_gross_amount := oa_total_gross order_amounts;
       ord_undiscounted_total_gross_amount :=
         oa_undiscounted_total_gross order_amounts;
       ord_total_net_amount := oa_total_net order_amounts;
       ord_undiscounted_total_net_amount :=
         oa_undiscounted_total_net order_amounts;
       ord_customer_note := default EmptyString (oi_customer_note order_input);
       ord_redirect_url := fst <$> oi_redirect_url order_input;
       ord_weight := default 0%Q (oi_weight order_input);
       ord_tracking_client_id := oi_tracking_client_id order_input;
       ord_currency := oi_currency order_input;
       ord_voucher := voucher o;
       ord_metadata := metadata;
       ord_private_metadata := private_metadata;
       ord_shipping_tax_class_metadata := shipping_metadata;
       ord_shipping_tax_class_private_metadata := shipping_private_metadata |}) o)
  | _, _, _, _ => modify_order (set_order None)
  end.

End Construction.

(** ** The database

    The tables the mutation reads and writes, the two sequences it draws
    from, and the notifications it sends after the commit. *)
Record Database : Type := mkDatabase {
  db_stocks : list Stock;
  db_gift_cards : list GiftCard;
  db_addresses : list Address;
  db_orders : list Order;
  db_order_lines : list OrderLine;
  db_notes : list OrderEvent;
  db_fulfillments : list Fulfillment;
  db_fulfillment_lines : list FulfillmentLine;
  db_transactions : list TransactionItem;
  db_invoices : list Invoice;
  db_discounts : list OrderDiscount;
  (* rows of the order / gift card relation *)
  db_order_gift_cards : list (Order * GiftCard);
  (* order_order_number_seq *)
  db_order_number_seq : Z;
  (* next primary key of a fulfillment *)
  db_fulfillment_pk : Z;
  (* orders passed to the order_bulk_created event *)
  db_notified : list Order
}.

(** Retrieve the instances the rest of the mutation looks up directly:
    the existing orders that carry one of the given numbers and the gift
    cards with one of the given codes. *)
Definition get_all_instances (db : Database)
    (orders_input : list OrderBulkCreateInput) : ObjectStorage :=
  let numbers := omap oi_number orders_input in
  let codes := concat (map oi_gift_cards orders_input) in
  {| os_order_numbers :=
       list_to_set
         (filter (fun n => n ∈ numbers) (omap ord_number (db_orders db)));
     os_gift_cards :=
       fold_left
         (fun m g => <[gift_card_code g := g]> m)
         (filter (fun g => gift_card_code g ∈ codes) (db_gift_cards db)) ∅;
     os_shipping_prices := ∅ |}.

(** [str.isdigit()] and [int(...)] on ASCII digits. *)
Definition digit_value (a : ascii) : option Z :=
  let n := nat_of_ascii a in
  if ((48 <=? n) && (n <=? 57))%nat then Some (Z.of_nat n - 48) else None.

Fixpoint int_of_digits (acc : Z) (s : string) : option Z :=
  match s with
  | EmptyString => Some acc
  | String a rest =>
      match digit_value a with
      | Some d => int_of_digits (10 * acc + d) rest
      | None => None
      end
  end.

Definition add_error (e : OrderBulkError) (o : OrderBulkClass) : OrderBulkClass :=
  set_errors (errors o ++ [e]) o.

(** The first loop of [validate_order_numbers]: [numbers] are the numbers
    seen so far. *)
Fixpoint reject_duplicate_numbers (orders : list OrderBulkClass)
    (numbers : list string) : list OrderBulkClass * list string :=
  match orders with
  | [] => ([], numbers)
  | o :: rest =>
      match order o with
      | Some ord =>
          match ord_number ord with
          | Some number =>
              if bool_decide (number ∈ numbers) then
                let o' :=
                  set_order None
                    (add_error
                       (mkError ("Input contains multiple orders with number: "
                                   +:+ number +:+ ".")
                                (Some UNIQUE) (Some "number"))
                       o) in
                let '(rest', numbers') := reject_duplicate_numbers rest numbers in
                (o' :: rest', numbers')
              else
                let '(rest', numbers') :=
                  reject_duplicate_numbers rest (numbers ++ [number]) in
                (o :: rest', numbers')
          | None =>
              let '(rest', numbers') := reject_duplicate_numbers rest numbers in
              (o :: rest', numbers')
          end
      | None =>
          let '(rest', numbers') := reject_duplicate_numbers rest numbers in
          (o :: rest', numbers')
      end
  end.

(** Returns the orders and the new value of the order number sequence. *)
Definition validate_order_numbers (orders : list OrderBulkClass) (seq : Z)
    : list OrderBulkClass * Z :=
  let '(orders', numbers) := reject_duplicate_numbers orders [] in
  let int_numbers := omap (int_of_digits 0) numbers in
  (orders',
   match int_numbers with
   | [] => seq
   | _ => fold_left Z.max (int_numbers ++ [seq]) seq
   end).

Definition mark_critical (e : OrderBulkError) (o : OrderBulkClass) : OrderBulkClass :=
  set_is_critical_error true (add_error e o).

(** The loop of [handle_stocks] over the lines of one order, on the
    order's copy of the stock dictionary. *)
Fixpoint allocate_lines (stock_update_policy : StockUpdatePolicy)
    (order : OrderBulkClass) (order_lines : list OrderBulkOrderLine)
    (stocks_map_copy : gmap string Stock) (line_index : nat)
    : OrderBulkClass * gmap string Stock :=
  match order_lines with
  | [] => (order, stocks_map_copy)
  | line :: rest =>
      let order_line := bol_line line in
      let variant_id := ol_variant_id order_line in
      let warehouse := warehouse_id (bol_warehouse line) in
      let quantity_to_fulfill := ol_quantity order_line in
      let quantity_fulfilled :=
        default 0 (orderline_quantityfulfilled_map order !! ol_id order_line) in
      let quantity_to_allocate := quantity_to_fulfill - quantity_fulfilled in
      let path := Some ("lines.[" +:+ pretty line_index +:+ "]") in
      if quantity_to_allocate <? 0 then
        (mark_critical
           (mkError ("There is more fulfillments, than ordered quantity"
                       +:+ " for order line with variant: " +:+ pretty variant_id
                       +:+ " and warehouse: " +:+ warehouse)
                    (Some INVALID_QUANTITY) path)
           order,
         stocks_map_copy)
      else
        match stocks_map_copy !! stock_key variant_id warehouse with
        | None =>
            (mark_critical
               (mkError ("There is no stock for given product variant: "
                           +:+ pretty variant_id +:+ " and warehouse: "
                           +:+ warehouse +:+ ".")
                        (Some NON_EXISTING_STOCK) path)
               order,
             stocks_map_copy)
        | Some stock =>
            let available_quantity :=
              stock_quantity stock - stock_quantity_allocated stock in
            let order :=
              if (available_quantity <? quantity_to_allocate)
                 && negb (bool_decide (stock_update_policy = FORCE))
              then
                mark_critical
                  (mkError ("Insufficient stock for product variant: "
                              +:+ pretty variant_id +:+ " and warehouse: "
                              +:+ warehouse +:+ ".")
                           (Some INSUFFICIENT_STOCK) path)
                  order
              else order in
            let fulfillment_lines :=
              default [] (orderline_fulfillmentlines_map order !! ol_id order_line) in
            let stock :=
              {| stock_pk := stock_pk stock;
                 stock_product_variant_id := stock_product_variant_id stock;
                 stock_warehouse_id := stock_warehouse_id stock;
                 stock_quantity :=
                   fold_left
                     (fun q fulfillment_line =>
                        q - fl_quantity (bfl_line fulfillment_line))
                     fulfillment_lines (stock_quantity stock);
                 stock_quantity_allocated :=
                   stock_quantity_allocated stock + quantity_to_allocate |} in
            allocate_lines stock_update_policy order rest
              (<[stock_key variant_id warehouse := stock]> stocks_map_copy)
              (S line_index)
        end
  end.

(** One iteration of the loop of [handle_stocks] over the orders. *)
Definition allocate_order (stock_update_policy : StockUpdatePolicy)
    (order : OrderBulkClass) (stocks_map : gmap string Stock)
    : OrderBulkClass * gmap string Stock :=
  (* Create a copy of stocks. If full iteration over order lines
     and fulfillments will not produce error, which disqualify whole order,
     than replace the copy with original stocks. *)
  let stocks_map_copy := stocks_map in
  let '(order', stocks_map_copy') :=
    allocate_lines stock_update_policy order (lines order) stocks_map_copy 0 in
  (order', if is_critical_error order' then stocks_map else stocks_map_copy').

Fixpoint allocate_orders (stock_update_policy : StockUpdatePolicy)
    (orders : list OrderBulkClass) (stocks_map : gmap string Stock)
    : list OrderBulkClass * gmap string Stock :=
  match orders with
  | [] => ([], stocks_map)
  | order :: rest =>
      let '(order', stocks_map') :=
        allocate_order stock_update_policy order stocks_map in
      let '(rest', stocks_map'') :=
        allocate_orders stock_update_policy rest stocks_map' in
      (order' :: rest', stocks_map'')
  end.

Definition has_order (o : OrderBulkClass) : bool :=
  match order o with Some _ => true | None => false end.

(** The stock dictionary [handle_stocks] starts from: the rows of the
    warehouses and variants of the orders that still have an order. *)
Definition fetch_stocks_map (table : list Stock) (orders : list OrderBulkClass)
    : gmap string Stock :=
  let variant_ids := concat (map unique_variant_ids (filter (fun o => has_order o = true) orders)) in
  let warehouse_ids := concat (map unique_warehouse_ids (filter (fun o => has_order o = true) orders)) in
  let stocks :=
    filter (fun s => stock_warehouse_id s ∈ warehouse_ids
                     ∧ stock_product_variant_id s ∈ variant_ids) table in
  fold_left
    (fun m stock =>
       <[stock_key (stock_product_variant_id stock) (stock_warehouse_id stock)
           := stock]> m)
    stocks ∅.

Definition handle_stocks (table : list Stock) (orders : list OrderBulkClass)
    (stock_update_policy : StockUpdatePolicy)
    : list OrderBulkClass * list Stock :=
  let stocks_map := fetch_stocks_map table orders in
  let '(orders', stocks_map') :=
    allocate_orders stock_update_policy orders stocks_map in
  (orders', map snd (map_to_list stocks_map')).

Definition handle_error_policy (orders : list OrderBulkClass)
    (error_policy : ErrorPolicy) : list OrderBulkClass :=
  let all_errors := concat (map errors orders) in
  match all_errors with
  | [] => orders
  | _ =>
      map (fun order =>
             match error_policy with
             | REJECT_EVERYTHING => set_order None order
             | REJECT_FAILED_ROWS =>
                 match errors order with
                 | [] => order
                 | _ => set_order None order
                 end
             | IGNORE_FAILED => order
             end)
          orders
  end.

(** ** Persistence *)

(** [Fulfillment.objects.bulk_create] gives the fulfillments of the orders
    that are kept their primary keys, in order. *)
Fixpoint assign_pks (next : Z) (fs : list OrderBulkFulfillment)
    : list OrderBulkFulfillment * Z :=
  match fs with
  | [] => ([], next)
  | f :: rest =>
      let '(rest', next') := assign_pks (next + 1) rest in
      ({| bf_fulfillment :=
            {| ful_id := Some next;
               ful_tracking_number := ful_tracking_number (bf_fulfillment f);
               ful_fulfillment_order := ful_fulfillment_order (bf_fulfillment f) |};
          bf_lines := bf_lines f |} :: rest',
       next')
  end.

Fixpoint create_fulfillment_rows (next : Z) (orders : list OrderBulkClass)
    : list OrderBulkClass * Z :=
  match orders with
  | [] => ([], next)
  | o :: rest =>
      if has_order o then
        let '(fs, next') := assign_pks next (fulfillments o) in
        let '(rest', next'') := create_fulfillment_rows next' rest in
        (set_fulfillments fs o :: rest', next'')
      else
        let '(rest', next') := create_fulfillment_rows next rest in
        (o :: rest', next')
  end.

(** [Stock.objects.bulk_update(stocks, ["quantity"])]: the rows whose
    primary key is among [stocks] take the quantity given there. *)
Definition bulk_update_quantity (table stocks : list Stock) : list Stock :=
  map (fun row =>
         match find (fun s => stock_pk s =? stock_pk row) stocks with
         | Some s =>
             {| stock_pk := stock_pk row;
                stock_product_variant_id := stock_product_variant_id row;
                stock_warehouse_id := stock_warehouse_id row;
                stock_quantity := stock_quantity s;
                stock_quantity_allocated := stock_quantity_allocated row |}
         | None => row
         end)
      table.

Definition kept (orders : list OrderBulkClass) : list OrderBulkClass :=
  filter (fun o => has_order o = true) orders.

Definition order_addresses (o : OrderBulkClass) : list Address :=
  match order o with
  | Some ord =>
      option_list (ord_billing_address ord)
        ++ option_list (ord_shipping_address ord)
  | None => []
  end.

Definition save_data (db : Database) (orders : list OrderBulkClass)
    (stocks : list Stock) : list OrderBulkClass * Database :=
  let orders :=
    map (fun o =>
           let o := set_fulfillment_order (set_quantity_fulfilled o) in
           if is_critical_error o then set_order None o else o)
        orders in
  let addresses := concat (map order_addresses orders) in
  let new_orders := omap order orders in
  let order_lines := concat (map all_order_lines (kept orders)) in
  let new_notes := concat (map notes (kept orders)) in
  let '(orders, next_pk) := create_fulfillment_rows (db_fulfillment_pk db) orders in
  let new_fulfillments :=
    concat (map (fun o => map bf_fulfillment (fulfillments o)) (kept orders)) in
  let orders := map set_fulfillment_id orders in
  let fulfillment_lines := concat (map all_fulfillment_lines (kept orders)) in
  let new_transactions := concat (map transactions (kept orders)) in
  let new_invoices := concat (map invoices (kept orders)) in
  let new_discounts := concat (map discounts (kept orders)) in
  let links :=
    concat (map (fun o =>
                   match order o with
                   | Some ord => map (fun g => (ord, g)) (gift_cards o)
                   | None => []
                   end)
                orders) in
  (orders,
   {| db_stocks := bulk_update_quantity (db_stocks db) stocks;
      db_gift_cards := db_gift_cards db;
      db_addresses := db_addresses db ++ addresses;
      db_orders := db_orders db ++ new_orders;
      db_order_lines := db_order_lines db ++ order_lines;
      db_notes := db_notes db ++ new_notes;
      db_fulfillments := db_fulfillments db ++ new_fulfillments;
      db_fulfillment_lines := db_fulfillment_lines db ++ fulfillment_lines;
      db_transactions := db_transactions db ++ new_transactions;
      db_invoices := db_invoices db ++ new_invoices;
      db_discounts := db_discounts db ++ new_discounts;
      db_order_gift_cards := db_order_gift_cards db ++ links;
      db_order_number_seq := db_order_number_seq db;
      db_fulfillment_pk := next_pk;
      db_notified := db_notified db |}).

(** ** The mutation *)

Record OrderBulkCreateResult : Type := mkResult {
  res_order : option Order;
  res_errors : list OrderBulkError
}.

(** The [results] of the response: the list of per-order results, or the
    single result carrying the batch-level error. *)
Inductive Results : Type :=
  | BatchError (error : OrderBulkError)
  | OrderResults (results : list OrderBulkCreateResult).

Record OrderBulkCreate : Type := mkResponse {
  count : nat;
  results : Results
}.

Fixpoint create_orders (env : Env) (orders_input : list OrderBulkCreateInput)
    (object_storage : ObjectStorage) (ticks : nat)
    : Exception + (list OrderBulkClass * ObjectStorage * nat) :=
  match orders_input with
  | [] => inr ([], object_storage, ticks)
  | order_input :: rest =>
      match create_single_order env order_input
              {| st_order := new_OrderBulkClass;
                 st_storage := object_storage;
                 st_ticks := ticks |} with
      | inl e => inl e
      | inr (_, s) =>
          match create_orders env rest (st_storage s) (st_ticks s) with
          | inl e => inl e
          | inr (orders, os, t) => inr (st_order s :: orders, os, t)
          end
      end
  end.

Definition with_order_number_seq (seq : Z) (db : Database) : Database :=
  {| db_stocks := db_stocks db; db_gift_cards := db_gift_cards db;
     db_addresses := db_addresses db; db_orders := db_orders db;
     db_order_lines := db_order_lines db; db_notes := db_notes db;
     db_fulfillments := db_fulfillments db;
     db_fulfillment_lines := db_fulfillment_lines db;
     db_transactions := db_transactions db; db_invoices := db_invoices db;
     db_discounts := db_discounts db;
     db_order_gift_cards := db_order_gift_cards db;
     db_order_number_seq := seq;
     db_fulfillment_pk := db_fulfillment_pk db;
     db_notified := db_notified db |}.

Definition notify (orders : list Order) (db : Database) : Database :=
  {| db_stocks := db_stocks db; db_gift_cards := db_gift_cards db;
     db_addresses := db_addresses db; db_orders := db_orders db;
     db_order_lines := db_order_lines db; db_notes := db_notes db;
     db_fulfillments := db_fulfillments db;
     db_fulfillment_lines := db_fulfillment_lines db;
     db_transactions := db_transactions db; db_invoices := db_invoices db;
     db_discounts := db_discounts db;
     db_order_gift_cards := db_order_gift_cards db;
     db_order_number_seq := db_order_number_seq db;
     db_fulfillment_pk := db_fulfillment_pk db;
     db_notified := db_notified db ++ orders |}.

(** The stages of [perform_mutation] that follow the construction of the
    aggregates, inside the transaction. *)
Definition process_orders (db : Database) (orders : list OrderBulkClass)
    (error_policy : ErrorPolicy) (stock_update_policy : StockUpdatePolicy)
    : list OrderBulkClass * Database :=
  let '(orders, seq) := validate_order_numbers orders (db_order_number_seq db) in
  let db := with_order_number_seq seq db in
  let orders := handle_error_policy orders error_policy in
  let '(orders, stocks) :=
    if bool_decide (stock_update_policy = SKIP) then (orders, [])
    else handle_stocks (db_stocks db) orders stock_update_policy in
  save_data db orders stocks.

Definition perform_mutation (env : Env) (db : Database)
    (orders_input : list OrderBulkCreateInput)
    (error_policy : option ErrorPolicy)
    (stock_update_policy : option StockUpdatePolicy)
    : Exception + (OrderBulkCreate * Database) :=
  if (MAX_ORDERS <? length orders_input)%nat then
    let error :=
      mkError ("Number of orders exceeds limit: " +:+ pretty MAX_ORDERS +:+ ".")
              (Some BULK_LIMIT) None in
    inr ({| count := 0; results := BatchError error |}, db)
  else
    let object_storage := get_all_instances db orders_input in
    match create_orders env orders_input object_storage 0 with
    | inl e => inl e
    | inr (orders, _, _) =>
        let error_policy := default REJECT_EVERYTHING error_policy in
        let stock_update_policy := default UPDATE stock_update_policy in
        let '(orders, db) :=
          process_orders db orders error_policy stock_update_policy in
        let db := notify (omap order orders) db in
        inr ({| count := length (filter (fun o => has_order o = true) orders);
                results :=
                  OrderResults
                    (map (fun o => {| res_order := order o;
                                      res_errors := errors o |})
                         orders) |},
             db)
    end.

(** ** Sample data

    A small catalogue, one stock row and a few input documents on which the
    statements below are evaluated. *)
Module Sample.

(** A clock that reads 1000 s at every call, USD-like precision and no
    shipping listings. *)
Definition env : Env :=
  {| clock := fun _ => 1000000000;
     currency_precision := fun _ => 2;
     listing_price := fun _ _ => None |}.

Definition variant : ProductVariant :=
  {| variant_id := 1; variant_name := "Blue mug" |}.
Definition warehouse : Warehouse :=
  {| warehouse_id := "wh-1"; warehouse_name := "Main" |}.
Definition customer : User := {| user_id := 7; user_email := "a@example.com" |}.
Definition main_channel : Channel := {| channel_id := 1; channel_slug := "main" |}.

Definition money (amount : Q) : TaxedMoneyInput :=
  {| tm_gross := amount; tm_net := amount |}.

Definition line_input (quantity : Z) (total : Q) : OrderBulkCreateOrderLineInput :=
  {| li_variant_name := None; li_product_name := None;
     li_translated_variant_name := None;
     li_translated_product_name := None; li_created_at := 0;
     li_is_shipping_required := true; li_is_gift_card := false;
     li_quantity := quantity; li_total_price := money total;
     li_undiscounted_total_price := money total; li_metadata := [];
     li_private_metadata := []; li_tax_rate := None;
     li_tax_class_name := None; li_tax_class_metadata := [];
     li_tax_class_private_metadata := [];
     li_variant := Instance variant; li_warehouse := Instance warehouse;
     li_tax_class := NoInstance |}.

Definition pickup : OrderBulkCreateDeliveryMethodInput :=
  {| dm_warehouse_id := Some "wh-1"; dm_warehouse_name := None;
     dm_shipping_method_id := None; dm_shipping_method_name := None;
     dm_shipping_price := None; dm_shipping_tax_rate := None;
     dm_shipping_tax_class_id := None; dm_shipping_tax_class_name := None;
     dm_shipping_tax_class_metadata := [];
     dm_shipping_tax_class_private_metadata := [];
     dm_warehouse := Instance warehouse;
     dm_shipping_method := NoInstance;
     dm_shipping_tax_class := NoInstance |}.

Definition known_customer : OrderBulkCreateUserInput :=
  {| usr_id := None; usr_email := Some "a@example.com";
     usr_external_reference := None; usr_resolved := Instance customer |}.

Definition missing (what : string) : ValidationError :=
  {| ve_message := what +:+ " instance doesn't exist.";
     ve_code := NOT_FOUND; ve_path := Some "user.id" |}.

(** A customer whose id resolves to nothing, with or without an email. *)
Definition unknown_customer (email : option string) : OrderBulkCreateUserInput :=
  {| usr_id := Some "VXNlcjo5OQ=="; usr_email := email;
     usr_external_reference := None;
     usr_resolved := Raises (missing "User") |}.

Definition order_input (number : string) (who : OrderBulkCreateUserInput)
    (status : OrderStatus) (created_at : Z)
    (order_lines : list OrderBulkCreateOrderLineInput)
    (order_fulfillments : list OrderBulkCreateFulfillmentInput)
    (order_invoices : list OrderBulkCreateInvoiceInput)
    : OrderBulkCreateInput :=
  {| oi_number := Some number; oi_external_reference := None;
     oi_created_at := created_at; oi_status := status; oi_user := who;
     oi_tracking_client_id := None;
     oi_billing_address := Some {| address_text := "1 Main St" |};
     oi_shipping_address := None; oi_currency := "USD";
     oi_metadata := []; oi_private_metadata := [];
     oi_customer_note := None; oi_notes := []; oi_language_code := "en";
     oi_weight := None; oi_redirect_url := None; oi_lines := order_lines;
     oi_delivery_method := pickup; oi_gift_cards := []; oi_voucher := None;
     oi_discounts := []; oi_fulfillments := order_fulfillments;
     oi_transactions := []; oi_invoices := order_invoices;
     oi_channel := Instance main_channel;
     oi_voucher_resolved := NoInstance |}.

(** An unfulfilled order of [quantity] mugs. *)
Definition simple_order (number : string) (quantity : Z) : OrderBulkCreateInput :=
  order_input number known_customer UNFULFILLED 0
    [line_input quantity 10] [] [].

(** Three mugs in stock, none allocated. *)
Definition database : Database :=
  {| db_stocks := [mkStock 1 1 "wh-1" 3 0]; db_gift_cards := [];
     db_addresses := []; db_orders := []; db_order_lines := [];
     db_notes := []; db_fulfillments := []; db_fulfillment_lines := [];
     db_transactions := []; db_invoices := []; db_discounts := [];
     db_order_gift_cards := []; db_order_number_seq := 0;
     db_fulfillment_pk := 1; db_notified := [] |}.

(** The same stock, and an order numbered [number] already persisted. *)
Definition database_with_order (number : string) : Database :=
  {| db_stocks := [mkStock 1 1 "wh-1" 3 0]; db_gift_cards := [];
     db_addresses := [];
     db_orders :=
       [{| ord_number := Some number; ord_external_reference := None;
           ord_channel := Some main_channel; ord_created_at := Some 0;
           ord_status := Some UNFULFILLED; ord_user := Some customer;
           ord_billing_address := None; ord_shipping_address := None;
           ord_language_code := "en"; ord_user_email := None;
           ord_collection_point := None; ord_collection_point_name := None;
           ord_shipping_method := None; ord_shipping_method_name := None;
           ord_shipping_tax_class := None;
           ord_shipping_tax_class_name := None;
           ord_shipping_tax_rate := 0%Q;
           ord_shipping_price_gross_amount := 0%Q;
           ord_shipping_price_net_amount := 0%Q;
           ord_total_gross_amount := 10%Q;
           ord_undiscounted_total_gross_amount := 10%Q;
           ord_total_net_amount := 10%Q;
           ord_undiscounted_total_net_amount := 10%Q;
           ord_customer_note := EmptyString; ord_redirect_url := None;
           ord_weight := 0%Q; ord_tracking_client_id := None;
           ord_currency := "USD"; ord_voucher := None;
           ord_metadata := ∅; ord_private_metadata := ∅;
           ord_shipping_tax_class_metadata := ∅;
           ord_shipping_tax_class_private_metadata := ∅ |}];
     db_order_lines := [];
     db_notes := []; db_fulfillments := []; db_fulfillment_lines := [];
     db_transactions := []; db_invoices := []; db_discounts := [];
     db_order_gift_cards := []; db_order_number_seq := 0;
     db_fulfillment_pk := 1; db_notified := [] |}.

(** The state [create_single_order] starts from, with nothing cached. *)
Definition fresh : State :=
  {| st_order := new_OrderBulkClass;
     st_storage := get_all_instances database [];
     st_ticks := 0 |}.


Definition fulfillment_input (quantity : Z) : OrderBulkCreateFulfillmentInput :=
  {| ful_in_tracking_code := None;
     ful_in_lines :=
       [{| fli_quantity := quantity; fli_order_line_index := 0;
           fli_variant := Instance variant;
           fli_warehouse := Instance warehouse |}] |}.

Definition invoice_input (created_at : Z) : OrderBulkCreateInvoiceInput :=
  {| inv_in_created_at := created_at; inv_in_number := Some "INV-1";
     inv_in_url := None; inv_in_url_valid := true;
     inv_in_metadata := []; inv_in_private_metadata := [] |}.

Definition note_input (date : Z) : OrderBulkCreateNoteInput :=
  {| note_message := "Packed"; note_date := Some date;
     note_user_id := None; note_user_email := None;
     note_user_external_reference := None; note_app_id := None;
     note_user := NoInstance; note_app := NoInstance |}.

(** One mug ordered, two fulfilled. *)
Definition overfulfilled_order : OrderBulkCreateInput :=
  order_input "A1" known_customer FULFILLED 0
    [line_input 1 10] [fulfillment_input 2] [].

(** The same mug from the same warehouse on two lines. *)
Definition twin_lines_order : OrderBulkCreateInput :=
  order_input "A1" known_customer UNFULFILLED 0
    [line_input 1 10; line_input 1 10] [] [].

(** Two orders of two mugs each, for the three in stock. *)
Definition competing_orders : list OrderBulkCreateInput :=
  [simple_order "A1" 2; simple_order "A2" 2].

(** The aggregates [create_orders] builds for a batch. *)
Definition built (db : Database) (orders_input : list OrderBulkCreateInput)
    : list OrderBulkClass * ObjectStorage * nat :=
  match create_orders env orders_input
          (get_all_instances db orders_input) 0 with
  | inr r => r
  | inl _ => ([], get_all_instances db orders_input, 0%nat)
  end.

Definition aggregates (orders_input : list OrderBulkCreateInput)
    : list OrderBulkClass :=
  (built database orders_input).1.1.

Definition aggregate (i : nat) (orders_input : list OrderBulkCreateInput)
    : OrderBulkClass :=
  nth i (aggregates orders_input) new_OrderBulkClass.

Definition first_line (o : OrderBulkClass) : option OrderBulkOrderLine :=
  head (lines o).

(** The mutation run on a database. *)
Definition run (db : Database) (orders_input : list OrderBulkCreateInput)
    (error_policy : option ErrorPolicy)
    (stock_update_policy : option StockUpdatePolicy)
    : OrderBulkCreate * Database :=
  match perform_mutation env db orders_input error_policy
          stock_update_policy with
  | inr r => r
  | inl _ => ({| count := 0; results := OrderResults [] |}, db)
  end.

(** Ten dollars over three mugs. *)
Definition third_of_ten : LineAmounts :=
  {| la_total_gross := 10; la_total_net := 10;
     la_unit_gross := 333 # 100; la_unit_net := 333 # 100;
     la_undiscounted_total_gross := 10; la_undiscounted_total_net := 10;
     la_undiscounted_unit_gross := 333 # 100;
     la_undiscounted_unit_net := 333 # 100;
     la_quantity := 3; la_tax_rate := Some 0%Q |}.


(** Two mugs ordered, one of them fulfilled. *)
Definition partly_fulfilled_order : OrderBulkCreateInput :=
  order_input "A1" known_customer PARTIALLY_FULFILLED 0
    [line_input 2 10] [fulfillment_input 1] [].

(** The order line built for [line_input quantity 10] at index 0. *)
Definition mug_line (quantity : Z) (unit_price : Q) : OrderBulkOrderLine :=
  {| bol_line :=
       {| ol_id := 0; ol_variant := variant; ol_product_name := EmptyString;
          ol_variant_name := "Blue mug"; ol_translated_product_name := EmptyString;
          ol_translated_variant_name := EmptyString; ol_created_at := 0;
          ol_is_shipping_required := true; ol_is_gift_card := false;
          ol_currency := "USD"; ol_quantity := quantity;
          ol_unit_price_net_amount := unit_price;
          ol_unit_price_gross_amount := unit_price;
          ol_total_price_net_amount := 10;
          ol_total_price_gross_amount := 10;
          ol_undiscounted_unit_price_net_amount := unit_price;
          ol_undiscounted_unit_price_gross_amount := unit_price;
          ol_undiscounted_total_price_net_amount := 10;
          ol_undiscounted_total_price_gross_amount := 10;
          ol_tax_rate := Some 0%Q; ol_tax_class := None;
          ol_tax_class_name := None; ol_metadata := ∅;
          ol_private_metadata := ∅; ol_tax_class_metadata := ∅;
          ol_tax_class_private_metadata := ∅;
          ol_quantity_fulfilled := 0 |};
     bol_warehouse := warehouse |}.

(** The count of a response and, for each result, whether an order was
    returned and with which errors. *)
Definition outcome (r : Exception + (OrderBulkCreate * Database))
    : option (nat * list (bool * list OrderBulkError)) :=
  match r with
  | inr (resp, _) =>
      match results resp with
      | OrderResults rs =>
          Some (count resp,
                map (fun r => (bool_decide (res_order r <> None),
                               res_errors r)) rs)
      | BatchError _ => None
      end
  | inl _ => None
  end.

Definition result_orders (r : Exception + (OrderBulkCreate * Database))
    : option (list (option Order)) :=
  match r with
  | inr (resp, _) =>
      match results resp with
      | OrderResults rs => Some (map res_order rs)
      | BatchError _ => None
      end
  | inl _ => None
  end.

Definition result_errors (r : Exception + (OrderBulkCreate * Database))
    : option (list (list OrderBulkError)) :=
  match r with
  | inr (resp, _) =>
      match results resp with
      | OrderResults rs => Some (map res_errors rs)
      | BatchError _ => None
      end
  | inl _ => None
  end.

End Sample.

(** * Vocabulary of the properties *)

(** Two versions of a stock row that differ at most in [quantity]. *)
Definition same_but_quantity (row row' : Stock) : Prop :=
  stock_pk row' = stock_pk row
  /\ stock_product_variant_id row' = stock_product_variant_id row
  /\ stock_warehouse_id row' = stock_warehouse_id row
  /\ stock_quantity_allocated row' = stock_quantity_allocated row.

(** The quantities [handle_stocks] computes for a line [l] of order [o]
    and for a stock row. *)
Definition quantity_fulfilled (o : OrderBulkClass) (l : OrderBulkOrderLine) : Z :=
  default 0 (orderline_quantityfulfilled_map o !! ol_id (bol_line l)).

Definition quantity_to_allocate (o : OrderBulkClass) (l : OrderBulkOrderLine) : Z :=
  ol_quantity (bol_line l) - quantity_fulfilled o l.

Definition available_quantity (s : Stock) : Z :=
  stock_quantity s - stock_quantity_allocated s.

(** The key of the stock dictionary a line looks up. *)
Definition line_key (l : OrderBulkOrderLine) : string :=
  stock_key (ol_variant_id (bol_line l)) (warehouse_id (bol_warehouse l)).

(** The stock row once line [l] of order [o] went through the simulation. *)
Definition allocated_stock (o : OrderBulkClass) (l : OrderBulkOrderLine)
    (s : Stock) : Stock :=
  {| stock_pk := stock_pk s;
     stock_product_variant_id := stock_product_variant_id s;
     stock_warehouse_id := stock_warehouse_id s;
     stock_quantity := stock_quantity s - quantity_fulfilled o l;
     stock_quantity_allocated :=
       stock_quantity_allocated s + quantity_to_allocate o l |}.

(** No line of the order is fulfilled beyond its quantity. *)
Definition lines_covered (o : OrderBulkClass) : Prop :=
  Forall (fun l => quantity_fulfilled o l <= ol_quantity (bol_line l)) (lines o).

(** An aggregate as the first loop of [save_data] leaves it. *)
Definition finalized (o : OrderBulkClass) : OrderBulkClass :=
  let o := set_fulfillment_order (set_quantity_fulfilled o) in
  if is_critical_error o then set_order None o else o.

(** The number of an aggregate that still has its order record. *)
Definition live_number (o : OrderBulkClass) : option string :=
  match order o with
  | Some ord => ord_number ord
  | None => None
  end.

(** The two UNIQUE errors on order numbers. *)
Definition duplicate_number_error (number : string) : OrderBulkError :=
  {| message := "Input contains multiple orders with number: " +:+ number +:+ ".";
     code := Some UNIQUE;
     path := Some "number" |}.

Definition existing_number_error (number : string) : OrderBulkError :=
  {| message := "Order with number: " +:+ number +:+ " already exists.";
     code := Some UNIQUE;
     path := Some "number" |}.

(** What [validate_order_numbers] makes of a later aggregate with a number
    already seen. *)
Definition rejected_duplicate (number : string) (o : OrderBulkClass) : OrderBulkClass :=
  set_order None (add_error (duplicate_number_error number) o).

(** The state after one more reading of the clock, and the state with
    another aggregate. *)
Definition tick (s : State) : State :=
  {| st_order := st_order s; st_storage := st_storage s;
     st_ticks := S (st_ticks s) |}.

Definition with_order (o : OrderBulkClass) (s : State) : State :=
  {| st_order := o; st_storage := st_storage s; st_ticks := st_ticks s |}.

(** The reading of the clock in state [s]. *)
Definition now_at (env : Env) (s : State) : Z := clock env (st_ticks s).

(** A datetime the source treats as a future date when checked in [s]. *)
Definition is_future (env : Env) (s : State) (date : Z) : bool :=
  negb (date <? now_at env s + timedelta_minutes MINUTES_DIFF).

(** The FUTURE_DATE error of an order, a note or an invoice. *)
Definition future_date_error (what path : string) : OrderBulkError :=
  {| message := what +:+ " input contains future date.";
     code := Some FUTURE_DATE;
     path := Some path |}.

(** The number of the input is the number of an order found in the
    database. *)
Definition number_exists (order_input : OrderBulkCreateInput)
    (os : ObjectStorage) : bool :=
  match oi_number order_input with
  | Some (String _ _ as number) => bool_decide (number ∈ os_order_numbers os)
  | _ => false
  end.

(** The errors [validate_order_input] appends, in order. *)
Definition order_input_errors (env : Env) (order_input : OrderBulkCreateInput)
    (s : State) : list OrderBulkError :=
  (if is_future env s (oi_created_at order_input)
   then [future_date_error "Order" "created_at"] else [])
  ++ match oi_redirect_url order_input with
     | Some (String _ _, Some err_message) =>
         [mkError ("Invalid redirect url: " +:+ err_message +:+ ".")
                  (Some INVALID) (Some "redirect_url")]
     | _ => []
     end
  ++ match oi_weight order_input with
     | Some w =>
         if Decimal.lt w 0
         then [mkError "Order can't have negative weight."
                       (Some INVALID) (Some "weight")]
         else []
     | None => []
     end
  ++ (if number_exists order_input (st_storage s)
      then [existing_number_error (default EmptyString (oi_number order_input))]
      else []).

(** Order-number validation keeps an aggregate or rejects it as a duplicate. *)
Definition number_checked (o o' : OrderBulkClass) : Prop :=
  o' = o \/ exists n, live_number o = Some n /\ o' = rejected_duplicate n o.

(** Stock allocation only adds critical errors. *)
Definition stock_checked (o o' : OrderBulkClass) : Prop :=
  order o' = order o
  /\ (is_critical_error o = true -> is_critical_error o' = true)
  /\ exists es,
       errors o' = errors o ++ es
       /\ (es <> [] -> is_critical_error o' = true)
       /\ (is_critical_error o' = true -> is_critical_error o = true \/ es <> []).

(** Persistence drops the record of an aggregate with a critical error. *)
Definition saved (o o' : OrderBulkClass) : Prop :=
  order o' = (if is_critical_error o then None else order o)
  /\ errors o' = errors o.

(** From [s] to [s']: the order record, the known order numbers and the
    resolved customer, channel and billing address are the same, errors were
    only appended, and the critical flag is the same. *)
Definition grows (s s' : State) : Prop :=
  order (st_order s') = order (st_order s)
  /\ os_order_numbers (st_storage s') = os_order_numbers (st_storage s)
  /\ user (st_order s') = user (st_order s)
  /\ channel (st_order s') = channel (st_order s)
  /\ billing_address (st_order s') = billing_address (st_order s)
  /\ (exists es, errors (st_order s') = errors (st_order s) ++ es)
  /\ is_critical_error (st_order s') = is_critical_error (st_order s).

(** Postconditions of the runs that return. *)
Definition ensures {A : Type} (m : M A) (Q : State -> A -> State -> Prop) : Prop :=
  forall s a s', m s = inr (a, s') -> Q s a s'.

Definition growing {A : Type} (m : M A) : Prop :=
  ensures m (fun s _ s' => grows s s').

(** Field updates that leave the tracked fields alone. *)
Definition neutral (f : OrderBulkClass -> OrderBulkClass) : Prop :=
  forall o,
    order (f o) = order o /\ user (f o) = user o /\ channel (f o) = channel o
    /\ billing_address (f o) = billing_address o /\ errors (f o) = errors o
    /\ is_critical_error (f o) = is_critical_error o.

(** The error [get_instance_with_errors] records for a ValidationError. *)
Definition resolution_error (e : ValidationError) : OrderBulkError :=
  {| message := ve_message e; code := Some (ve_code e); path := ve_path e |}.

(** As [grows], except that the critical flag may have been raised. *)
Definition grows_or_fails (s s' : State) : Prop :=
  order (st_order s') = order (st_order s)
  /\ os_order_numbers (st_storage s') = os_order_numbers (st_storage s)
  /\ user (st_order s') = user (st_order s)
  /\ channel (st_order s') = channel (st_order s)
  /\ billing_address (st_order s') = billing_address (st_order s)
  /\ (exists es, errors (st_order s') = errors (st_order s) ++ es)
  /\ (is_critical_error (st_order s) = true ->
      is_critical_error (st_order s') = true).

(** A critical flag raised on the way comes with an error. *)
Definition critical_with_error (s s' : State) : Prop :=
  is_critical_error (st_order s') = true ->
  is_critical_error (st_order s) = true \/ errors (st_order s') <> [].

(** Inputs on which the resolution helper raises whenever it finds no
    variant or warehouse. *)
Definition strict_line (li : OrderBulkCreateOrderLineInput) : Prop :=
  li_variant li <> NoInstance /\ li_warehouse li <> NoInstance.

Definition strict_fulfillment_line
    (li : OrderBulkCreateFulfillmentLineInput) : Prop :=
  fli_variant li <> NoInstance /\ fli_warehouse li <> NoInstance.

Definition strict_fulfillment (fi : OrderBulkCreateFulfillmentInput) : Prop :=
  Forall strict_fulfillment_line (ful_in_lines fi).

(** Every aggregate without an order record, or with a critical error,
    carries an error. *)
Definition accounted (o : OrderBulkClass) : Prop :=
  order o = None \/ is_critical_error o = true -> errors o <> [].

(** The resolution helper raises whenever it finds no channel, variant or
    warehouse. *)
Definition strict_input (oi : OrderBulkCreateInput) : Prop :=
  oi_channel oi <> NoInstance
  /\ Forall strict_line (oi_lines oi)
  /\ Forall strict_fulfillment (oi_fulfillments oi).

(** Each aggregate comes from [create_single_order] on its input, started
    on a fresh aggregate. *)
Definition built_from (env : Env) (os : ObjectStorage)
    (oi : OrderBulkCreateInput) (o : OrderBulkClass) : Prop :=
  exists s s',
    st_order s = new_OrderBulkClass
    /\ os_order_numbers (st_storage s) = os_order_numbers os
    /\ create_single_order env oi s = inr (tt, s')
    /\ o = st_order s'.

(** From construction to the response, an aggregate without an order
    record stays so and its errors are kept. *)
Definition carried (o o' : OrderBulkClass) : Prop :=
  (order o = None -> order o' = None)
  /\ exists es, errors o' = errors o ++ es.

(** Computations that never end with an exception. *)
Definition total {A : Type} (m : M A) : Prop :=
  forall s, exists a s', m s = inr (a, s').





(** ** Vocabulary of the further properties *)

(** The error of [validate_order_status]. *)
Definition invalid_status_error : OrderBulkError :=
  {| message := "Invalid order status."; code := Some INVALID;
     path := Some "status" |}.

(** The status that fits the quantities of an order with something
    ordered and not more fulfilled than ordered. *)
Definition fitting_status (o : OrderBulkClass) : OrderStatus :=
  if total_fulfillment_quantity o =? 0 then UNFULFILLED
  else if total_fulfillment_quantity o <? total_order_quantity o
       then PARTIALLY_FULFILLED
       else FULFILLED.

Definition named_status (status : OrderStatus) : bool :=
  bool_decide (status ∈ [UNFULFILLED; PARTIALLY_FULFILLED; FULFILLED]).



(** The instance a resolution gives, if any. *)
Definition instance_of {A : Type} (r : Resolved A) : option A :=
  match r with Instance a => Some a | _ => None end.

(** The errors [get_instance_with_errors] records for a resolution. *)
Definition resolution_errors {A : Type} (r : Resolved A) : list OrderBulkError :=
  match r with Raises e => [resolution_error e] | _ => [] end.

Definition too_many_delivery_methods_error : OrderBulkError :=
  {| message := "Can't provide both warehouse and shipping method IDs.";
     code := Some TOO_MANY_IDENTIFIERS; path := Some "delivery_method" |}.

Definition no_delivery_method_error : OrderBulkError :=
  {| message := "No delivery method provided.";
     code := Some REQUIRED; path := Some "delivery_method" |}.

(** The warehouse and the shipping method [get_delivery_method] resolves:
    each is looked up only when its id is given. *)
Definition delivery_warehouse (input : OrderBulkCreateDeliveryMethodInput)
    : option Warehouse :=
  if truthy (dm_warehouse_id input) then instance_of (dm_warehouse input)
  else None.

Definition delivery_shipping_method (input : OrderBulkCreateDeliveryMethodInput)
    : option ShippingMethod :=
  if truthy (dm_shipping_method_id input)
  then instance_of (dm_shipping_method input) else None.

(** The errors [get_delivery_method] records, in order. *)
Definition delivery_errors (input : OrderBulkCreateDeliveryMethodInput)
    : list OrderBulkError :=
  (if truthy (dm_warehouse_id input) && truthy (dm_shipping_method_id input)
   then [too_many_delivery_methods_error] else [])
  ++ (if truthy (dm_warehouse_id input)
      then resolution_errors (dm_warehouse input) else [])
  ++ (if truthy (dm_shipping_method_id input)
      then resolution_errors (dm_shipping_method input)
             ++ resolution_errors (dm_shipping_tax_class input)
      else [])
  ++ match delivery_warehouse input, delivery_shipping_method input with
     | None, None => [no_delivery_method_error]
     | _, _ => []
     end.


Definition missing_gift_card_error (card : string) (index : nat)
    : OrderBulkError :=
  {| message := "Gift card with code " +:+ card +:+ " doesn't exist.";
     code := Some NOT_FOUND;
     path := Some ("gift_cards.[" +:+ pretty index +:+ "]") |}.

(** The gift cards of the storage under the given codes, in order. *)
Definition found_gift_cards (os : ObjectStorage) (codes : list string)
    : list GiftCard :=
  omap (fun c => os_gift_cards os !! c) codes.

(** The three checks of [make_order_line_calculations] and their errors. *)
Definition bad_quantity (li : OrderBulkCreateOrderLineInput) : bool :=
  li_quantity li <? 1.

Definition bad_total_price (li : OrderBulkCreateOrderLineInput) : bool :=
  Decimal.lt (tm_gross (li_total_price li)) (tm_net (li_total_price li)).

Definition bad_undiscounted_total_price (li : OrderBulkCreateOrderLineInput)
    : bool :=
  Decimal.lt (tm_gross (li_undiscounted_total_price li))
             (tm_net (li_undiscounted_total_price li)).

Definition line_check_errors (li : OrderBulkCreateOrderLineInput) (index : nat)
    : list OrderBulkError :=
  (if bad_quantity li
   then [mkError "Invalid quantity. Must be integer greater then or equal to 1."
                 (Some INVALID_QUANTITY)
                 (Some ("lines.[" +:+ pretty index +:+ "].quantity"))]
   else [])
  ++ (if bad_total_price li
      then [mkError "Net price can't be greater then gross price."
                    (Some PRICE_ERROR)
                    (Some ("lines.[" +:+ pretty index +:+ "].total_price"))]
      else [])
  ++ (if bad_undiscounted_total_price li
      then [mkError "Net price can't be greater then gross price."
                    (Some PRICE_ERROR)
                    (Some ("lines.[" +:+ pretty index
                             +:+ "].undiscounted_total_price"))]
      else []).

(** The state with further errors on the aggregate. *)
Definition add_errors (es : list OrderBulkError) (s : State) : State :=
  with_order (set_errors (errors (st_order s) ++ es) (st_order s)) s.

(** Half a unit in the 28th significant digit, the relative error of one
    operation in the decimal context. *)
Definition context_error : Q := (Decimal.pow10 (-27) * (1 # 2))%Q.

(** An error of the stock pass under a policy: a line fulfilled beyond its
    quantity, a missing stock row or, unless the policy is FORCE, a
    shortage. *)
Definition stock_pass_error (policy : StockUpdatePolicy) (e : OrderBulkError)
    : Prop :=
  code e = Some INVALID_QUANTITY
  \/ code e = Some NON_EXISTING_STOCK
  \/ (code e = Some INSUFFICIENT_STOCK /\ policy <> FORCE).

(** What the stock pass does to an aggregate. *)
Definition stock_pass_outcome (policy : StockUpdatePolicy)
    (o o' : OrderBulkClass) : Prop :=
  order o' = order o
  /\ lines o' = lines o
  /\ exists es,
       errors o' = errors o ++ es
       /\ Forall (stock_pass_error policy) es
       /\ (is_critical_error o' = true <->
           is_critical_error o = true \/ es <> []).

(** The character that separates the two parts of a stock key. *)
Definition separator : ascii := "_"%char.

Fixpoint has_separator (s : string) : bool :=
  match s with
  | EmptyString => false
  | String a rest => Ascii.eqb a separator || has_separator rest
  end.

(** A fulfillment line built from an input line: both refer to the order
    line at the input's index, which has the warehouse and the variant the
    input resolves to. *)
Definition fulfills (order_lines : list OrderBulkOrderLine)
    (li : OrderBulkCreateFulfillmentLineInput) (fl : OrderBulkFulfillmentLine)
    : Prop :=
  exists variant warehouse order_line,
    fli_variant li = Instance variant
    /\ fli_warehouse li = Instance warehouse
    /\ 0 <= fli_order_line_index li
    /\ order_lines !! Z.to_nat (fli_order_line_index li) = Some order_line
    /\ warehouse_id (bol_warehouse order_line) = warehouse_id warehouse
    /\ variant_id (ol_variant (bol_line order_line)) = variant_id variant
    /\ fl = {| bfl_line :=
                 {| fl_order_line := ol_id (bol_line order_line);
                    fl_quantity := fli_quantity li;
                    fl_fulfillment_id := None |};
               bfl_warehouse := warehouse |}.

Definition fulfillment_line_path (index line_index : nat) : string :=
  "fulfillments.[" +:+ pretty index +:+ "].lines.["
    +:+ pretty line_index +:+ "]".

Definition negative_index_error (index line_index : nat) : OrderBulkError :=
  {| message := "Order line index can't be negative.";
     code := Some NEGATIVE_INDEX;
     path := Some (fulfillment_line_path index line_index
                     +:+ ".order_line_index") |}.

Definition no_related_order_line_error (index line_index : nat)
    (order_line_index : Z) : OrderBulkError :=
  {| message := "There is no order line with index: "
                  +:+ pretty order_line_index +:+ ".";
     code := Some NO_RELATED_ORDER_LINE;
     path := Some (fulfillment_line_path index line_index
                     +:+ ".order_line_index") |}.

(** An input that lacks one of the parts [create_single_order] requires
    before it builds any line: a delivery method, a customer (a resolved
    user or an email), a channel, a valid billing address. *)
Definition lacks_required_part (oi : OrderBulkCreateInput) : Prop :=
  (delivery_warehouse (oi_delivery_method oi) = None
   /\ delivery_shipping_method (oi_delivery_method oi) = None)
  \/ (instance_of (usr_resolved (oi_user oi)) = None
      /\ truthy (usr_email (oi_user oi)) = false)
  \/ instance_of (oi_channel oi) = None
  \/ oi_billing_address oi = None.

(** The variant and the warehouse of an order line. *)
Definition line_stock (l : OrderBulkOrderLine) : Z * string :=
  (variant_id (ol_variant (bol_line l)), warehouse_id (bol_warehouse l)).

(** What [handle_error_policy] may do to an aggregate: clear its order
    record, and nothing else. *)
Definition at_most_rejected (o o' : OrderBulkClass) : Prop :=
  o' = o \/ o' = set_order None o.

(** The effect of the simulation of one line on the stock dictionary. *)
Definition allocate_line (o : OrderBulkClass)
    (m : gmap string Stock) (l : OrderBulkOrderLine) : gmap string Stock :=
  alter (allocated_stock o l) (line_key l) m.

(** An order line that respects the checks of
    [make_order_line_calculations]. *)
Definition checked_line (l : OrderLine) : Prop :=
  1 <= ol_quantity l
  /\ (ol_total_price_net_amount l <= ol_total_price_gross_amount l)%Q
  /\ (ol_undiscounted_total_price_net_amount l
        <= ol_undiscounted_total_price_gross_amount l)%Q.

(** Computations that leave the lines of the aggregate alone. *)
Definition keeps_lines {A : Type} (m : M A) : Prop :=
  ensures m (fun s _ s' => lines (st_order s') = lines (st_order s)).

(** An aggregate whose lines all respect the checks. *)
Definition lines_checked (o : OrderBulkClass) : Prop :=
  Forall (fun l => checked_line (bol_line l)) (lines o).

(** ** Further sample data *)

Module Cases.

(** Three mugs for twelve dollars gross, ten net, and no tax rate given. *)
Definition taxed_line_input : OrderBulkCreateOrderLineInput :=
  {| li_variant_name := None; li_product_name := None;
     li_translated_variant_name := None;
     li_translated_product_name := None; li_created_at := 0;
     li_is_shipping_required := true; li_is_gift_card := false;
     li_quantity := 3;
     li_total_price := {| tm_gross := 12; tm_net := 10 |};
     li_undiscounted_total_price := {| tm_gross := 12; tm_net := 10 |};
     li_metadata := []; li_private_metadata := []; li_tax_rate := None;
     li_tax_class_name := None; li_tax_class_metadata := [];
     li_tax_class_private_metadata := [];
     li_variant := Instance Sample.variant;
     li_warehouse := Instance Sample.warehouse;
     li_tax_class := NoInstance |}.

Definition courier : ShippingMethod :=
  {| shipping_method_id := 3; shipping_method_name := "Courier" |}.

Definition by_courier : DeliveryMethod :=
  {| dlv_warehouse := None; dlv_shipping_method := Some courier;
     dlv_shipping_tax_class := None;
     dlv_shipping_tax_class_metadata := [];
     dlv_shipping_tax_class_private_metadata := [] |}.

(** Delivery by courier, at a shipping price of [gross] with a zero net. *)
Definition courier_input (gross : Q) : OrderBulkCreateDeliveryMethodInput :=
  {| dm_warehouse_id := None; dm_warehouse_name := None;
     dm_shipping_method_id := Some "3"; dm_shipping_method_name := None;
     dm_shipping_price := Some {| tm_gross := gross; tm_net := 0 |};
     dm_shipping_tax_rate := None;
     dm_shipping_tax_class_id := None; dm_shipping_tax_class_name := None;
     dm_shipping_tax_class_metadata := [];
     dm_shipping_tax_class_private_metadata := [];
     dm_warehouse := NoInstance;
     dm_shipping_method := Instance courier;
     dm_shipping_tax_class := NoInstance |}.

(** An order whose customer resolves to nobody and leaves no email. *)
Definition nameless_order : OrderBulkCreateInput :=
  Sample.order_input "A1" (Sample.unknown_customer None) UNFULFILLED 0
    [Sample.line_input 1 10] [] [].

(** A fulfillment line for the sixth line of the order. *)
Definition stray_line : OrderBulkCreateFulfillmentLineInput :=
  {| fli_quantity := 1; fli_order_line_index := 5;
     fli_variant := Instance Sample.variant;
     fli_warehouse := Instance Sample.warehouse |}.

(** The state of [create_single_order] once the aggregate of the only order
    of a batch is built. *)
Definition built_state (order_input : OrderBulkCreateInput) : State :=
  with_order (Sample.aggregate 0 [order_input]) Sample.fresh.

(** The amounts and the state a line calculation ends with. *)
Definition line_amounts (r : Exception + (option LineAmounts * State))
    : LineAmounts :=
  match r with
  | inr (Some la, _) => la
  | _ => Sample.third_of_ten
  end.

Definition final_state {A : Type} (r : Exception + (A * State)) : State :=
  match r with
  | inr (_, s) => s
  | inl _ => Sample.fresh
  end.

End Cases.

(** * Properties *)

(** ** The batch-size cap *)



(** ** Stock rows written by the commit *)

Lemma bulk_update_quantity_frame (table stocks : list Stock) :
  Forall2 same_but_quantity table (bulk_update_quantity table stocks).
Proof.
  unfold bulk_update_quantity.
  induction table as [| row table IH]; simpl; constructor; auto.
  destruct (find _ stocks); repeat split.
Qed.

Lemma bulk_update_quantity_untouched (table stocks : list Stock) (row : Stock) :
  row ∈ table ->
  (forall s, s ∈ stocks -> stock_pk s <> stock_pk row) ->
  row ∈ bulk_update_quantity table stocks.
Proof.
  intros Hin Hpk. unfold bulk_update_quantity.
  apply list_elem_of_fmap. exists row. split; [| exact Hin].
  destruct (find _ stocks) as [s |] eqn:Hfind; [| reflexivity].
  apply find_some in Hfind as [Hs Heq].
  apply Z.eqb_eq in Heq. exfalso. apply (Hpk s); [| exact Heq].
  apply list_elem_of_In. exact Hs.
Qed.

Lemma save_data_stocks (db : Database) (orders : list OrderBulkClass)
    (stocks : list Stock) :
  db_stocks (snd (save_data db orders stocks)) =
    bulk_update_quantity (db_stocks db) stocks.
Proof.
  unfold save_data.
  destruct (create_fulfillment_rows _ _) as [orders' next]. reflexivity.
Qed.

Lemma process_orders_stocks db orders error_policy stock_update_policy :
  exists stocks,
    db_stocks (snd (process_orders db orders error_policy stock_update_policy)) =
      bulk_update_quantity (db_stocks db) stocks
    /\ (stock_update_policy = SKIP -> stocks = []).
Proof.
  unfold process_orders.
  destruct (validate_order_numbers orders (db_order_number_seq db)) as [os seq].
  case_bool_decide as Hskip.
  - exists []. rewrite save_data_stocks. split; [reflexivity | auto].
  - destruct (handle_stocks _ _ _) as [os' stocks].
    exists stocks. rewrite save_data_stocks. split; [reflexivity | congruence].
Qed.

(** C10.  Whenever the mutation returns, the stock table after the call is
    the table before it with the [quantity] column of the rows handed to
    [bulk_update] overwritten: every row keeps its key, variant, warehouse
    and [quantity_allocated], so what the allocation simulation added to
    [quantity_allocated] is not stored, and the rows that were not handed
    over are kept as they are. *)
Theorem only_stock_quantity_is_written (env : Env) (db db' : Database)
    (orders_input : list OrderBulkCreateInput)
    (error_policy : option ErrorPolicy)
    (stock_update_policy : option StockUpdatePolicy)
    (response : OrderBulkCreate) :
  perform_mutation env db orders_input error_policy stock_update_policy =
    inr (response, db') ->
  Forall2 same_but_quantity (db_stocks db) (db_stocks db')
  /\ exists stocks,
       db_stocks db' = bulk_update_quantity (db_stocks db) stocks
       /\ forall row, row ∈ db_stocks db ->
            (forall s, s ∈ stocks -> stock_pk s <> stock_pk row) ->
            row ∈ db_stocks db'.
Proof.
  intros Hrun.
  assert (exists stocks, db_stocks db' = bulk_update_quantity (db_stocks db) stocks)
    as [stocks Hst].
  { unfold perform_mutation in Hrun.
    destruct (MAX_ORDERS <? length orders_input)%nat.
    - inversion Hrun; subst. exists [].
      unfold bulk_update_quantity. simpl.
      induction (db_stocks db') as [| r t IH]; simpl; congruence.
    - destruct (create_orders _ _ _ _) as [e | [[orders os] t]]; [discriminate |].
      destruct (process_orders_stocks db orders
                  (default REJECT_EVERYTHING error_policy)
                  (default UPDATE stock_update_policy)) as (stocks & Hs & _).
      destruct (process_orders _ _ _ _) as [orders' db1].
      inversion Hrun; subst. exists stocks. exact Hs. }
  split.
  - rewrite Hst. apply bulk_update_quantity_frame.
  - exists stocks. split; [exact Hst |].
    intros row Hin Hpk. rewrite Hst.
    apply bulk_update_quantity_untouched; assumption.
Qed.

Lemma sum_Z_from (l : list Z) (a : Z) : fold_left Z.add l a = a + sum_Z l.
Proof.
  unfold sum_Z. revert a.
  induction l as [| x l IH]; intros a; simpl; [lia |].
  rewrite (IH (a + x)), (IH (0 + x)). lia.
Qed.

Lemma sum_Z_cons (x : Z) (l : list Z) : sum_Z (x :: l) = x + sum_Z l.
Proof. unfold sum_Z at 1. simpl. apply sum_Z_from. Qed.

Lemma fold_left_consume (fls : list OrderBulkFulfillmentLine) (q : Z) :
  fold_left (fun q fl => q - fl_quantity (bfl_line fl)) fls q =
    q - sum_Z (map (fun l => fl_quantity (bfl_line l)) fls).
Proof.
  revert q. induction fls as [| fl fls IH]; intros q; simpl.
  - unfold sum_Z. simpl. lia.
  - rewrite IH, sum_Z_cons. lia.
Qed.

Lemma quantity_fulfilled_lookup (o : OrderBulkClass) (k : nat) :
  default 0 (orderline_quantityfulfilled_map o !! k) =
    sum_Z (map (fun l => fl_quantity (bfl_line l))
               (default [] (orderline_fulfillmentlines_map o !! k))).
Proof.
  unfold orderline_quantityfulfilled_map. rewrite lookup_fmap.
  destruct (orderline_fulfillmentlines_map o !! k); reflexivity.
Qed.

Lemma maps_mark_critical e o :
  orderline_fulfillmentlines_map (mark_critical e o) = orderline_fulfillmentlines_map o
  /\ orderline_quantityfulfilled_map (mark_critical e o) = orderline_quantityfulfilled_map o.
Proof. split; reflexivity. Qed.

(** One iteration of the line loop, when the line is not over-fulfilled and
    its stock row exists. *)
Lemma allocate_lines_step policy o l rest m i s :
  0 <= quantity_to_allocate o l ->
  m !! line_key l = Some s ->
  exists o',
    allocate_lines policy o (l :: rest) m i =
      allocate_lines policy o' rest (<[line_key l := allocated_stock o l s]> m) (S i)
    /\ lines o' = lines o /\ fulfillments o' = fulfillments o
    /\ order o' = order o
    /\ ((available_quantity s <? quantity_to_allocate o l) && negb (bool_decide (policy = FORCE)) = false
        -> o' = o)
    /\ ((available_quantity s <? quantity_to_allocate o l) && negb (bool_decide (policy = FORCE)) = true
        -> exists e, o' = mark_critical e o
             /\ code e = Some INSUFFICIENT_STOCK
             /\ path e = Some ("lines.[" +:+ pretty i +:+ "]")).
Proof.
  intros Hpos Hs.
  unfold quantity_to_allocate, quantity_fulfilled in Hpos.
  unfold line_key in Hs.
  cbn [allocate_lines].
  destruct (Z.ltb_spec (ol_quantity (bol_line l) -
              default 0 (orderline_quantityfulfilled_map o !! ol_id (bol_line l))) 0)
    as [Hneg | _]; [lia |].
  rewrite Hs.
  set (cond := (_ <? _) && negb (bool_decide (policy = FORCE))).
  assert (Hstock : forall o1,
      orderline_fulfillmentlines_map o1 = orderline_fulfillmentlines_map o ->
      {| stock_pk := stock_pk s;
         stock_product_variant_id := stock_product_variant_id s;
         stock_warehouse_id := stock_warehouse_id s;
         stock_quantity :=
           fold_left (fun q fl => q - fl_quantity (bfl_line fl))
             (default [] (orderline_fulfillmentlines_map o1 !! ol_id (bol_line l)))
             (stock_quantity s);
         stock_quantity_allocated :=
           stock_quantity_allocated s +
           (ol_quantity (bol_line l) -
            default 0 (orderline_quantityfulfilled_map o !! ol_id (bol_line l))) |}
      = allocated_stock o l s).
  { intros o1 Ho1. unfold allocated_stock, quantity_to_allocate, quantity_fulfilled.
    rewrite Ho1, fold_left_consume, <- quantity_fulfilled_lookup. reflexivity. }
  change ((available_quantity s <? quantity_to_allocate o l)
            && negb (bool_decide (policy = FORCE))) with cond.
  clearbody cond.
  destruct cond.
  - eexists. split.
    + rewrite Hstock by reflexivity. reflexivity.
    + repeat split; try reflexivity; try discriminate.
      intros _. eexists. repeat split.
  - exists o. split.
    + rewrite Hstock by reflexivity. reflexivity.
    + repeat split; try reflexivity; discriminate.
Qed.



(** The commit rule of the order loop. *)
Lemma allocate_order_commit policy o m :
  let simulated := allocate_lines policy o (lines o) m 0 in
  fst (allocate_order policy o m) = fst simulated
  /\ (is_critical_error (fst simulated) = false ->
      snd (allocate_order policy o m) = snd simulated)
  /\ (is_critical_error (fst simulated) = true ->
      snd (allocate_order policy o m) = m).
Proof.
  unfold allocate_order. simpl.
  destruct (allocate_lines policy o (lines o) m 0) as [o' m']. simpl.
  repeat split; intros ->; reflexivity.
Qed.





(** What the line loop leaves untouched, and what a non-critical outcome
    tells about the lines. *)
Lemma allocate_lines_sound policy ls : forall o m i,
  let o' := fst (allocate_lines policy o ls m i) in
  lines o' = lines o /\ fulfillments o' = fulfillments o /\ order o' = order o
  /\ (is_critical_error o = true -> is_critical_error o' = true)
  /\ (is_critical_error o' = false ->
      Forall (fun l => 0 <= quantity_to_allocate o l) ls).
Proof.
  induction ls as [| l ls IH]; intros o m i; cbn zeta.
  - simpl. repeat split; auto.
  - destruct (Z.lt_ge_cases (quantity_to_allocate o l) 0) as [Hneg | Hpos].
    + unfold quantity_to_allocate, quantity_fulfilled in Hneg.
      cbn [allocate_lines].
      destruct (Z.ltb_spec (ol_quantity (bol_line l) -
                  default 0 (orderline_quantityfulfilled_map o !! ol_id (bol_line l))) 0)
        as [_ | Hge]; [| lia].
      simpl. repeat split; auto; discriminate.
    + destruct (m !! line_key l) as [s |] eqn:Hs.
      * destruct (allocate_lines_step policy o l ls m i s Hpos Hs)
          as (o1 & Heq & Hl & Hf & Ho & Hsame & Hfail).
        rewrite Heq.
        specialize (IH o1 (<[line_key l := allocated_stock o l s]> m) (S i)).
        cbn zeta in IH. destruct IH as (IHl & IHf & IHo & IHc & IHall).
        assert (Hq : forall l', quantity_to_allocate o1 l' = quantity_to_allocate o l').
        { intros l'. unfold quantity_to_allocate, quantity_fulfilled,
            orderline_quantityfulfilled_map, orderline_fulfillmentlines_map.
          rewrite Hf. reflexivity. }
        repeat split; try congruence.
        -- intros Hc. apply IHc.
           destruct ((available_quantity s <? quantity_to_allocate o l)
                       && negb (bool_decide (policy = FORCE))) eqn:Hcond.
           ++ destruct Hfail as (e & -> & _); [reflexivity | reflexivity].
           ++ rewrite Hsame by reflexivity. exact Hc.
        -- intros Hc. constructor; [exact Hpos |].
           specialize (IHall Hc).
           eapply Forall_impl; [exact IHall |].
           intros l' Hl'. simpl in Hl'. rewrite Hq in Hl'. exact Hl'.
      * unfold quantity_to_allocate, quantity_fulfilled in Hpos.
        unfold line_key in Hs.
        cbn [allocate_lines].
        destruct (Z.ltb_spec (ol_quantity (bol_line l) -
                    default 0 (orderline_quantityfulfilled_map o !! ol_id (bol_line l))) 0)
          as [Hlt | _]; [lia |].
        rewrite Hs. simpl. repeat split; auto; discriminate.
Qed.

Lemma allocate_order_sound policy o m :
  let o' := fst (allocate_order policy o m) in
  lines o' = lines o /\ fulfillments o' = fulfillments o /\ order o' = order o
  /\ (is_critical_error o' = false -> lines_covered o').
Proof.
  cbn zeta.
  pose proof (allocate_order_commit policy o m) as (Hfst & _).
  rewrite Hfst.
  pose proof (allocate_lines_sound policy (lines o) o m 0%nat) as (Hl & Hf & Ho & _ & Hall).
  cbn zeta in *. repeat split; auto.
  intros Hc. unfold lines_covered. rewrite Hl.
  eapply Forall_impl; [exact (Hall Hc) |].
  intros l Hl'. simpl in Hl'.
  unfold quantity_to_allocate in Hl'.
  assert (Hq : quantity_fulfilled (fst (allocate_lines policy o (lines o) m 0)) l
               = quantity_fulfilled o l).
  { unfold quantity_fulfilled, orderline_quantityfulfilled_map,
      orderline_fulfillmentlines_map. rewrite Hf. reflexivity. }
  rewrite Hq. lia.
Qed.

Lemma allocate_orders_sound policy orders : forall m,
  Forall (fun o' => is_critical_error o' = false -> lines_covered o')
         (fst (allocate_orders policy orders m)).
Proof.
  induction orders as [| o orders IH]; intros m; simpl.
  - constructor.
  - pose proof (allocate_order_sound policy o m) as (_ & _ & _ & Hcov).
    destruct (allocate_order policy o m) as [o' m1]. simpl in Hcov.
    specialize (IH m1).
    destruct (allocate_orders policy orders m1) as [rest m2]. simpl in *.
    constructor; assumption.
Qed.

Lemma handle_stocks_sound table orders policy :
  Forall (fun o' => is_critical_error o' = false -> lines_covered o')
         (fst (handle_stocks table orders policy)).
Proof.
  unfold handle_stocks.
  pose proof (allocate_orders_sound policy orders (fetch_stocks_map table orders)) as H.
  destruct (allocate_orders policy orders (fetch_stocks_map table orders)).
  exact H.
Qed.

Lemma save_data_order_lines db orders stocks :
  db_order_lines (snd (save_data db orders stocks)) =
    db_order_lines db ++ concat (map all_order_lines (kept (map finalized orders))).
Proof.
  unfold save_data. fold finalized.
  change (map (fun o => let o0 := set_fulfillment_order (set_quantity_fulfilled o) in
                        if is_critical_error o0 then set_order None o0 else o0) orders)
    with (map finalized orders).
  destruct (create_fulfillment_rows _ _) as [orders' next]. reflexivity.
Qed.

Lemma finalized_lines_covered o l :
  has_order (finalized o) = true ->
  (is_critical_error o = false -> lines_covered o) ->
  l ∈ all_order_lines (finalized o) ->
  ol_quantity_fulfilled l <= ol_quantity l.
Proof.
  unfold finalized. cbn zeta.
  change (is_critical_error (set_fulfillment_order (set_quantity_fulfilled o)))
    with (is_critical_error o).
  destruct (is_critical_error o) eqn:Hc.
  - discriminate.
  - intros _ Hcov Hin. specialize (Hcov eq_refl).
    unfold all_order_lines in Hin. simpl in Hin.
    rewrite map_map in Hin. simpl in Hin.
    apply list_elem_of_fmap in Hin as (bl & -> & Hbl).
    simpl. unfold lines_covered in Hcov.
    rewrite Forall_forall in Hcov. apply Hcov. exact Hbl.
Qed.

(** What a successful call of the mutation went through. *)
Lemma perform_mutation_inr env db orders_input error_policy stock_update_policy
    response db' :
  perform_mutation env db orders_input error_policy stock_update_policy =
    inr (response, db') ->
  ((MAX_ORDERS < length orders_input)%nat /\ db' = db
   /\ exists e, response = {| count := 0; results := BatchError e |})
  \/ ((length orders_input <= MAX_ORDERS)%nat /\
      exists orders os t,
        create_orders env orders_input (get_all_instances db orders_input) 0 =
          inr (orders, os, t)
        /\ let processed :=
             process_orders db orders (default REJECT_EVERYTHING error_policy)
               (default UPDATE stock_update_policy) in
           db' = notify (omap order (fst processed)) (snd processed)
           /\ response =
                {| count := length (filter (fun o => has_order o = true) (fst processed));
                   results :=
                     OrderResults
                       (map (fun o => {| res_order := order o;
                                         res_errors := errors o |})
                            (fst processed)) |}).
Proof.
  unfold perform_mutation. intros H.
  destruct (Nat.ltb_spec MAX_ORDERS (length orders_input)) as [Hlt | Hle].
  - left. inversion H; subst. eauto.
  - right. split; [exact Hle |].
    destruct (create_orders _ _ _ _) as [e | [[orders os] t]]; [discriminate |].
    exists orders, os, t. split; [reflexivity |].
    destruct (process_orders _ _ _ _) as [orders' db1]. simpl.
    inversion H; subst. split; reflexivity.
Qed.

Lemma elem_of_concat {A : Type} (x : A) (ls : list (list A)) :
  x ∈ concat ls <-> exists l, x ∈ l /\ l ∈ ls.
Proof.
  induction ls as [| l0 ls IH]; simpl.
  - split; [intros H; inversion H | intros (l & _ & H); inversion H].
  - rewrite elem_of_app, IH. split.
    + intros [H | (l & Hx & Hl)].
      * exists l0. split; [exact H | left].
      * exists l. split; [exact Hx | right; exact Hl].
    + intros (l & Hx & Hl). apply elem_of_cons in Hl as [-> | Hl].
      * left. exact Hx.
      * right. exists l. split; assumption.
Qed.

Lemma process_orders_order_lines db orders error_policy stock_update_policy :
  stock_update_policy <> SKIP ->
  exists new_lines,
    db_order_lines (snd (process_orders db orders error_policy stock_update_policy))
      = db_order_lines db ++ new_lines
    /\ Forall (fun l => ol_quantity_fulfilled l <= ol_quantity l) new_lines.
Proof.
  intros Hskip. unfold process_orders.
  destruct (validate_order_numbers orders (db_order_number_seq db)) as [os seq].
  case_bool_decide; [contradiction |].
  pose proof (handle_stocks_sound
                (db_stocks (with_order_number_seq seq db))
                (handle_error_policy os error_policy) stock_update_policy) as Hsound.
  destruct (handle_stocks _ _ _) as [os' stocks]. simpl in Hsound.
  rewrite save_data_order_lines. simpl.
  eexists. split; [reflexivity |].
  apply Forall_forall. intros l Hnew.
  apply elem_of_concat in Hnew as (ls & Hl & Hls).
  apply list_elem_of_fmap in Hls as (o4 & -> & Ho4).
  unfold kept in Ho4. apply list_elem_of_filter in Ho4 as [Hhas Ho4].
  apply list_elem_of_fmap in Ho4 as (o3 & -> & Ho3).
  rewrite Forall_forall in Hsound.
  eapply finalized_lines_covered; eauto.
Qed.

(** The fulfilled quantity recorded for a line is the sum of the quantities
    of the fulfillment lines that refer to it. *)
Lemma fulfillmentlines_map_lookup_fold (fls : list OrderBulkFulfillmentLine)
    (m : gmap nat (list OrderBulkFulfillmentLine)) (k : nat) :
  default [] (fold_left
                (fun m l =>
                   let k := fl_order_line (bfl_line l) in
                   <[k := default [] (m !! k) ++ [l]]> m) fls m !! k) =
    default [] (m !! k)
      ++ filter (fun l => fl_order_line (bfl_line l) = k) fls.
Proof.
  revert m. induction fls as [| fl fls IH]; intros m; simpl.
  - rewrite app_nil_r. reflexivity.
  - rewrite IH. rewrite filter_cons.
    destruct (decide (fl_order_line (bfl_line fl) = k)) as [-> | Hne].
    + rewrite lookup_insert_eq. simpl. rewrite <- app_assoc. reflexivity.
    + rewrite lookup_insert_ne by exact Hne. reflexivity.
Qed.

Lemma fulfillmentlines_map_lookup (o : OrderBulkClass) (k : nat) :
  default [] (orderline_fulfillmentlines_map o !! k) =
    filter (fun l => fl_order_line (bfl_line l) = k)
           (concat (map bf_lines (fulfillments o))).
Proof.
  unfold orderline_fulfillmentlines_map.
  assert (H : forall fs (m : gmap nat (list OrderBulkFulfillmentLine)),
    default [] (fold_left
      (fun m f =>
         fold_left
           (fun m l => let k := fl_order_line (bfl_line l) in
                       <[k := default [] (m !! k) ++ [l]]> m)
           (bf_lines f) m) fs m !! k) =
    default [] (m !! k)
      ++ filter (fun l => fl_order_line (bfl_line l) = k)
                (concat (map bf_lines fs))).
  { induction fs as [| f fs IH]; intros m; simpl.
    - rewrite app_nil_r. reflexivity.
    - rewrite IH, fulfillmentlines_map_lookup_fold, filter_app, app_assoc.
      reflexivity. }
  rewrite H. rewrite lookup_empty. reflexivity.
Qed.

Lemma quantity_fulfilled_is_sum (o : OrderBulkClass) (l : OrderBulkOrderLine) :
  quantity_fulfilled o l =
    sum_Z (map (fun fl => fl_quantity (bfl_line fl))
               (filter (fun fl => fl_order_line (bfl_line fl) = ol_id (bol_line l))
                       (concat (map bf_lines (fulfillments o))))).
Proof.
  unfold quantity_fulfilled.
  rewrite quantity_fulfilled_lookup, fulfillmentlines_map_lookup. reflexivity.
Qed.

Lemma overfulfilled_line_is_critical policy o l rest m i :
  quantity_to_allocate o l < 0 ->
  exists e,
    allocate_lines policy o (l :: rest) m i = (mark_critical e o, m)
    /\ code e = Some INVALID_QUANTITY
    /\ path e = Some ("lines.[" +:+ pretty i +:+ "]").
Proof.
  intros Hneg. unfold quantity_to_allocate, quantity_fulfilled in Hneg.
  cbn [allocate_lines].
  destruct (Z.ltb_spec (ol_quantity (bol_line l) -
              default 0 (orderline_quantityfulfilled_map o !! ol_id (bol_line l))) 0)
    as [_ | Hge]; [| lia].
  eexists. repeat split.
Qed.

(** C5 (as amended).  When the stock update policy is not SKIP, every order
    line stored by the call has a fulfilled quantity of at most its ordered
    quantity, the fulfilled quantity of a line being the sum of the
    quantities of the fulfillment lines that refer to it: the stock pass marks an order with a line fulfilled beyond its
    quantity (a negative quantity to allocate) critical with
    INVALID_QUANTITY at that line, and an order that leaves the stock pass
    without a critical error has every line covered.  Under SKIP the stock
    pass does not run. *)
Theorem fulfilled_within_ordered_unless_stocks_skipped (env : Env)
    (db db' : Database) (orders_input : list OrderBulkCreateInput)
    (error_policy : option ErrorPolicy)
    (stock_update_policy : option StockUpdatePolicy)
    (response : OrderBulkCreate) :
  stock_update_policy <> Some SKIP ->
  perform_mutation env db orders_input error_policy stock_update_policy =
    inr (response, db') ->
  (exists new_lines,
     db_order_lines db' = db_order_lines db ++ new_lines
     /\ Forall (fun l => ol_quantity_fulfilled l <= ol_quantity l) new_lines)
  /\ (forall o l,
        quantity_fulfilled o l =
          sum_Z (map (fun fl => fl_quantity (bfl_line fl))
                     (filter (fun fl => fl_order_line (bfl_line fl)
                                          = ol_id (bol_line l))
                             (concat (map bf_lines (fulfillments o))))))
  /\ (forall policy o l rest m i,
        quantity_to_allocate o l < 0 ->
        exists e,
          allocate_lines policy o (l :: rest) m i = (mark_critical e o, m)
          /\ code e = Some INVALID_QUANTITY
          /\ path e = Some ("lines.[" +:+ pretty i +:+ "]"))
  /\ (forall policy o m,
        is_critical_error (fst (allocate_order policy o m)) = false ->
        Forall (fun l => quantity_fulfilled o l <= ol_quantity (bol_line l))
               (lines o)).
Proof.
  intros Hskip Hrun. split; [| split; [| split]].
  - apply perform_mutation_inr in Hrun as [(_ & -> & _) | (_ & orders & os & t & _ & Hdb & _)].
    + exists []. rewrite app_nil_r. split; [reflexivity | constructor].
    + cbn zeta in Hdb. subst db'.
      change (db_order_lines (notify ?x ?d)) with (db_order_lines d).
      apply process_orders_order_lines.
      destruct stock_update_policy as [[] |]; simpl; congruence.
  - apply quantity_fulfilled_is_sum.
  - intros. apply overfulfilled_line_is_critical. assumption.
  - intros policy o m Hc.
    pose proof (allocate_order_sound policy o m) as (Hl & Hf & _ & Hcov).
    cbn zeta in *. specialize (Hcov Hc). unfold lines_covered in Hcov.
    rewrite Hl in Hcov. eapply Forall_impl; [exact Hcov |].
    intros l Hle. simpl in Hle.
    assert (Hq : quantity_fulfilled (fst (allocate_order policy o m)) l
                 = quantity_fulfilled o l).
    { unfold quantity_fulfilled, orderline_quantityfulfilled_map,
        orderline_fulfillmentlines_map. rewrite Hf. reflexivity. }
    rewrite <- Hq. exact Hle.
Qed.

(** ** Order numbers *)



(** ** Running the construction monad *)

Lemma bind_run {A B : Type} (m : M A) (k : A -> M B) (s : State) :
  (m ≫= k) s = match m s with inl e => inl e | inr (a, s') => k a s' end.
Proof. reflexivity. Qed.

Lemma bind_inr {A B : Type} (m : M A) (k : A -> M B) (s : State) b s' :
  (m ≫= k) s = inr (b, s') ->
  exists a s1, m s = inr (a, s1) /\ k a s1 = inr (b, s').
Proof.
  rewrite bind_run. destruct (m s) as [e | [a s1]]; [discriminate |]. eauto.
Qed.

Lemma bind_inr_run {A B : Type} (m : M A) (k : A -> M B) (s : State) a s' :
  m s = inr (a, s') -> (m ≫= k) s = k a s'.
Proof. intros H. rewrite bind_run, H. reflexivity. Qed.

Lemma is_datetime_valid_run env date s :
  is_datetime_valid env date s = inr (negb (is_future env s date), tick s).
Proof.
  unfold is_future. rewrite negb_involutive. reflexivity.
Qed.

Lemma set_errors_app es1 es2 o :
  set_errors (errors (set_errors (errors o ++ es1) o) ++ es2) (set_errors (errors o ++ es1) o)
  = set_errors (errors o ++ es1 ++ es2) o.
Proof. unfold set_errors. simpl. rewrite app_assoc. reflexivity. Qed.

Lemma validate_order_input_run env order_input s :
  validate_order_input env order_input s =
    inr (tt,
         with_order
           ((if number_exists order_input (st_storage s)
             then set_is_critical_error true else id)
              (set_errors
                 (errors (st_order s) ++ order_input_errors env order_input s)
                 (st_order s)))
           (tick s)).
Proof.
  unfold validate_order_input, order_input_errors, number_exists.
  rewrite bind_run, is_datetime_valid_run.
  destruct s as [o os t]. destruct o. unfold is_future, now_at, tick. simpl.
  destruct (oi_created_at order_input <? clock env t + timedelta_minutes MINUTES_DIFF);
  destruct (oi_redirect_url order_input) as [[[| c u] [msg |]] |];
  destruct (oi_weight order_input) as [w |]; try destruct (Decimal.lt w 0);
  destruct (oi_number order_input) as [[| c' n] |];
  unfold with_order, set_is_critical_error, set_errors, append_error, modify_order,
    when, get_storage, mbind, M_bind, mret, M_ret; simpl;
  try case_bool_decide; simpl;
  rewrite <- ?app_assoc, ?app_nil_r; simpl; reflexivity.
Qed.

(** ** The stages after construction, order by order *)

Lemma reject_duplicate_numbers_elementwise orders : forall numbers,
  Forall2 number_checked orders (fst (reject_duplicate_numbers orders numbers)).
Proof.
  induction orders as [| o orders IH]; intros numbers; simpl; [constructor |].
  destruct (order o) as [ord |] eqn:Ho; [destruct (ord_number ord) as [n |] eqn:Hn |].
  - case_bool_decide.
    + specialize (IH numbers).
      destruct (reject_duplicate_numbers orders numbers). simpl in *.
      constructor; [| exact IH]. right. exists n. split; [| reflexivity].
      unfold live_number. rewrite Ho. exact Hn.
    + specialize (IH (numbers ++ [n])).
      destruct (reject_duplicate_numbers orders (numbers ++ [n])). simpl in *.
      constructor; [left; reflexivity | exact IH].
  - specialize (IH numbers).
    destruct (reject_duplicate_numbers orders numbers). simpl in *.
    constructor; [left; reflexivity | exact IH].
  - specialize (IH numbers).
    destruct (reject_duplicate_numbers orders numbers). simpl in *.
    constructor; [left; reflexivity | exact IH].
Qed.

Lemma validate_order_numbers_elementwise orders seq :
  Forall2 number_checked orders (fst (validate_order_numbers orders seq)).
Proof.
  unfold validate_order_numbers.
  pose proof (reject_duplicate_numbers_elementwise orders []) as H.
  destruct (reject_duplicate_numbers orders []). exact H.
Qed.

Lemma allocate_lines_errors policy ls : forall o m i,
  stock_checked o (fst (allocate_lines policy o ls m i)).
Proof.
  induction ls as [| l ls IH]; intros o m i.
  - simpl. repeat split; auto. exists []. rewrite app_nil_r.
    repeat split; auto; congruence.
  - assert (Hbreak : forall e, stock_checked o (mark_critical e o)).
    { intros e. repeat split; auto. exists [e].
      split; [reflexivity |]. split; [reflexivity |].
      intros _. right. discriminate. }
    destruct (Z.lt_ge_cases (quantity_to_allocate o l) 0) as [Hneg | Hpos].
    + destruct (overfulfilled_line_is_critical policy o l ls m i Hneg) as (e & -> & _).
      apply Hbreak.
    + destruct (m !! line_key l) as [s |] eqn:Hs.
      * destruct (allocate_lines_step policy o l ls m i s Hpos Hs)
          as (o1 & Heq & _ & _ & _ & Hsame & Hfail).
        rewrite Heq.
        specialize (IH o1 (<[line_key l := allocated_stock o l s]> m) (S i)).
        destruct ((available_quantity s <? quantity_to_allocate o l)
                    && negb (bool_decide (policy = FORCE))) eqn:Hcond.
        -- destruct Hfail as (e & -> & _); [reflexivity |].
           destruct IH as (Ho & Hc & es & Hes & Hne & _).
           repeat split; [exact Ho | intros _; apply Hc; reflexivity |].
           exists (e :: es). repeat split.
           ++ rewrite Hes. simpl. rewrite <- app_assoc. reflexivity.
           ++ intros _. apply Hc. reflexivity.
           ++ intros _. right. discriminate.
        -- rewrite Hsame in * by reflexivity. exact IH.
      * unfold quantity_to_allocate, quantity_fulfilled in Hpos.
        unfold line_key in Hs. cbn [allocate_lines].
        destruct (Z.ltb_spec (ol_quantity (bol_line l) -
                    default 0 (orderline_quantityfulfilled_map o !! ol_id (bol_line l))) 0)
          as [Hlt | _]; [lia |].
        rewrite Hs. apply Hbreak.
Qed.

Lemma allocate_orders_elementwise policy orders : forall m,
  Forall2 stock_checked orders (fst (allocate_orders policy orders m)).
Proof.
  induction orders as [| o orders IH]; intros m; simpl; [constructor |].
  pose proof (allocate_order_commit policy o m) as (Hfst & _).
  pose proof (allocate_lines_errors policy (lines o) o m 0%nat) as Hchk.
  cbn zeta in Hfst. rewrite <- Hfst in Hchk.
  destruct (allocate_order policy o m) as [o' m1]. simpl in Hchk.
  specialize (IH m1).
  destruct (allocate_orders policy orders m1). simpl in *.
  constructor; assumption.
Qed.

Lemma handle_stocks_elementwise table orders policy :
  Forall2 stock_checked orders (fst (handle_stocks table orders policy)).
Proof.
  unfold handle_stocks.
  pose proof (allocate_orders_elementwise policy orders (fetch_stocks_map table orders)) as H.
  destruct (allocate_orders policy orders (fetch_stocks_map table orders)). exact H.
Qed.

Lemma stock_checked_refl o : stock_checked o o.
Proof.
  repeat split; auto. exists []. rewrite app_nil_r. repeat split; auto; congruence.
Qed.

Lemma create_fulfillment_rows_elementwise orders : forall next,
  Forall2 (fun o o' => order o' = order o /\ errors o' = errors o
                       /\ is_critical_error o' = is_critical_error o)
          orders (fst (create_fulfillment_rows next orders)).
Proof.
  induction orders as [| o orders IH]; intros next; simpl; [constructor |].
  destruct (has_order o).
  - destruct (assign_pks next (fulfillments o)) as [fs next'].
    specialize (IH next').
    destruct (create_fulfillment_rows next' orders). simpl in *.
    constructor; [repeat split | exact IH].
  - specialize (IH next).
    destruct (create_fulfillment_rows next orders). simpl in *.
    constructor; [repeat split | exact IH].
Qed.

Lemma save_data_elementwise db orders stocks :
  Forall2 saved orders (fst (save_data db orders stocks)).
Proof.
  unfold save_data.
  change (map (fun o => let o0 := set_fulfillment_order (set_quantity_fulfilled o) in
                        if is_critical_error o0 then set_order None o0 else o0) orders)
    with (map finalized orders).
  pose proof (create_fulfillment_rows_elementwise (map finalized orders)
                (db_fulfillment_pk db)) as H.
  destruct (create_fulfillment_rows _ _) as [orders' next]. simpl in *.
  apply Forall2_fmap_r.
  apply Forall2_fmap_l in H.
  eapply Forall2_impl; [exact H |].
  intros o o' (Ho & He & _). unfold saved. simpl.
  rewrite Ho, He. unfold finalized. cbn zeta.
  change (is_critical_error (set_fulfillment_order (set_quantity_fulfilled o)))
    with (is_critical_error o).
  destruct (is_critical_error o); split; reflexivity.
Qed.

(** The aggregates the stages of [process_orders] go through. *)
Lemma process_orders_stages db orders error_policy stock_update_policy :
  exists checked allocated,
    Forall2 number_checked orders checked
    /\ Forall2 stock_checked (handle_error_policy checked error_policy) allocated
    /\ (stock_update_policy = SKIP ->
        allocated = handle_error_policy checked error_policy)
    /\ Forall2 saved allocated
         (fst (process_orders db orders error_policy stock_update_policy))
    /\ checked = fst (validate_order_numbers orders (db_order_number_seq db)).
Proof.
  unfold process_orders.
  pose proof (validate_order_numbers_elementwise orders (db_order_number_seq db)) as Hnum.
  destruct (validate_order_numbers orders (db_order_number_seq db)) as [checked seq].
  simpl in Hnum. exists checked.
  case_bool_decide as Hskip.
  - exists (handle_error_policy checked error_policy).
    repeat split; auto.
    + apply Forall_Forall2_diag, Forall_forall. intros; apply stock_checked_refl.
    + apply save_data_elementwise.
  - pose proof (handle_stocks_elementwise
                  (db_stocks (with_order_number_seq seq db))
                  (handle_error_policy checked error_policy)
                  stock_update_policy) as Hst.
    destruct (handle_stocks _ _ _) as [allocated stocks]. simpl in Hst.
    exists allocated. repeat split; auto.
    + intros ->. contradiction.
    + apply save_data_elementwise.
Qed.

(** ** What the construction of an order preserves *)

Lemma grows_refl s : grows s s.
Proof.
  repeat split; auto. exists []. rewrite app_nil_r. reflexivity.
Qed.

Lemma grows_trans s1 s2 s3 : grows s1 s2 -> grows s2 s3 -> grows s1 s3.
Proof.
  intros (Ho & Hn & Hu & Hc & Hb & (es & He) & Hk)
         (Ho' & Hn' & Hu' & Hc' & Hb' & (es' & He') & Hk').
  repeat split; try congruence; auto.
  exists (es ++ es'). rewrite He', He, app_assoc. reflexivity.
Qed.

Lemma grows_errors s s' :
  grows s s' -> errors (st_order s) <> [] -> errors (st_order s') <> [].
Proof.
  intros (_ & _ & _ & _ & _ & (es & He) & _) Hne. rewrite He.
  destruct (errors (st_order s)); [congruence | discriminate].
Qed.

Lemma grows_elem_of s s' e :
  grows s s' -> e ∈ errors (st_order s) -> e ∈ errors (st_order s').
Proof.
  intros (_ & _ & _ & _ & _ & (es & He) & _) Hin. rewrite He.
  apply elem_of_app. left. exact Hin.
Qed.

Lemma growing_ret {A : Type} (a : A) : growing (mret a).
Proof. intros s b s' H. inversion H; subst. apply grows_refl. Qed.

Lemma growing_bind {A B : Type} (m : M A) (k : A -> M B) :
  growing m -> (forall a, growing (k a)) -> growing (m ≫= k).
Proof.
  intros Hm Hk s b s' H. apply bind_inr in H as (a & s1 & H1 & H2).
  eapply grows_trans; [eapply Hm | eapply Hk]; eassumption.
Qed.

Lemma growing_lift {A : Type} (r : Exception + A) : growing (lift r).
Proof.
  intros s a s' H. unfold lift in H. destruct r; inversion H; subst.
  apply grows_refl.
Qed.

Lemma growing_raise {A : Type} (e : Exception) : growing (@raise A e).
Proof. intros s a s' H. discriminate. Qed.

Lemma growing_get_order : growing get_order.
Proof. intros s a s' H. inversion H; subst. apply grows_refl. Qed.

Lemma growing_get_storage : growing get_storage.
Proof. intros s a s' H. inversion H; subst. apply grows_refl. Qed.

Lemma growing_append_error e : growing (append_error e).
Proof.
  intros s a s' H. inversion H; subst. repeat split; auto.
  exists [e]. reflexivity.
Qed.

Lemma growing_when b m : growing m -> growing (when b m).
Proof. intros Hm. destruct b; [exact Hm | apply growing_ret]. Qed.

Lemma growing_timezone_now env : growing (timezone_now env).
Proof.
  intros s a s' H. inversion H; subst. repeat split; auto.
  exists []. simpl. rewrite app_nil_r. reflexivity.
Qed.

Lemma growing_modify_order f : neutral f -> growing (modify_order f).
Proof.
  intros Hf s a s' H. inversion H; subst. simpl.
  destruct (Hf (st_order s)) as (Ho & Hu & Hc & Hb & He & Hk).
  repeat split; simpl; try congruence.
  exists []. rewrite app_nil_r. exact He.
Qed.

Ltac neutral_tac := intros ?; repeat split; reflexivity.

Ltac growing_step :=
  lazymatch goal with
  | |- growing (mret _) => apply growing_ret
  | |- growing (_ ≫= _) => apply growing_bind; [| intros ?]
  | |- growing (append_error _) => apply growing_append_error
  | |- growing (when _ _) => apply growing_when
  | |- growing (lift _) => apply growing_lift
  | |- growing (raise _) => apply growing_raise
  | |- growing get_order => apply growing_get_order
  | |- growing get_storage => apply growing_get_storage
  | |- growing (timezone_now _) => apply growing_timezone_now
  | |- growing (modify_order _) => apply growing_modify_order; neutral_tac
  | |- growing (match ?x with _ => _ end) => destruct x
  | |- growing (let _ := _ in _) => cbv zeta
  end.

Ltac growing_tac := repeat (first [assumption | solve [auto with growing] | growing_step]).

Create HintDb growing.

Section Growing.

Variable env : Env.

Lemma growing_is_datetime_valid date : growing (is_datetime_valid env date).
Proof. unfold is_datetime_valid. growing_tac. Qed.
Hint Resolve growing_is_datetime_valid : growing.

Lemma growing_validate_order_status status : growing (validate_order_status status).
Proof. unfold validate_order_status. growing_tac. Qed.
Hint Resolve growing_validate_order_status : growing.

Lemma growing_process_metadata md p f : growing (process_metadata md p f).
Proof. unfold process_metadata. growing_tac. Qed.
Hint Resolve growing_process_metadata : growing.

Lemma growing_process_metadata_if_given md p f :
  growing (process_metadata_if_given md p f).
Proof. unfold process_metadata_if_given. growing_tac. Qed.
Hint Resolve growing_process_metadata_if_given : growing.

Lemma growing_get_instance_with_errors {A : Type} (r : Resolved A) :
  growing (get_instance_with_errors r).
Proof. unfold get_instance_with_errors. growing_tac. Qed.
Hint Resolve @growing_get_instance_with_errors : growing.

Lemma growing_resolve_gift_cards codes : forall i,
  growing (resolve_gift_cards codes i).
Proof. induction codes as [| c codes IH]; intros i; simpl; growing_tac. Qed.
Hint Resolve growing_resolve_gift_cards : growing.

Lemma growing_make_order_line_calculations li currency index :
  growing (make_order_line_calculations env li currency index).
Proof. unfold make_order_line_calculations. growing_tac. Qed.
Hint Resolve growing_make_order_line_calculations : growing.

Lemma growing_get_delivery_method input : growing (get_delivery_method input).
Proof. unfold get_delivery_method. growing_tac. Qed.
Hint Resolve growing_get_delivery_method : growing.

Lemma growing_create_single_note ni index :
  growing (create_single_note env ni index).
Proof. unfold create_single_note. growing_tac. Qed.
Hint Resolve growing_create_single_note : growing.

Lemma growing_create_single_discount di index :
  growing (create_single_discount di index).
Proof. unfold create_single_discount. growing_tac. Qed.
Hint Resolve growing_create_single_discount : growing.

Lemma growing_create_single_invoice ii index :
  growing (create_single_invoice env ii index).
Proof. unfold create_single_invoice. growing_tac. Qed.
Hint Resolve growing_create_single_invoice : growing.

Lemma growing_create_single_order_line li oi index :
  growing (create_single_order_line env li oi index).
Proof. unfold create_single_order_line. growing_tac. Qed.
Hint Resolve growing_create_single_order_line : growing.

Lemma growing_create_fulfillment_lines index order_lines lines_input :
  forall acc line_index,
    growing (create_fulfillment_lines index order_lines lines_input acc line_index).
Proof.
  induction lines_input as [| li rest IH]; intros acc line_index; simpl;
    growing_tac.
Qed.
Hint Resolve growing_create_fulfillment_lines : growing.

Lemma growing_create_single_fulfillment fi order_lines index :
  growing (create_single_fulfillment fi order_lines index).
Proof. unfold create_single_fulfillment. growing_tac. Qed.
Hint Resolve growing_create_single_fulfillment : growing.

Lemma growing_create_notes inputs : forall index,
  growing (create_notes env inputs index).
Proof. induction inputs as [| ni rest IH]; intros index; simpl; growing_tac. Qed.
Hint Resolve growing_create_notes : growing.

Lemma growing_append_transaction_errors errs index :
  growing (append_transaction_errors errs index).
Proof. induction errs as [| [msg c] rest IH]; simpl; growing_tac. Qed.
Hint Resolve growing_append_transaction_errors : growing.

Lemma growing_create_transactions inputs : forall index,
  growing (create_transactions inputs index).
Proof. induction inputs as [| ti rest IH]; intros index; simpl; growing_tac. Qed.
Hint Resolve growing_create_transactions : growing.

Lemma growing_create_invoices inputs : forall index,
  growing (create_invoices env inputs index).
Proof. induction inputs as [| ii rest IH]; intros index; simpl; growing_tac. Qed.
Hint Resolve growing_create_invoices : growing.

Lemma growing_create_discounts inputs : forall index,
  growing (create_discounts inputs index).
Proof. induction inputs as [| di rest IH]; intros index; simpl; growing_tac. Qed.
Hint Resolve growing_create_discounts : growing.

Lemma growing_make_order_calculations dm ols ch di :
  growing (make_order_calculations env dm ols ch di).
Proof.
  intros s a s' H. unfold make_order_calculations in H.
  apply bind_inr in H as ([[net gross] rate] & s1 & H1 & H2).
  inversion H2; subst. clear H2.
  destruct (dlv_shipping_method dm) as [sm |]; [| inversion H1; subst; apply grows_refl].
  destruct (dm_shipping_price di) as [sp |].
  - apply bind_inr in H1 as (r & s2 & Hr & H2).
    inversion H2; subst. eapply growing_lift. exact Hr.
  - apply bind_inr in H1 as (os & s2 & Hos & H2).
    inversion Hos; subst. clear Hos.
    repeat match type of H2 with
           | context [match ?x with _ => _ end] => destruct x
           end;
      try (inversion H2; subst; apply grows_refl).
    all: apply bind_inr in H2 as (u & s3 & Hput & H3);
      inversion H3; subst; inversion Hput; subst;
      repeat split; auto; exists []; simpl; rewrite app_nil_r; reflexivity.
Qed.

End Growing.

Ltac bind_inv H :=
  let a := fresh "a" in
  let s := fresh "s" in
  let Hrun := fresh "Hrun" in
  apply bind_inr in H as (a & s & Hrun & H).

Tactic Notation "mstep" hyp(H) "as" ident(a) ident(s) ident(Hrun) :=
  apply bind_inr in H as (a & s & Hrun & H).

Ltac ret_inv H := inversion H; subst; clear H.

Lemma get_instance_with_errors_run {A : Type} (r : Resolved A) (s : State) :
  get_instance_with_errors r s =
    inr (match r with Instance a => Some a | _ => None end,
         match r with
         | Raises e => with_order (add_error (resolution_error e) (st_order s)) s
         | _ => s
         end).
Proof. destruct r; reflexivity. Qed.

Lemma add_error_nonempty e o : errors (add_error e o) <> [].
Proof. simpl. destruct (errors o); discriminate. Qed.

Lemma get_instance_with_errors_none {A : Type} (r : Resolved A) s s' :
  get_instance_with_errors r s = inr (None, s') ->
  r <> NoInstance ->
  errors (st_order s') <> [].
Proof.
  intros H Hr.
  rewrite get_instance_with_errors_run in H.
  destruct r; [discriminate | contradiction |].
  ret_inv H. apply add_error_nonempty.
Qed.

Lemma when_append_error_run b e s a s' :
  when b (append_error e) s = inr (a, s') ->
  grows s s' /\ (b = true -> errors (st_order s') <> []).
Proof.
  intros H. split.
  - eapply (growing_when b _ (growing_append_error e)). exact H.
  - intros ->. ret_inv H. apply add_error_nonempty.
Qed.

Lemma append_error_run e s a s' :
  append_error e s = inr (a, s') ->
  grows s s' /\ errors (st_order s') <> [] /\ e ∈ errors (st_order s').
Proof.
  intros H. split; [eapply growing_append_error; exact H |].
  ret_inv H. split; [apply add_error_nonempty |].
  simpl. apply elem_of_app. right. left.
Qed.

Lemma grows_weaken s s' : grows s s' -> grows_or_fails s s'.
Proof.
  intros (Ho & Hn & Hu & Hc & Hb & He & Hk). repeat split; auto. congruence.
Qed.

Lemma grows_or_fails_trans s1 s2 s3 :
  grows_or_fails s1 s2 -> grows_or_fails s2 s3 -> grows_or_fails s1 s3.
Proof.
  intros (Ho & Hn & Hu & Hc & Hb & (es & He) & Hk)
         (Ho' & Hn' & Hu' & Hc' & Hb' & (es' & He') & Hk').
  repeat split; try congruence; auto.
  exists (es ++ es'). rewrite He', He, app_assoc. reflexivity.
Qed.

Lemma grows_or_fails_errors s s' :
  grows_or_fails s s' -> errors (st_order s) <> [] -> errors (st_order s') <> [].
Proof.
  intros (_ & _ & _ & _ & _ & (es & He) & _) Hne. rewrite He.
  destruct (errors (st_order s)); [congruence | discriminate].
Qed.

Lemma grows_or_fails_elem_of s s' e :
  grows_or_fails s s' -> e ∈ errors (st_order s) -> e ∈ errors (st_order s').
Proof.
  intros (_ & _ & _ & _ & _ & (es & He) & _) Hin. rewrite He.
  apply elem_of_app. left. exact Hin.
Qed.

Lemma mark_critical_run s a s' :
  modify_order (set_is_critical_error true) s = inr (a, s') ->
  grows_or_fails s s' /\ errors (st_order s') = errors (st_order s).
Proof.
  intros H. ret_inv H. repeat split; auto.
  exists []. simpl. rewrite app_nil_r. reflexivity.
Qed.

Section Strict.

Variable env : Env.

Lemma make_order_line_calculations_none li currency index s s' :
  make_order_line_calculations env li currency index s = inr (None, s') ->
  errors (st_order s') <> [].
Proof.
  unfold make_order_line_calculations. cbv zeta. intros H.
  bind_inv H. bind_inv H. bind_inv H.
  apply when_append_error_run in Hrun as [Hg1 Hne1].
  apply when_append_error_run in Hrun0 as [Hg2 Hne2].
  apply when_append_error_run in Hrun1 as [Hg3 Hne3].
  destruct (li_quantity li <? 1).
  { ret_inv H. eapply grows_errors; [exact Hg3 |].
    eapply grows_errors; [exact Hg2 | auto]. }
  destruct (Decimal.lt (tm_gross (li_total_price li)) (tm_net (li_total_price li))).
  { ret_inv H. eapply grows_errors; [exact Hg3 | auto]. }
  destruct (Decimal.lt (tm_gross (li_undiscounted_total_price li))
                       (tm_net (li_undiscounted_total_price li))).
  { ret_inv H. auto. }
  simpl in H.
  bind_inv H. bind_inv H. bind_inv H. bind_inv H. bind_inv H.
  discriminate.
Qed.

Lemma create_single_order_line_none li oi index s s' :
  strict_line li ->
  create_single_order_line env li oi index s = inr (None, s') ->
  errors (st_order s') <> [].
Proof.
  intros [Hv Hw] H. unfold create_single_order_line in H. cbv zeta in H.
  bind_inv H. destruct a as [variant |].
  2:{ ret_inv H. eapply get_instance_with_errors_none; eassumption. }
  bind_inv H. destruct a as [warehouse |].
  2:{ ret_inv H. eapply get_instance_with_errors_none; eassumption. }
  bind_inv H. bind_inv H. destruct a0 as [amounts |].
  2:{ ret_inv H. eapply make_order_line_calculations_none; eassumption. }
  bind_inv H. bind_inv H. bind_inv H. bind_inv H. bind_inv H. bind_inv H.
  discriminate.
Qed.

Lemma create_order_lines_run inputs oi : forall index s s',
  create_order_lines env inputs oi index s = inr (tt, s') ->
  grows_or_fails s s'
  /\ (Forall strict_line inputs -> critical_with_error s s').
Proof.
  induction inputs as [| li rest IH]; intros index s s' H.
  - ret_inv H. split; [apply grows_weaken, grows_refl | intros _ Hc; auto].
  - simpl in H. bind_inv H. bind_inv H.
    destruct a0. apply IH in H as [Hrest Hrest_strict].
    pose proof (growing_create_single_order_line env li oi index _ _ _ Hrun) as Hg.
    assert (Hstep : grows_or_fails s s1
              /\ (strict_line li -> critical_with_error s s1)).
    { destruct a as [line |].
      - assert (Hg' : grows s0 s1).
        { eapply (growing_modify_order _ _ _ _ _ Hrun0). }
        split; [apply grows_weaken; eapply grows_trans; eassumption |].
        intros _ Hc. left.
        destruct Hg as (_ & _ & _ & _ & _ & _ & Hk).
        destruct Hg' as (_ & _ & _ & _ & _ & _ & Hk').
        congruence.
      - apply mark_critical_run in Hrun0 as [Hw He].
        split; [eapply grows_or_fails_trans; [apply grows_weaken |]; eassumption |].
        intros Hstrict _. right. rewrite He.
        eapply create_single_order_line_none; eassumption. }
    destruct Hstep as [Hstep Hstep_strict].
    split; [eapply grows_or_fails_trans; eassumption |].
    intros Hall Hc. apply Forall_cons in Hall as [Hli Hall].
    destruct (Hrest_strict Hall Hc) as [Hc1 | Hne]; [| auto].
    destruct (Hstep_strict Hli Hc1) as [Hc0 | Hne]; [auto |].
    right. eapply grows_or_fails_errors; eassumption.
    Unshelve. neutral_tac.
Qed.

Lemma create_fulfillment_lines_none index order_lines lines_input :
  forall acc line_index s s',
    Forall strict_fulfillment_line lines_input ->
    create_fulfillment_lines index order_lines lines_input acc line_index s =
      inr (None, s') ->
    errors (st_order s') <> [].
Proof.
  induction lines_input as [| li rest IH]; intros acc line_index s s' Hall H.
  - discriminate.
  - apply Forall_cons in Hall as [[Hv Hw] Hall].
    simpl in H. bind_inv H. destruct a as [variant |].
    2:{ ret_inv H. eapply get_instance_with_errors_none; eassumption. }
    bind_inv H. destruct a as [warehouse |].
    2:{ ret_inv H. eapply get_instance_with_errors_none; eassumption. }
    destruct (fli_order_line_index li <? 0).
    { bind_inv H. ret_inv H. eapply append_error_run; eassumption. }
    destruct (order_lines !! Z.to_nat (fli_order_line_index li)) as [ol |].
    2:{ bind_inv H. ret_inv H. eapply append_error_run; eassumption. }
    destruct (negb (String.eqb _ _)).
    { bind_inv H. ret_inv H. eapply append_error_run; eassumption. }
    destruct (negb (_ =? _)).
    { bind_inv H. ret_inv H. eapply append_error_run; eassumption. }
    eapply IH; eassumption.
Qed.

Lemma create_single_fulfillment_none fi order_lines index s s' :
  strict_fulfillment fi ->
  create_single_fulfillment fi order_lines index s = inr (None, s') ->
  errors (st_order s') <> [].
Proof.
  intros Hall H. unfold create_single_fulfillment in H. cbv zeta in H.
  bind_inv H. ret_inv H. destruct a as [ls |]; [discriminate |].
  eapply create_fulfillment_lines_none; eassumption.
Qed.

Lemma create_fulfillments_run inputs : forall index s s',
  create_fulfillments inputs index s = inr (tt, s') ->
  grows_or_fails s s'
  /\ (Forall strict_fulfillment inputs -> critical_with_error s s').
Proof.
  induction inputs as [| fi rest IH]; intros index s s' H.
  - ret_inv H. split; [apply grows_weaken, grows_refl | intros _ Hc; auto].
  - simpl in H. mstep H as o so Ho. ret_inv Ho.
    mstep H as f s1 Hf. mstep H as u s2 Hu.
    destruct u. apply IH in H as [Hrest Hrest_strict].
    pose proof (growing_create_single_fulfillment fi _ index _ _ _ Hf) as Hg.
    assert (Hstep : grows_or_fails so s2
              /\ (strict_fulfillment fi -> critical_with_error so s2)).
    { destruct f as [f |].
      - assert (Hg' : grows s1 s2).
        { eapply (growing_modify_order _ _ _ _ _ Hu). }
        split; [apply grows_weaken; eapply grows_trans; eassumption |].
        intros _ Hc. left.
        destruct Hg as (_ & _ & _ & _ & _ & _ & Hk).
        destruct Hg' as (_ & _ & _ & _ & _ & _ & Hk').
        congruence.
      - apply mark_critical_run in Hu as [Hw He].
        split; [eapply grows_or_fails_trans; [apply grows_weaken |]; eassumption |].
        intros Hstrict _. right. rewrite He.
        eapply create_single_fulfillment_none; eassumption. }
    destruct Hstep as [Hstep Hstep_strict].
    split; [eapply grows_or_fails_trans; eassumption |].
    intros Hall Hc. apply Forall_cons in Hall as [Hfi Hall].
    destruct (Hrest_strict Hall Hc) as [Hc1 | Hne]; [| auto].
    destruct (Hstep_strict Hfi Hc1) as [Hc0 | Hne]; [auto |].
    right. eapply grows_or_fails_errors; eassumption.
    Unshelve. neutral_tac.
Qed.

Lemma get_delivery_method_none input s s' :
  get_delivery_method input s = inr (None, s') ->
  errors (st_order s') <> [].
Proof.
  unfold get_delivery_method. cbv zeta. intros H.
  bind_inv H. bind_inv H. bind_inv H.
  destruct a1 as [[[sm tc] md] pmd].
  destruct a0 as [w |], sm as [sm |]; try (ret_inv H; fail).
  bind_inv H. ret_inv H. eapply append_error_run; eassumption.
Qed.

End Strict.

Lemma modify_order_run f s a s' :
  modify_order f s = inr (a, s') -> s' = with_order (f (st_order s)) s.
Proof. intros H. ret_inv H. reflexivity. Qed.

Lemma get_order_run s a s' :
  get_order s = inr (a, s') -> a = st_order s /\ s' = s.
Proof. intros H. ret_inv H. auto. Qed.

Lemma last_Some_nonempty {A : Type} (l : list A) (x : A) :
  last l = Some x -> l <> [].
Proof. destruct l; [discriminate | discriminate]. Qed.

(** What [get_instances_related_to_order] leaves behind. *)
Lemma get_instances_related_to_order_run oi s s' :
  get_instances_related_to_order oi s = inr (tt, s') ->
  order (st_order s') = order (st_order s)
  /\ os_order_numbers (st_storage s') = os_order_numbers (st_storage s)
  /\ is_critical_error (st_order s') = is_critical_error (st_order s)
  /\ (billing_address (st_order s') = None -> errors (st_order s') <> [])
  /\ (channel (st_order s') = None ->
      oi_channel oi = NoInstance \/ errors (st_order s') <> [])
  /\ (user (st_order s') = None -> truthy (usr_email (oi_user oi)) = false ->
      errors (st_order s') <> [])
  /\ (forall e, usr_resolved (oi_user oi) = Raises e ->
        truthy (usr_email (oi_user oi)) = false ->
        resolution_error e ∈ errors (st_order s')
        /\ user (st_order s') = None).
Proof.
  unfold get_instances_related_to_order. intros H.
  mstep H as u s1 Hu. mstep H as x s2 Hx. mstep H as c s3 Hc.
  mstep H as b s4 Hb. mstep H as sh s5 Hsh. mstep H as v s6 Hv.
  mstep H as g s7 Hg. apply modify_order_run in H. subst s'.
  pose proof (growing_get_instance_with_errors _ _ _ _ Hu) as G1.
  pose proof (growing_get_instance_with_errors _ _ _ _ Hc) as G3.
  cbv beta in G1, G3.
  assert (G4 : grows s3 s4).
  { destruct (oi_billing_address oi).
    - ret_inv Hb. apply grows_refl.
    - mstep Hb as y s8 Hy. ret_inv Hb. eapply growing_append_error; exact Hy. }
  assert (G5 : grows s4 s5).
  { destruct (oi_shipping_address oi) as [[a |] |].
    - ret_inv Hsh. apply grows_refl.
    - mstep Hsh as y s8 Hy. ret_inv Hsh. eapply growing_append_error; exact Hy.
    - ret_inv Hsh. apply grows_refl. }
  assert (G6 : grows s5 s6).
  { destruct (truthy (oi_voucher oi)).
    - eapply growing_get_instance_with_errors; exact Hv.
    - ret_inv Hv. apply grows_refl. }
  pose proof (growing_resolve_gift_cards _ _ _ _ _ Hg) as G7.
  cbv beta in G7.
  assert (G37 : grows s3 s7) by (repeat (eapply grows_trans; [eassumption |]); apply grows_refl).
  assert (G27 : grows s2 s7) by (eapply grows_trans; eassumption).
  (* the step that may drop the NOT_FOUND error *)
  assert (Hstep : order (st_order s2) = order (st_order s1)
            /\ os_order_numbers (st_storage s2) = os_order_numbers (st_storage s1)
            /\ is_critical_error (st_order s2) = is_critical_error (st_order s1)
            /\ (u = None -> truthy (usr_email (oi_user oi)) = false ->
                s2 = s1 /\ errors (st_order s1) <> [])).
  { destruct u as [u |].
    - ret_inv Hx. repeat split; auto; discriminate.
    - mstep Hx as o s8 Ho. apply get_order_run in Ho as [-> ->].
      destruct (last (errors (st_order s1))) as [e |] eqn:Hlast; [| discriminate].
      destruct (bool_decide (code e = Some NOT_FOUND)
                && truthy (usr_email (oi_user oi))) eqn:Hcond.
      + apply modify_order_run in Hx. subst s2.
        split; [reflexivity | split; [reflexivity | split; [reflexivity |]]].
        intros _ Hemail. rewrite Hemail, andb_false_r in Hcond. discriminate.
      + ret_inv Hx.
        split; [reflexivity | split; [reflexivity | split; [reflexivity |]]].
        intros _ _. split; [reflexivity |].
        eapply last_Some_nonempty; eassumption. }
  destruct Hstep as (Ho2 & Hn2 & Hk2 & Huser).
  destruct G1 as (Ho1 & Hn1 & _ & _ & _ & _ & Hk1).
  pose proof G27 as (Ho7 & Hn7 & _ & _ & _ & _ & Hk7).
  simpl. repeat split; try congruence.
  - (* billing address *)
    intros ->. destruct (oi_billing_address oi); [ret_inv Hb |].
    mstep Hb as y s8 Hy. ret_inv Hb.
    apply append_error_run in Hy as (_ & Hne & _).
    eapply grows_errors; [| exact Hne].
    repeat (eapply grows_trans; [eassumption |]); apply grows_refl.
  - (* channel *)
    intros ->. destruct (oi_channel oi) as [ch | | e] eqn:Hch;
      [rewrite get_instance_with_errors_run in Hc; ret_inv Hc | auto | right].
    eapply grows_errors; [exact G37 |].
    eapply get_instance_with_errors_none; [exact Hc | discriminate].
  - (* customer *)
    intros -> Hemail. destruct (Huser eq_refl Hemail) as [-> Hne].
    eapply grows_errors; eassumption.
  - (* the resolution error stays *)
    rewrite get_instance_with_errors_run in Hu. rewrite H in Hu. ret_inv Hu.
    destruct (Huser eq_refl H0) as [-> _].
    eapply grows_elem_of; [exact G27 |].
    simpl. apply elem_of_app. right. left.
  - rewrite get_instance_with_errors_run in Hu. rewrite H in Hu. ret_inv Hu.
    reflexivity.
Qed.

Lemma growing_elim {A : Type} (m : M A) s a s' :
  growing m -> m s = inr (a, s') -> grows s s'.
Proof. intros Hm H. exact (Hm s a s' H). Qed.

Lemma number_exists_error env oi s :
  number_exists oi (st_storage s) = true -> order_input_errors env oi s <> [].
Proof.
  intros H. unfold order_input_errors. rewrite H.
  intros Hnil. apply app_eq_nil in Hnil as [_ Hnil].
  apply app_eq_nil in Hnil as [_ Hnil].
  apply app_eq_nil in Hnil as [_ Hnil]. discriminate.
Qed.

Lemma create_single_order_run env oi s s' :
  st_order s = new_OrderBulkClass ->
  create_single_order env oi s = inr (tt, s') ->
  os_order_numbers (st_storage s') = os_order_numbers (st_storage s)
  /\ (strict_input oi -> accounted (st_order s'))
  /\ (number_exists oi (st_storage s) = false ->
      forall e, usr_resolved (oi_user oi) = Raises e ->
        truthy (usr_email (oi_user oi)) = false ->
        resolution_error e ∈ errors (st_order s')
        /\ order (st_order s') = None).
Proof.
  intros Hnew H. unfold create_single_order in H.
  mstep H as u0 s1 Hval. rewrite validate_order_input_run in Hval. ret_inv Hval.
  mstep H as o1 s1' Ho1. apply get_order_run in Ho1 as [-> ->].
  rewrite Hnew in H.
  destruct (number_exists oi (st_storage s)) eqn:Hexists.
  { (* the number already exists *)
    simpl in H. ret_inv H. simpl.
    split; [reflexivity |]. split; [| discriminate].
    intros _ _. apply number_exists_error. exact Hexists. }
  simpl in H.
  mstep H as u1 s2 Hset. apply modify_order_run in Hset. subst s2.
  mstep H as u2 s3 Hrel. destruct u2.
  apply get_instances_related_to_order_run in Hrel
    as (Ho3 & Hn3 & Hk3 & Hbill & Hchan & Huser & Hkeep).
  simpl in Ho3, Hn3, Hk3.
  cbv zeta in H.
  mstep H as dm s4 Hdm.
  pose proof (growing_elim _ _ _ _ (growing_get_delivery_method _) Hdm) as G4.
  mstep H as o4 s4' Ho4. apply get_order_run in Ho4 as [-> ->].
  pose proof G4 as (Ho4 & Hn4 & Hu4 & Hc4 & Hb4 & _ & Hk4).
  assert (Hfail : forall s5,
            (dm = None \/ channel (st_order s4) = None
             \/ billing_address (st_order s4) = None
             \/ bool_decide (is_Some (user (st_order s4)))
                || truthy (usr_email (oi_user oi)) = false) ->
            modify_order (set_order None) s4 = inr (tt, s5) ->
            os_order_numbers (st_storage s5) = os_order_numbers (st_storage s)
            /\ (strict_input oi -> accounted (st_order s5))
            /\ (forall e, usr_resolved (oi_user oi) = Raises e ->
                  truthy (usr_email (oi_user oi)) = false ->
                  resolution_error e ∈ errors (st_order s5)
                  /\ order (st_order s5) = None)).
  { intros s5 Hwhy Hs5. apply modify_order_run in Hs5. subst s5. simpl.
    split; [congruence |]. split.
    - intros (Hstrict & _ & _) _.
      destruct Hwhy as [-> | [Hch | [Hbi | Hus]]].
      + eapply get_delivery_method_none; exact Hdm.
      + rewrite Hc4 in Hch. destruct (Hchan Hch) as [Hno | Hne]; [contradiction |].
        eapply grows_errors; eassumption.
      + rewrite Hb4 in Hbi. eapply grows_errors; [exact G4 | auto].
      + apply orb_false_iff in Hus as [Hus Hemail].
        rewrite Hu4 in Hus.
        destruct (user (st_order s3)) eqn:Huser3.
        * exfalso. apply bool_decide_eq_false in Hus. apply Hus. eauto.
        * eapply grows_errors; [exact G4 | auto].
    - intros e He Hemail. split; [| reflexivity].
      eapply grows_elem_of; [exact G4 |]. apply (Hkeep e He Hemail). }
  assert (Hclose : forall s5,
            (dm = None \/ channel (st_order s4) = None
             \/ billing_address (st_order s4) = None
             \/ bool_decide (is_Some (user (st_order s4)))
                || truthy (usr_email (oi_user oi)) = false) ->
            modify_order (set_order None) s4 = inr (tt, s5) ->
            os_order_numbers (st_storage s5) = os_order_numbers (st_storage s)
            /\ (strict_input oi -> accounted (st_order s5))
            /\ (false = false ->
                forall e, usr_resolved (oi_user oi) = Raises e ->
                  truthy (usr_email (oi_user oi)) = false ->
                  resolution_error e ∈ errors (st_order s5)
                  /\ order (st_order s5) = None)).
  { intros s5 Hwhy Hs5. destruct (Hfail s5 Hwhy Hs5) as (H1 & H2 & H3).
    split; [exact H1 | split; [exact H2 | intros _; exact H3]]. }
  destruct dm as [dm |]; [| apply (Hclose s'); [auto | exact H]].
  destruct (channel (st_order s4)) as [ch |] eqn:Hch;
    [| apply (Hclose s'); [auto | exact H]].
  destruct (billing_address (st_order s4)) as [bi |] eqn:Hbi;
    [| apply (Hclose s'); [auto | exact H]].
  destruct (bool_decide (is_Some (user (st_order s4)))
            || truthy (usr_email (oi_user oi))) eqn:Hus;
    [| apply (Hclose s'); [auto 6 | exact H]].
  clear Hclose.
  clear Hfail.
  (* the customer resolved or gave an email: the last part holds trivially *)
  assert (Hvac : forall e, usr_resolved (oi_user oi) = Raises e ->
                   truthy (usr_email (oi_user oi)) = false -> False).
  { intros e He Hemail. destruct (Hkeep e He Hemail) as [_ Hnone].
    rewrite Hemail, orb_false_r, Hu4, Hnone in Hus.
    apply bool_decide_eq_true in Hus. destruct Hus as [x Hx]. discriminate. }
  assert (Hk4' : is_critical_error (st_order s4) = false) by congruence.
  mstep H as u5 s5 Hlines. destruct u5.
  apply create_order_lines_run in Hlines as [G5 C5].
  mstep H as o5 s5' Ho5. apply get_order_run in Ho5 as [-> ->].
  pose proof G5 as (_ & Hn5 & _ & _ & _ & _ & _).
  destruct (is_critical_error (st_order s5)) eqn:Hk5.
  { apply modify_order_run in H. subst s'. simpl.
    split; [congruence |]. split; [| intros _ e He Hm; destruct (Hvac e He Hm)].
    intros (_ & Hstrict & _) _.
    destruct (C5 Hstrict Hk5) as [Hc | Hne]; [congruence | exact Hne]. }
  mstep H as amounts s6 Hcalc.
  pose proof (growing_elim _ _ _ _ (growing_make_order_calculations _ _ _ _ _) Hcalc) as G6.
  mstep H as u7 s7 Hnotes.
  pose proof (growing_elim _ _ _ _ (growing_create_notes _ _ _) Hnotes) as G7.
  mstep H as u8 s8 Hful. destruct u8.
  apply create_fulfillments_run in Hful as [G8 C8].
  mstep H as o8 s8' Ho8. apply get_order_run in Ho8 as [-> ->].
  pose proof (grows_trans _ _ _ G6 G7) as G67.
  pose proof G67 as (_ & Hn67 & _ & _ & _ & _ & Hk67).
  pose proof G8 as (_ & Hn8 & _ & _ & _ & _ & _).
  destruct (is_critical_error (st_order s8)) eqn:Hk8.
  { apply modify_order_run in H. subst s'. simpl.
    split; [congruence |]. split; [| intros _ e He Hm; destruct (Hvac e He Hm)].
    intros (_ & _ & Hstrict) _.
    destruct (C8 Hstrict Hk8) as [Hc | Hne]; [congruence | exact Hne]. }
  mstep H as u9 s9 Htx.
  pose proof (growing_elim _ _ _ _ (growing_create_transactions _ _) Htx) as G9.
  mstep H as u10 s10 Hinv.
  pose proof (growing_elim _ _ _ _ (growing_create_invoices _ _ _) Hinv) as G10.
  mstep H as u11 s11 Hdisc.
  pose proof (growing_elim _ _ _ _ (growing_create_discounts _ _) Hdisc) as G11.
  mstep H as u12 s12 Hstatus.
  pose proof (growing_elim _ _ _ _ (growing_validate_order_status _) Hstatus) as G12.
  mstep H as m13 s13 Hm13.
  pose proof (growing_elim _ _ _ _ (growing_process_metadata_if_given _ _ _) Hm13) as G13.
  mstep H as m14 s14 Hm14.
  pose proof (growing_elim _ _ _ _ (growing_process_metadata_if_given _ _ _) Hm14) as G14.
  mstep H as m15 s15 Hm15.
  pose proof (growing_elim _ _ _ _ (growing_process_metadata_if_given _ _ _) Hm15) as G15.
  mstep H as m16 s16 Hm16.
  pose proof (growing_elim _ _ _ _ (growing_process_metadata_if_given _ _ _) Hm16) as G16.
  apply modify_order_run in H. subst s'.
  assert (G : grows s8 s16).
  { repeat (eapply grows_trans; [eassumption |]). apply grows_refl. }
  destruct G as (_ & Hn16 & _ & _ & _ & _ & Hk16).
  simpl. split; [congruence |].
  split; [| intros _ e He Hm; destruct (Hvac e He Hm)].
  intros _ [Hnone | Hcrit]; [discriminate |]. simpl in Hcrit. congruence.
Qed.


Lemma create_orders_run env inputs : forall os t orders os' t',
  create_orders env inputs os t = inr (orders, os', t') ->
  Forall2 (built_from env os) inputs orders.
Proof.
  induction inputs as [| oi rest IH]; intros os t orders os' t' H; simpl in H.
  - ret_inv H. constructor.
  - destruct (create_single_order env oi _) as [e | [[] s']] eqn:Hone; [discriminate |].
    destruct (create_orders env rest (st_storage s') (st_ticks s'))
      as [e | [[orders' os''] t'']] eqn:Hrest; [discriminate |].
    ret_inv H.
    pose proof (create_single_order_run env oi
                  {| st_order := new_OrderBulkClass; st_storage := os;
                     st_ticks := t |} s' eq_refl Hone) as (Hn & _ & _).
    simpl in Hn.
    constructor.
    + eexists _, s'. repeat split; [| | exact Hone]; reflexivity.
    + apply IH in Hrest.
      eapply Forall2_impl; [exact Hrest |].
      intros oi' o' (s1 & s2 & H1 & H2 & H3 & H4).
      exists s1, s2. repeat split; auto. congruence.
Qed.







Lemma handle_error_policy_length orders ep :
  length (handle_error_policy orders ep) = length orders.
Proof.
  unfold handle_error_policy.
  destruct (concat (map errors orders)); [reflexivity | apply length_map].
Qed.


Lemma stages_length orders checked allocated final ep :
  Forall2 number_checked orders checked ->
  Forall2 stock_checked (handle_error_policy checked ep) allocated ->
  Forall2 saved allocated final ->
  length final = length orders.
Proof.
  intros H1 H2 H3.
  apply Forall2_length in H1, H2, H3.
  rewrite handle_error_policy_length in H2. lia.
Qed.





Lemma carried_trans o1 o2 o3 : carried o1 o2 -> carried o2 o3 -> carried o1 o3.
Proof.
  intros (H1 & es & He) (H2 & es' & He'). split; [auto |].
  exists (es ++ es'). rewrite He', He, app_assoc. reflexivity.
Qed.

Lemma Forall2_trans {A : Type} (R : A -> A -> Prop) (l1 l2 l3 : list A) :
  (forall x y z, R x y -> R y z -> R x z) ->
  Forall2 R l1 l2 -> Forall2 R l2 l3 -> Forall2 R l1 l3.
Proof.
  intros HR H12. revert l3.
  induction H12 as [| x y l1 l2 Hxy H12 IH]; intros l3 H23.
  - inversion H23. constructor.
  - inversion H23; subst. constructor; eauto.
Qed.

Lemma handle_error_policy_carried orders ep :
  Forall2 carried orders (handle_error_policy orders ep).
Proof.
  assert (Hrefl : forall o, carried o o).
  { intros o. split; [auto |]. exists []. rewrite app_nil_r. reflexivity. }
  assert (Hnull : forall o, carried o (set_order None o)).
  { intros o. split; [auto |]. exists []. simpl. rewrite app_nil_r. reflexivity. }
  unfold handle_error_policy.
  destruct (concat (map errors orders)) as [| e0 rest0].
  - apply Forall_Forall2_diag, Forall_forall. auto.
  - apply Forall2_fmap_r, Forall_Forall2_diag, Forall_forall.
    intros o _. unfold compose.
    destruct ep; cbv beta;
      first [apply Hrefl | apply Hnull
            | destruct (errors o); [apply Hrefl | apply Hnull]].
Qed.

Lemma process_orders_carried db orders error_policy stock_update_policy :
  Forall2 carried orders
    (fst (process_orders db orders error_policy stock_update_policy)).
Proof.
  destruct (process_orders_stages db orders error_policy stock_update_policy)
    as (checked & allocated & Hnum & Hstock & _ & Hsaved & _).
  eapply Forall2_trans; [exact carried_trans | | ].
  - eapply Forall2_impl; [exact Hnum |].
    intros o o' [-> | (n & _ & ->)].
    + split; [auto |]. exists []. rewrite app_nil_r. reflexivity.
    + split; [auto |]. eexists. reflexivity.
  - eapply Forall2_trans; [exact carried_trans | apply handle_error_policy_carried |].
    eapply Forall2_trans; [exact carried_trans | |].
    + eapply Forall2_impl; [exact Hstock |].
      intros o o' (Ho & _ & es & He & _). split; [congruence | eauto].
    + eapply Forall2_impl; [exact Hsaved |].
      intros o o' (Hs & He). split.
      * intros Hn. rewrite Hs, Hn. destruct (is_critical_error o); reflexivity.
      * exists []. rewrite app_nil_r. exact He.
Qed.

Lemma number_exists_ext oi os1 os2 :
  os_order_numbers os1 = os_order_numbers os2 ->
  number_exists oi os1 = number_exists oi os2.
Proof. intros H. unfold number_exists. rewrite H. reflexivity. Qed.

(** The result of the [i]-th input in a response. *)
Lemma result_of_input env db inputs error_policy stock_update_policy
    response db' i oi :
  (length inputs <= MAX_ORDERS)%nat ->
  perform_mutation env db inputs error_policy stock_update_policy =
    inr (response, db') ->
  inputs !! i = Some oi ->
  exists o o',
    built_from env (get_all_instances db inputs) oi o
    /\ carried o o'
    /\ exists rs, results response = OrderResults rs
         /\ rs !! i = Some {| res_order := order o'; res_errors := errors o' |}.
Proof.
  intros Hlen Hrun Hi.
  apply perform_mutation_inr in Hrun
    as [(Hlt & _) | (_ & orders & os & t & Hcreate & Hrest)]; [lia |].
  cbv zeta in Hrest. destruct Hrest as [_ ->].
  pose proof (create_orders_run _ _ _ _ _ _ _ Hcreate) as Hbuilt.
  pose proof (process_orders_carried db orders
                (default REJECT_EVERYTHING error_policy)
                (default UPDATE stock_update_policy)) as Hcar.
  destruct (Forall2_lookup_l _ _ _ _ _ Hbuilt Hi) as (o & Ho & Hb).
  destruct (Forall2_lookup_l _ _ _ _ _ Hcar Ho) as (o' & Ho' & Hc).
  exists o, o'. split; [exact Hb |]. split; [exact Hc |].
  eexists. split; [reflexivity |].
  rewrite list_lookup_fmap, Ho'. reflexivity.
Qed.

(** C9 (as amended).  When the user of an order input fails to resolve with
    NOT_FOUND, no email is given for the user and the order number is not
    taken by an order of the database, the NOT_FOUND error of the lookup is
    in the final error list of that order's result, and the result has no
    order.  (With an email given, the error is taken off the list again.) *)
Theorem unresolved_customer_error_stays_without_email (env : Env)
    (db db' : Database) (orders_input : list OrderBulkCreateInput)
    (error_policy : option ErrorPolicy)
    (stock_update_policy : option StockUpdatePolicy)
    (response : OrderBulkCreate) (i : nat) (order_input : OrderBulkCreateInput)
    (err : ValidationError) :
  (length orders_input <= MAX_ORDERS)%nat ->
  perform_mutation env db orders_input error_policy stock_update_policy =
    inr (response, db') ->
  orders_input !! i = Some order_input ->
  usr_resolved (oi_user order_input) = Raises err ->
  ve_code err = NOT_FOUND ->
  truthy (usr_email (oi_user order_input)) = false ->
  number_exists order_input (get_all_instances db orders_input) = false ->
  exists rs r,
    results response = OrderResults rs
    /\ rs !! i = Some r
    /\ res_order r = None
    /\ {| message := ve_message err; code := Some NOT_FOUND; path := ve_path err |}
         ∈ res_errors r.
Proof.
  intros Hlen Hrun Hi Hres Hcode Hemail Hnum.
  destruct (result_of_input _ _ _ _ _ _ _ _ _ Hlen Hrun Hi)
    as (o & o' & Hb & (Hnone & es & Herr) & rs & Hrs & Hr).
  destruct Hb as (s & s' & Hnew & Hos & Hone & ->).
  pose proof (create_single_order_run env order_input s s' Hnew Hone)
    as (_ & _ & Hkeep).
  rewrite (number_exists_ext _ _ _ Hos) in Hkeep.
  destruct (Hkeep Hnum err Hres Hemail) as [Hin Hord].
  exists rs, {| res_order := order o'; res_errors := errors o' |}.
  split; [exact Hrs |]. split; [exact Hr |]. simpl.
  split; [auto |].
  rewrite Herr. apply elem_of_app. left.
  unfold resolution_error in Hin. rewrite Hcode in Hin. exact Hin.
Qed.




















Section FutureDates.

Variable env : Env.







End FutureDates.


Module DecimalFacts.
Import Decimal.

Lemma round_half_even_error (x : Q) :
  (Qabs (inject_Z (round_half_even x) - x) <= 1 # 2)%Q.
Proof.
  destruct x as [n d]. unfold round_half_even. simpl Qnum. simpl Qden.
  pose proof (Z.div_mod n (Z.pos d) ltac:(lia)) as Hdm.
  pose proof (Z.mod_pos_bound n (Z.pos d) ltac:(lia)) as Hr.
  set (f := n / Z.pos d) in *. set (r := n mod Z.pos d) in *.
  assert (Hcase : forall k, 2 * Z.abs (k * Z.pos d - n) <= Z.pos d ->
            (Qabs (inject_Z k - (n # d)) <= 1 # 2)%Q).
  { intros k Hk. apply Qabs_Qle_condition.
    unfold Qle, Qminus, Qplus, Qopp, inject_Z. simpl. split; lia. }
  destruct (Z.compare_spec (2 * r) (Z.pos d)) as [Heq | Hlt | Hgt].
  - destruct (Z.even f); apply Hcase; lia.
  - apply Hcase. lia.
  - apply Hcase. lia.
Qed.

Lemma pow10_pos (e : Z) : (0 < pow10 e)%Q.
Proof. apply Qpower_0_lt. reflexivity. Qed.

Lemma pow10_nonzero (e : Z) : ~ (pow10 e == 0)%Q.
Proof. intros H. pose proof (pow10_pos e) as Hp. rewrite H in Hp. inversion Hp. Qed.

Lemma pow10_plus (a b : Z) : (pow10 (a + b) == pow10 a * pow10 b)%Q.
Proof. apply Qpower_plus. intros H. inversion H. Qed.

Lemma pow10_inject (k : Z) : 0 <= k -> (pow10 k == inject_Z (10 ^ k))%Q.
Proof. intros Hk. unfold pow10. rewrite Zpower_Qpower by exact Hk. reflexivity. Qed.

(** Rounding to a multiple of [10^e] moves a value by at most half of it. *)
Lemma rescale_error (e : Z) (x : Q) :
  (Qabs (rescale e x - x) <= pow10 e * (1 # 2))%Q.
Proof.
  unfold rescale, coefficient. rewrite Qred_correct.
  set (c := round_half_even (x / pow10 e)).
  assert (Heq : (inject_Z c * pow10 e - x
                 == (inject_Z c - x / pow10 e) * pow10 e)%Q).
  { field. apply pow10_nonzero. }
  rewrite Heq, Qabs_Qmult, (Qabs_pos (pow10 e)) by apply Qlt_le_weak, pow10_pos.
  rewrite (Qmult_comm (pow10 e)).
  apply Qmult_le_compat_r; [apply round_half_even_error |].
  apply Qlt_le_weak, pow10_pos.
Qed.

Lemma ndigits_fuel_bounds (fuel : nat) : forall n,
  1 <= n < 10 ^ (Z.of_nat fuel + 1) ->
  1 <= ndigits_fuel fuel n
  /\ 10 ^ (ndigits_fuel fuel n - 1) <= n < 10 ^ ndigits_fuel fuel n.
Proof.
  induction fuel as [| fuel IH]; intros n Hn.
  - simpl in *. lia.
  - cbn [ndigits_fuel]. destruct (Z.ltb_spec n 10) as [Hlt | Hge].
    + simpl. lia.
    + assert (Hdiv : 1 <= n / 10 < 10 ^ (Z.of_nat fuel + 1)).
      { split.
        - apply Z.div_le_lower_bound; lia.
        - apply Z.div_lt_upper_bound; [lia |].
          replace (Z.of_nat (S fuel) + 1) with (Z.succ (Z.of_nat fuel + 1)) in Hn by lia.
          rewrite Z.pow_succ_r in Hn by lia. lia. }
      destruct (IH (n / 10) Hdiv) as (Hpos & Hlo & Hhi).
      set (k := ndigits_fuel fuel (n / 10)) in *.
      pose proof (Z.div_mod n 10 ltac:(lia)) as Hdm.
      pose proof (Z.mod_pos_bound n 10 ltac:(lia)) as Hr.
      split; [lia |].
      replace (1 + k - 1) with (Z.succ (k - 1)) by lia.
      replace (1 + k) with (Z.succ k) by lia.
      rewrite !Z.pow_succ_r by lia. lia.
Qed.

Lemma ndigits_bounds (n : Z) :
  1 <= n ->
  1 <= ndigits n /\ 10 ^ (ndigits n - 1) <= n < 10 ^ ndigits n.
Proof.
  intros Hn. unfold ndigits. apply ndigits_fuel_bounds.
  split; [exact Hn |].
  pose proof (Z.log2_spec n ltac:(lia)) as [_ Hhi].
  pose proof (Z.log2_nonneg n) as Hnn.
  rewrite Z2Nat.id by exact Hnn.
  eapply Z.lt_le_trans; [exact Hhi |].
  replace (Z.succ (Z.log2 n)) with (Z.log2 n + 1) by lia.
  apply Z.pow_le_mono_l. lia.
Qed.

(** The most significant digit of a nonzero value has weight at most the
    value. *)
Lemma adjusted_le (x : Q) : ~ (x == 0)%Q -> (pow10 (adjusted x) <= Qabs x)%Q.
Proof.
  intros Hx. unfold adjusted.
  set (a := ndigits (Z.abs (Qnum x))). set (b := ndigits (Z.pos (Qden x))).
  destruct (Qle_bool (pow10 (a - b)) (Qabs x)) eqn:Hle.
  - apply Qle_bool_iff. exact Hle.
  - assert (Hn : 1 <= Z.abs (Qnum x)).
    { destruct x as [n d]. unfold Qeq in Hx. simpl in *. lia. }
    destruct (ndigits_bounds _ Hn) as (Ha & Halo & _).
    destruct (ndigits_bounds (Z.pos (Qden x)) ltac:(lia)) as (Hb & _ & Hbhi).
    fold a in Ha, Halo. fold b in Hb, Hbhi.
    replace (a - b - 1) with ((a - 1) + - b) by lia.
    rewrite pow10_plus. unfold pow10 at 2. rewrite Qpower_opp.
    fold (pow10 b). rewrite (pow10_inject (a - 1)), (pow10_inject b) by lia.
    destruct x as [n d]. simpl in *.
    apply Qle_shift_div_r.
    + change 0%Q with (inject_Z 0). rewrite <- Zlt_Qlt. lia.
    + unfold Qle, Qabs, Qmult, inject_Z. simpl.
      set (P := 10 ^ (a - 1)) in *. set (T := 10 ^ b) in *.
      rewrite !Z.mul_1_r, Pos.mul_1_r.
      apply Z.le_trans with (Z.abs n * Z.pos d); nia.
Qed.

(** Context rounding keeps 28 significant digits: the relative error is
    at most 5 units in the 29th. *)
Lemma fix_context_error (x : Q) :
  (Qabs (fix_context x - x) <= Qabs x * pow10 (-27) * (1 # 2))%Q.
Proof.
  unfold fix_context. destruct (Qeq_bool x 0) eqn:Hz.
  - apply Qeq_bool_iff in Hz. rewrite Hz.
    change (Qabs (0 - 0)) with 0%Q. change (Qabs 0) with 0%Q.
    rewrite !Qmult_0_l. apply Qle_refl.
  - assert (Hx : ~ (x == 0)%Q).
    { intros H. apply Qeq_bool_iff in H. congruence. }
    eapply Qle_trans; [apply rescale_error |].
    apply Qmult_le_compat_r; [| discriminate].
    change (adjusted x - (prec - 1)) with (adjusted x + -27).
    rewrite pow10_plus.
    apply Qmult_le_compat_r; [apply adjusted_le; exact Hx |].
    apply Qlt_le_weak, pow10_pos.
Qed.







End DecimalFacts.








(** ** The properties on sample batches *)

Ltac evaluate :=
  vm_compute; repeat split; first [reflexivity | discriminate | lia].

Lemma only_stock_quantity_is_written_witness :
  Forall2 same_but_quantity (db_stocks Sample.database)
    (db_stocks (Sample.run Sample.database [Sample.partly_fulfilled_order]
                  None None).2)
  /\ exists stocks,
       db_stocks (Sample.run Sample.database [Sample.partly_fulfilled_order]
                    None None).2
         = bulk_update_quantity (db_stocks Sample.database) stocks
       /\ forall row, row ∈ db_stocks Sample.database ->
            (forall s, s ∈ stocks -> stock_pk s <> stock_pk row) ->
            row ∈ db_stocks (Sample.run Sample.database
                               [Sample.partly_fulfilled_order] None None).2.
Proof.
  apply (only_stock_quantity_is_written Sample.env Sample.database
           (Sample.run Sample.database [Sample.partly_fulfilled_order]
              None None).2
           [Sample.partly_fulfilled_order] None None
           (Sample.run Sample.database [Sample.partly_fulfilled_order]
              None None).1).
  vm_compute. reflexivity.
Defined.

(** The simulation allocates the unfulfilled mug; the row written back only
    loses the fulfilled one. *)
Example allocation_is_simulated_only :
  (handle_stocks (db_stocks Sample.database)
     (Sample.aggregates [Sample.partly_fulfilled_order]) UPDATE).2
    = [mkStock 1 1 "wh-1" 2 1]
  /\ db_stocks (Sample.run Sample.database [Sample.partly_fulfilled_order]
                  None None).2
     = [mkStock 1 1 "wh-1" 2 0].
Proof. split; vm_compute; reflexivity. Qed.




Lemma fulfilled_within_ordered_unless_stocks_skipped_witness :
  Forall (fun l => ol_quantity_fulfilled l <= ol_quantity l)
    (db_order_lines
       (Sample.run Sample.database [Sample.partly_fulfilled_order] None None).2).
Proof.
  destruct (proj1 (fulfilled_within_ordered_unless_stocks_skipped
                     Sample.env Sample.database
                     (Sample.run Sample.database
                        [Sample.partly_fulfilled_order] None None).2
                     [Sample.partly_fulfilled_order] None None
                     (Sample.run Sample.database
                        [Sample.partly_fulfilled_order] None None).1
                     ltac:(discriminate) ltac:(vm_compute; reflexivity)))
    as (new_lines & Hrows & Hcovered).
  simpl in Hrows. rewrite Hrows. exact Hcovered.
Defined.

(** One mug ordered and two fulfilled, with the stock update skipped: the
    order is created, its line fulfilled twice over, without any error. *)
Lemma overfulfilled_line_is_persisted_when_stocks_are_skipped :
  Sample.outcome
    (perform_mutation Sample.env Sample.database [Sample.overfulfilled_order]
       (Some IGNORE_FAILED) (Some SKIP))
  = Some (1%nat, [(true, [])])
  /\ map (fun l => (ol_quantity l, ol_quantity_fulfilled l))
       (db_order_lines
          (Sample.run Sample.database [Sample.overfulfilled_order]
             (Some IGNORE_FAILED) (Some SKIP)).2)
     = [(1, 2)].
Proof. split; vm_compute; reflexivity. Qed.


(** The number of an order already in the database. *)
Example existing_order_number_is_rejected :
  Sample.outcome
    (perform_mutation Sample.env (Sample.database_with_order "A1")
       [Sample.simple_order "A1" 1] (Some IGNORE_FAILED) None)
  = Some (0%nat, [(false, [existing_number_error "A1"])]).
Proof. vm_compute. reflexivity. Qed.



Lemma unresolved_customer_error_stays_without_email_witness :
  exists rs r,
    results (Sample.run Sample.database
               [Sample.order_input "A1" (Sample.unknown_customer None)
                  UNFULFILLED 0 [Sample.line_input 1 10] [] []]
               None None).1 = OrderResults rs
    /\ rs !! 0%nat = Some r
    /\ res_order r = None
    /\ {| message := ve_message (Sample.missing "User");
          code := Some NOT_FOUND;
          path := ve_path (Sample.missing "User") |} ∈ res_errors r.
Proof.
  apply (unresolved_customer_error_stays_without_email Sample.env
           Sample.database
           (Sample.run Sample.database
              [Sample.order_input "A1" (Sample.unknown_customer None)
                 UNFULFILLED 0 [Sample.line_input 1 10] [] []]
              None None).2
           [Sample.order_input "A1" (Sample.unknown_customer None)
              UNFULFILLED 0 [Sample.line_input 1 10] [] []]
           None None _ 0%nat
           (Sample.order_input "A1" (Sample.unknown_customer None)
              UNFULFILLED 0 [Sample.line_input 1 10] [] [])
           (Sample.missing "User"));
    evaluate.
Defined.

(** The same customer, unknown by id, with an email address given: the
    order is created and the error of the lookup is gone. *)
Lemma unresolved_customer_error_is_dropped_with_email :
  usr_resolved (Sample.unknown_customer (Some "b@example.com"))
    = Raises (Sample.missing "User")
  /\ Sample.outcome
       (perform_mutation Sample.env Sample.database
          [Sample.order_input "A1"
             (Sample.unknown_customer (Some "b@example.com"))
             UNFULFILLED 0 [Sample.line_input 1 10] [] []]
          None None)
     = Some (1%nat, [(true, [])]).
Proof. split; vm_compute; reflexivity. Qed.

(** C8.  An order whose two lines name the same variant and warehouse:
    [order_lines_duplicates] holds of the aggregate, no error is recorded,
    the order is created and both lines are stored. *)
Theorem duplicate_lines_are_persisted :
  order_lines_duplicates (Sample.aggregate 0 [Sample.twin_lines_order]) = true
  /\ Sample.outcome
       (perform_mutation Sample.env Sample.database [Sample.twin_lines_order]
          None None)
     = Some (1%nat, [(true, [])])
  /\ map (fun l => (ol_variant_id l, ol_quantity l))
       (db_order_lines
          (Sample.run Sample.database [Sample.twin_lines_order] None None).2)
     = [(1, 1); (1, 1)].
Proof. repeat split; vm_compute; reflexivity. Qed.

(** * Further properties of the pipeline *)

(** ** The status check *)

Lemma validate_order_status_run status s :
  validate_order_status status s =
    inr (tt,
         if (total_fulfillment_quantity (st_order s) =? 0)
              && bool_decide (status ∈ [PARTIALLY_FULFILLED; FULFILLED])
            || (0 <? total_fulfillment_quantity (st_order s))
                 && (0 <? total_order_quantity (st_order s)
                            - total_fulfillment_quantity (st_order s))
                 && bool_decide (status ∈ [FULFILLED; UNFULFILLED])
            || (total_order_quantity (st_order s)
                  =? total_fulfillment_quantity (st_order s))
                 && bool_decide (status ∈ [PARTIALLY_FULFILLED; UNFULFILLED])
         then with_order (add_error invalid_status_error (st_order s)) s
         else s).
Proof.
  unfold validate_order_status. rewrite bind_run. simpl.
  destruct (_ || _); [reflexivity |]. destruct s; reflexivity.
Qed.

(** X1.  [validate_order_status] on an order with a positive ordered
    quantity of which no more than all is fulfilled: of UNFULFILLED,
    PARTIALLY_FULFILLED and FULFILLED only the one the quantities determine
    (nothing fulfilled, a part fulfilled, everything fulfilled) passes; each
    of the other two records one INVALID error at path [status]; a status
    other than these three is never rejected. *)
Theorem order_status_follows_quantities (status : OrderStatus) (s : State) :
  0 < total_order_quantity (st_order s) ->
  0 <= total_fulfillment_quantity (st_order s)
    <= total_order_quantity (st_order s) ->
  validate_order_status status s =
    inr (tt,
         if named_status status
            && negb (bool_decide (status = fitting_status (st_order s)))
         then with_order (add_error invalid_status_error (st_order s)) s
         else s).
Proof.
  intros Hq [Hlo Hhi]. rewrite validate_order_status_run.
  unfold fitting_status, named_status.
  set (f := total_fulfillment_quantity (st_order s)) in *.
  set (q := total_order_quantity (st_order s)) in *.
  destruct (Z.eqb_spec f 0) as [Hf0 | Hf0];
    destruct (Z.ltb_spec 0 f); try lia;
    destruct (Z.ltb_spec 0 (q - f)); try lia;
    destruct (Z.eqb_spec q f); try lia;
    destruct (Z.ltb_spec f q); try lia;
    destruct status; vm_compute; reflexivity.
Qed.

(** X2.  For an aggregate without any ordered or fulfilled quantity (no
    line was built) [validate_order_status] rejects each of UNFULFILLED,
    PARTIALLY_FULFILLED and FULFILLED with the INVALID error, and accepts
    every other status. *)
Theorem empty_order_fits_no_named_status (status : OrderStatus) (s : State) :
  total_order_quantity (st_order s) = 0 ->
  total_fulfillment_quantity (st_order s) = 0 ->
  validate_order_status status s =
    inr (tt,
         if named_status status
         then with_order (add_error invalid_status_error (st_order s)) s
         else s).
Proof.
  intros Hq Hf. rewrite validate_order_status_run, Hq, Hf.
  unfold named_status. destruct status; vm_compute; reflexivity.
Qed.

(** X3.  When more is fulfilled than ordered, [validate_order_status]
    records no error, whatever the status. *)
Theorem overfulfilled_order_passes_status_check (status : OrderStatus) (s : State) :
  0 <= total_order_quantity (st_order s)
    < total_fulfillment_quantity (st_order s) ->
  validate_order_status status s = inr (tt, s).
Proof.
  intros [Hq Hf]. rewrite validate_order_status_run.
  set (f := total_fulfillment_quantity (st_order s)) in *.
  set (q := total_order_quantity (st_order s)) in *.
  destruct (Z.eqb_spec f 0); try lia.
  destruct (Z.ltb_spec 0 (q - f)); try lia.
  destruct (Z.eqb_spec q f); try lia.
  rewrite !andb_false_r, !andb_false_l. reflexivity.
Qed.

(** ** Metadata *)





(** ** The delivery method *)

Lemma get_delivery_method_run (input : OrderBulkCreateDeliveryMethodInput)
    (s : State) :
  exists r s',
    get_delivery_method input s = inr (r, s')
    /\ errors (st_order s') = errors (st_order s) ++ delivery_errors input
    /\ match delivery_warehouse input, delivery_shipping_method input with
       | None, None => r = None
       | w, m =>
           exists d, r = Some d /\ dlv_warehouse d = w
                     /\ dlv_shipping_method d = m
       end.
Proof.
  unfold get_delivery_method, delivery_errors, delivery_warehouse,
    delivery_shipping_method.
  destruct s as [o os t].
  destruct (truthy (dm_warehouse_id input)),
    (truthy (dm_shipping_method_id input)),
    (dm_warehouse input) as [w | | ew],
    (dm_shipping_method input) as [m | | em],
    (dm_shipping_tax_class input) as [c | | ec];
    cbn;
    (eexists _, _; split; [reflexivity |]; split;
     [cbn; rewrite <- ?app_assoc; cbn; rewrite ?app_nil_r; reflexivity |]);
    first [reflexivity | eexists; repeat split].
Qed.

(** X5.  [get_delivery_method] always returns; it looks a warehouse up
    only when a warehouse id is given and a shipping method only when a
    shipping-method id is given, and returns no delivery method exactly when
    neither resolves, otherwise one carrying both results.  The errors it
    records are, in order: TOO_MANY_IDENTIFIERS when both ids are given,
    the failed lookups, and REQUIRED when nothing resolves. *)
Theorem delivery_method_outcome (input : OrderBulkCreateDeliveryMethodInput)
    (s : State) :
  exists r s',
    get_delivery_method input s = inr (r, s')
    /\ errors (st_order s') = errors (st_order s) ++ delivery_errors input
    /\ match delivery_warehouse input, delivery_shipping_method input with
       | None, None => r = None
       | w, m =>
           exists d, r = Some d /\ dlv_warehouse d = w
                     /\ dlv_shipping_method d = m
       end.
Proof. apply get_delivery_method_run. Qed.

(** ** Notes *)


(** ** Gift cards *)

Lemma resolve_gift_cards_run codes : forall index s,
  exists es,
    resolve_gift_cards codes index s =
      inr (tt,
           with_order
             (set_gift_cards
                (gift_cards (st_order s) ++ found_gift_cards (st_storage s) codes)
                (set_errors (errors (st_order s) ++ es) (st_order s)))
             s)
    /\ Forall (fun e => code e = Some NOT_FOUND) es
    /\ forall pre card post,
         codes = pre ++ card :: post ->
         os_gift_cards (st_storage s) !! card = None ->
         missing_gift_card_error card
           (index + length (found_gift_cards (st_storage s) pre)) ∈ es.
Proof.
  induction codes as [| c rest IH]; intros index s.
  - exists []. split; [| split].
    + destruct s as [[] ? ?]. cbn. rewrite !app_nil_r. reflexivity.
    + constructor.
    + intros [| ? ?] ? ? H; discriminate H.
  - cbn [resolve_gift_cards]. rewrite bind_run. cbn [get_storage].
    destruct (os_gift_cards (st_storage s) !! c) as [found |] eqn:Hc.
    + rewrite bind_run. cbn [modify_order].
      destruct (IH (S index)
                  {| st_order := set_gift_cards (gift_cards (st_order s) ++ [found])
                                   (st_order s);
                     st_storage := st_storage s; st_ticks := st_ticks s |})
        as (es & Hrun & Hcodes & Hmissing).
      exists es. split; [| split].
      * rewrite Hrun. unfold found_gift_cards. cbn. rewrite Hc. cbn.
        rewrite <- app_assoc. reflexivity.
      * exact Hcodes.
      * intros [| p pre] card post Heq Hnone; injection Heq as -> ->.
        { congruence. }
        cbn in Hmissing. specialize (Hmissing pre card post eq_refl Hnone).
        unfold found_gift_cards in *. cbn. rewrite Hc. cbn.
        replace (index + S (length (omap (fun c => os_gift_cards (st_storage s) !! c) pre)))%nat
          with (S index + length (omap (fun c => os_gift_cards (st_storage s) !! c) pre))%nat
          by lia.
        exact Hmissing.
    + rewrite bind_run. cbn [append_error modify_order].
      destruct (IH index
                  {| st_order := set_errors
                                   (errors (st_order s)
                                      ++ [missing_gift_card_error c index])
                                   (st_order s);
                     st_storage := st_storage s; st_ticks := st_ticks s |})
        as (es & Hrun & Hcodes & Hmissing).
      exists (missing_gift_card_error c index :: es). split; [| split].
      * unfold missing_gift_card_error in Hrun. rewrite Hrun.
        unfold found_gift_cards. cbn. rewrite Hc. cbn.
        rewrite <- app_assoc. reflexivity.
      * constructor; [reflexivity | exact Hcodes].
      * intros [| p pre] card post Heq Hnone; injection Heq as -> ->.
        { cbn. rewrite Nat.add_0_r. left. }
        cbn in Hmissing. specialize (Hmissing pre card post eq_refl Hnone).
        unfold found_gift_cards in *. cbn. rewrite Hc. right. exact Hmissing.
Qed.

(** X7.  The gift-card loop of [get_instances_related_to_order] always
    returns and leaves the object storage alone; it appends the cards found
    for the codes, in the order of the codes, and records only NOT_FOUND
    errors; the error of a missing code is indexed by the number of codes
    found before it (not by the position of the code). *)
Theorem gift_cards_are_attached_in_order (codes : list string) (s : State) :
  exists s' es,
    resolve_gift_cards codes 0 s = inr (tt, s')
    /\ st_storage s' = st_storage s
    /\ gift_cards (st_order s') =
         gift_cards (st_order s) ++ found_gift_cards (st_storage s) codes
    /\ errors (st_order s') = errors (st_order s) ++ es
    /\ Forall (fun e => code e = Some NOT_FOUND) es
    /\ forall pre card post,
         codes = pre ++ card :: post ->
         os_gift_cards (st_storage s) !! card = None ->
         missing_gift_card_error card
           (length (found_gift_cards (st_storage s) pre)) ∈ es.
Proof.
  destruct (resolve_gift_cards_run codes 0%nat s) as (es & Hrun & Hcodes & Hmiss).
  eexists _, es. split; [exact Hrun |]. repeat split; try assumption.
Qed.

(** ** Line amounts *)

Lemma add_errors_nil s : add_errors [] s = s.
Proof.
  destruct s as [[] ? ?]. unfold add_errors, with_order, set_errors. cbn.
  rewrite app_nil_r. reflexivity.
Qed.

Lemma add_errors_app es1 es2 s :
  add_errors es2 (add_errors es1 s) = add_errors (es1 ++ es2) s.
Proof.
  unfold add_errors, with_order, set_errors. cbn. rewrite <- app_assoc.
  reflexivity.
Qed.

Lemma when_append_error_eq b e s :
  when b (append_error e) s = inr (tt, add_errors (if b then [e] else []) s).
Proof.
  destruct b; [reflexivity |]. rewrite add_errors_nil. reflexivity.
Qed.

Lemma line_checks_run env li currency index s :
  exists k,
    make_order_line_calculations env li currency index s =
      (if bad_quantity li || bad_total_price li
          || bad_undiscounted_total_price li
       then inr (None, add_errors (line_check_errors li index) s)
       else k (add_errors (line_check_errors li index) s))
    /\ forall t r t', k t = inr (r, t') -> t' = t /\ exists la, r = Some la.
Proof.
  unfold make_order_line_calculations, line_check_errors, bad_quantity,
    bad_total_price, bad_undiscounted_total_price.
  cbv zeta.
  set (bq := li_quantity li <? 1).
  set (bp := Decimal.lt (tm_gross (li_total_price li)) _).
  set (bu := Decimal.lt (tm_gross (li_undiscounted_total_price li)) _).
  eexists. split.
  - rewrite (bind_inr_run _ _ _ _ _ (when_append_error_eq _ _ _)).
    rewrite (bind_inr_run _ _ _ _ _ (when_append_error_eq _ _ _)).
    rewrite (bind_inr_run _ _ _ _ _ (when_append_error_eq _ _ _)).
    rewrite !add_errors_app.
    destruct (bq || bp || bu); reflexivity.
  - intros t r t' H. cbv beta in H.
    mstep H as net s1 Hnet. mstep H as gross s2 Hgross.
    mstep H as unet s3 Hunet. mstep H as ugross s4 Hugross.
    mstep H as rate s5 Hrate.
    cbv [mret M_ret] in H. injection H as <- <-.
    assert (Hunit : forall amount u a a',
              (q ← lift (Decimal.div amount (inject_Z (li_quantity li)));
               lift (quantize_price env q currency)) a = inr (u, a') -> a' = a).
    { intros amount u a a' Hrun. mstep Hrun as q t1 Hdiv.
      unfold lift in Hdiv, Hrun.
      destruct (Decimal.div amount _); [discriminate |].
      injection Hdiv as <- <-.
      destruct (quantize_price env _ currency); [discriminate |].
      injection Hrun as _ <-. reflexivity. }
    apply Hunit in Hnet as ->. apply Hunit in Hgross as ->.
    apply Hunit in Hunet as ->. apply Hunit in Hugross as ->.
    split; [| eauto].
    destruct (li_tax_rate li).
    + cbv [mret M_ret] in Hrate. injection Hrate as _ <-. reflexivity.
    + destruct (Decimal.lt 0 _).
      * mstep Hrate as r0 t0 Hr. unfold lift in Hr.
        destruct (Decimal.div (tm_gross (li_total_price li)) _);
          [discriminate |].
        injection Hr as _ <-. cbv [mret M_ret] in Hrate.
        injection Hrate as _ <-. reflexivity.
      * cbv [mret M_ret] in Hrate. injection Hrate as _ <-. reflexivity.
Qed.

Lemma line_checks_reported (env : Env)
    (li : OrderBulkCreateOrderLineInput) (currency : string) (index : nat)
    (s : State) :
  let failed :=
    bad_quantity li || bad_total_price li || bad_undiscounted_total_price li in
  (failed = true ->
   make_order_line_calculations env li currency index s =
     inr (None, add_errors (line_check_errors li index) s))
  /\ (forall r s',
        make_order_line_calculations env li currency index s = inr (r, s') ->
        (r = None <-> failed = true)
        /\ errors (st_order s') =
             errors (st_order s) ++ line_check_errors li index).
Proof.
  intros failed.
  destruct (line_checks_run env li currency index s) as (k & Hrun & Hk).
  fold failed in Hrun. rewrite Hrun. split.
  - intros ->. reflexivity.
  - intros r s' H. destruct failed.
    + injection H as <- <-.
      split; [tauto | reflexivity].
    + apply Hk in H as [-> [la ->]].
      split; [split; discriminate | reflexivity].
Qed.

(** X8.  [make_order_line_calculations] runs its three checks
    (quantity below 1, total net above gross, undiscounted net above gross)
    before it gives up: when one fails it returns no amounts and has recorded
    the error of every failed check, in that order; when it returns, it
    returns amounts exactly when none fails, and the errors recorded are
    those of the failed checks and no others. *)
Theorem line_checks_are_all_reported (env : Env)
    (li : OrderBulkCreateOrderLineInput) (currency : string) (index : nat)
    (s : State) :
  let failed :=
    bad_quantity li || bad_total_price li || bad_undiscounted_total_price li in
  (failed = true ->
   make_order_line_calculations env li currency index s =
     inr (None, add_errors (line_check_errors li index) s))
  /\ (forall r s',
        make_order_line_calculations env li currency index s = inr (r, s') ->
        (r = None <-> failed = true)
        /\ errors (st_order s') =
             errors (st_order s) ++ line_check_errors li index).
Proof. apply line_checks_reported. Qed.

Lemma fix_context_close (x : Q) :
  (Qabs (Decimal.fix_context x - x) <= Qabs x * context_error)%Q.
Proof.
  unfold context_error. rewrite Qmult_assoc. apply DecimalFacts.fix_context_error.
Qed.

Lemma Qabs_bounds (x : Q) : (0 <= Qabs x /\ x <= Qabs x /\ - x <= Qabs x)%Q.
Proof.
  split; [apply Qabs_nonneg |]. split; [apply Qle_Qabs |].
  rewrite <- Qabs_opp. apply Qle_Qabs.
Qed.

(** A quotient rounded by the context, less one, rounded again. *)
Lemma implied_rate_error (x : Q) :
  (Qabs (Decimal.sub (Decimal.fix_context x) 1 - (x - 1))
     <= (3 * Qabs x + 1) * context_error)%Q.
Proof.
  unfold Decimal.sub.
  pose proof (fix_context_close x) as Hx.
  pose proof (fix_context_close (Decimal.fix_context x - 1)) as Hr.
  set (r1 := Decimal.fix_context x) in *.
  set (rate := Decimal.fix_context (r1 - 1)) in *.
  pose proof (Qabs_bounds x) as (Hx0 & Hx1 & Hx2).
  pose proof (Qabs_bounds (r1 - 1)) as (Ha0 & _ & _).
  apply Qabs_Qle_condition in Hx as [Hxl Hxu].
  apply Qabs_Qle_condition in Hr as [Hrl Hru].
  assert (Ha : (Qabs (r1 - 1) <= 2 * Qabs x + 1)%Q).
  { apply Qabs_Qle_condition.
    revert Hxl Hxu Hx0 Hx1 Hx2. unfold context_error.
    change (Decimal.pow10 (-27) * (1 # 2))%Q
      with (1 # 2000000000000000000000000000)%Q.
    generalize (Qabs x). clear. intros ax Hxl Hxu Hx0 Hx1 Hx2. split; lra. }
  apply Qabs_Qle_condition.
  revert Hxl Hxu Hrl Hru Ha Hx0 Hx1 Hx2 Ha0. unfold context_error.
  change (Decimal.pow10 (-27) * (1 # 2))%Q
    with (1 # 2000000000000000000000000000)%Q.
  generalize (Qabs (r1 - 1)) (Qabs x). clearbody rate r1.
  intros a1 ax Hxl Hxu Hrl Hru Ha Hx0 Hx1 Hx2 Ha0. split; lra.
Qed.

Lemma lt_true_iff (x y : Q) : Decimal.lt x y = true <-> (x < y)%Q.
Proof.
  unfold Decimal.lt. rewrite negb_true_iff. split.
  - intros H. apply Qnot_le_lt. intros Hle. apply Qle_bool_iff in Hle. congruence.
  - intros H. destruct (Qle_bool y x) eqn:Hle; [| reflexivity].
    apply Qle_bool_iff in Hle. exfalso. apply (Qlt_not_le _ _ H Hle).
Qed.

Lemma line_tax_rate_run env li currency index s la s' :
  make_order_line_calculations env li currency index s = inr (Some la, s') ->
  la_tax_rate la =
    match li_tax_rate li with
    | Some r => Some r
    | None =>
        if Decimal.lt 0 (tm_net (li_total_price li))
        then Some (Decimal.sub
                     (Decimal.fix_context
                        (tm_gross (li_total_price li) / tm_net (li_total_price li)))
                     1)
        else None
    end.
Proof.
  intros H.
  destruct (line_checks_reported env li currency index s) as [_ Hall].
  destruct (Hall _ _ H) as [[_ Hbad] _].
  destruct (bad_quantity li || bad_total_price li
            || bad_undiscounted_total_price li) eqn:Hb.
  { specialize (Hbad eq_refl). discriminate. }
  apply orb_false_iff in Hb as [Hb Hb3]. apply orb_false_iff in Hb as [Hb1 Hb2].
  unfold bad_quantity, bad_total_price, bad_undiscounted_total_price in *.
  unfold make_order_line_calculations in H. cbv zeta in H.
  rewrite Hb1, Hb2, Hb3 in H. simpl in H.
  mstep H as u1 t1 Hw1. mstep H as u2 t2 Hw2. mstep H as u3 t3 Hw3.
  mstep H as net s1 Hnet. mstep H as gross s2 Hgross.
  mstep H as unet s3 Hunet. mstep H as ugross s4 Hugross.
  mstep H as rate s5 Hrate.
  cbv [mret M_ret] in H. injection H as <- _. simpl.
  destruct (li_tax_rate li) as [r |].
  - cbv [mret M_ret] in Hrate. injection Hrate as <- _. reflexivity.
  - destruct (Decimal.lt 0 (tm_net (li_total_price li))) eqn:Hpos.
    + mstep Hrate as r0 t0 Hr. unfold lift, Decimal.div in Hr.
      destruct (Qeq_bool (tm_net (li_total_price li)) 0); [discriminate |].
      injection Hr as <- _. cbv [mret M_ret] in Hrate.
      injection Hrate as <- _. reflexivity.
    + cbv [mret M_ret] in Hrate. injection Hrate as <- _. reflexivity.
Qed.

(** X9.  When [make_order_line_calculations] returns amounts, a tax rate
    given in the input is kept; without one the rate is empty when the total
    net is not positive, and otherwise it is gross / net - 1 up to the
    rounding of the two decimal operations (28 significant digits each). *)
Theorem implied_tax_rate (env : Env) (li : OrderBulkCreateOrderLineInput)
    (currency : string) (index : nat) (s s' : State) (la : LineAmounts) :
  make_order_line_calculations env li currency index s = inr (Some la, s') ->
  let gross := tm_gross (li_total_price li) in
  let net := tm_net (li_total_price li) in
  (forall r, li_tax_rate li = Some r -> la_tax_rate la = Some r)
  /\ (li_tax_rate li = None -> (net <= 0)%Q -> la_tax_rate la = None)
  /\ (li_tax_rate li = None -> (0 < net)%Q ->
      exists r,
        la_tax_rate la = Some r
        /\ (Qabs (r - (gross / net - 1))
              <= (3 * Qabs (gross / net) + 1) * context_error)%Q).
Proof.
  intros H gross net. apply line_tax_rate_run in H.
  split; [| split].
  - intros r Hr. rewrite Hr in H. exact H.
  - intros Hnone Hneg. rewrite Hnone in H.
    destruct (Decimal.lt 0 _) eqn:Hpos; [| exact H].
    apply lt_true_iff in Hpos. exfalso. apply (Qlt_not_le _ _ Hpos Hneg).
  - intros Hnone Hpos. rewrite Hnone in H.
    apply lt_true_iff in Hpos. fold net in H. rewrite Hpos in H.
    eexists. split; [exact H |]. apply implied_rate_error.
Qed.

(** ** Shipping price *)

(** X10.  For a delivery by shipping method with a shipping price given
    in the input whose net amount is zero, [make_order_calculations] raises:
    [decimal.InvalidOperation] when the gross amount is zero too,
    [decimal.DivisionByZero] otherwise. *)
Theorem shipping_price_with_zero_net_raises (env : Env)
    (delivery_method : DeliveryMethod) (order_lines : list OrderLine)
    (channel : Channel) (delivery_input : OrderBulkCreateDeliveryMethodInput)
    (shipping_price : TaxedMoneyInput) (s : State) :
  dlv_shipping_method delivery_method <> None ->
  dm_shipping_price delivery_input = Some shipping_price ->
  (tm_net shipping_price == 0)%Q ->
  make_order_calculations env delivery_method order_lines channel
    delivery_input s
  = inl (if Qeq_bool (tm_gross shipping_price) 0
         then InvalidOperation else DivisionByZero).
Proof.
  intros Hm Hp Hz. unfold make_order_calculations. cbv zeta.
  destruct (dlv_shipping_method delivery_method) as [m |]; [| contradiction].
  rewrite Hp. rewrite !bind_run. unfold lift, Decimal.div.
  apply Qeq_bool_iff in Hz. rewrite Hz. reflexivity.
Qed.

(** ** The stock pass *)

Lemma allocate_lines_codes policy ls : forall o m i,
  exists es,
    errors (fst (allocate_lines policy o ls m i)) = errors o ++ es
    /\ Forall (stock_pass_error policy) es.
Proof.
  induction ls as [| l ls IH]; intros o m i.
  - exists []. simpl. rewrite app_nil_r. split; [reflexivity | constructor].
  - destruct (Z.lt_ge_cases (quantity_to_allocate o l) 0) as [Hneg | Hpos].
    + destruct (overfulfilled_line_is_critical policy o l ls m i Hneg)
        as (e & -> & Hcode & _).
      exists [e]. split; [reflexivity |].
      constructor; [| constructor]. left. exact Hcode.
    + destruct (m !! line_key l) as [s |] eqn:Hs.
      * destruct (allocate_lines_step policy o l ls m i s Hpos Hs)
          as (o1 & Heq & _ & _ & _ & Hsame & Hfail).
        rewrite Heq.
        destruct (IH o1 (<[line_key l := allocated_stock o l s]> m) (S i))
          as (es & Hes & Hcodes).
        destruct ((available_quantity s <? quantity_to_allocate o l)
                    && negb (bool_decide (policy = FORCE))) eqn:Hcond.
        -- destruct Hfail as (e & -> & Hcode & _); [reflexivity |].
           exists (e :: es). split.
           ++ rewrite Hes. simpl. rewrite <- app_assoc. reflexivity.
           ++ constructor; [| exact Hcodes]. right. right.
              split; [exact Hcode |].
              apply andb_true_iff in Hcond as [_ Hforce].
              apply negb_true_iff in Hforce.
              intros ->. rewrite bool_decide_eq_true_2 in Hforce by reflexivity.
              discriminate.
        -- assert (o1 = o) as -> by (apply Hsame; reflexivity).
           exists es. auto.
      * unfold quantity_to_allocate, quantity_fulfilled in Hpos.
        unfold line_key in Hs. cbn [allocate_lines].
        destruct (Z.ltb_spec (ol_quantity (bol_line l) -
                    default 0 (orderline_quantityfulfilled_map o !! ol_id (bol_line l))) 0)
          as [Hlt | _]; [lia |].
        rewrite Hs. eexists [_]. split; [reflexivity |].
        constructor; [| constructor]. right. left. reflexivity.
Qed.

Lemma allocate_order_outcome policy o m :
  stock_pass_outcome policy o (fst (allocate_order policy o m)).
Proof.
  pose proof (allocate_order_commit policy o m) as (Hfst & _).
  pose proof (allocate_lines_errors policy (lines o) o m 0%nat) as Hchk.
  pose proof (allocate_lines_sound policy (lines o) o m 0%nat) as Hsound.
  destruct (allocate_lines_codes policy (lines o) o m 0%nat) as (es & Hes & Hcodes).
  cbn zeta in *. rewrite <- Hfst in *.
  destruct Hchk as (Ho & Hc & es' & Hes' & Hne & Hcrit).
  assert (es' = es) as -> by (rewrite Hes in Hes'; eapply app_inv_head; eauto).
  split; [exact Ho |]. split; [apply Hsound |].
  exists es. split; [exact Hes |]. split; [exact Hcodes |].
  split; [exact Hcrit | intros [H | H]; auto].
Qed.

(** X11.  [handle_stocks] returns one aggregate per aggregate, in order;
    it never touches the order record or the lines; the errors it appends
    to an aggregate are INVALID_QUANTITY, NON_EXISTING_STOCK or
    INSUFFICIENT_STOCK errors (never INSUFFICIENT_STOCK under FORCE), and an
    aggregate they are appended to has its critical flag raised; a flag that
    was raised stays raised. *)
Theorem stock_pass_errors_are_critical (table : list Stock)
    (orders : list OrderBulkClass) (policy : StockUpdatePolicy) :
  Forall2 (stock_pass_outcome policy) orders
    (fst (handle_stocks table orders policy)).
Proof.
  unfold handle_stocks.
  generalize (fetch_stocks_map table orders). intros m.
  assert (H : Forall2 (stock_pass_outcome policy) orders
                (fst (allocate_orders policy orders m))).
  { revert m. induction orders as [| o orders IH]; intros m; simpl;
      [constructor |].
    pose proof (allocate_order_outcome policy o m) as Ho.
    destruct (allocate_order policy o m) as [o' m1]. specialize (IH m1).
    destruct (allocate_orders policy orders m1). simpl in *.
    constructor; assumption. }
  destruct (allocate_orders policy orders m). exact H.
Qed.

(** ** The commit *)

Lemma bulk_update_quantity_nil (table : list Stock) :
  bulk_update_quantity table [] = table.
Proof.
  unfold bulk_update_quantity.
  induction table as [| row table IH]; [reflexivity |].
  cbn. f_equal. exact IH.
Qed.

(** X12.  When the mutation returns under the stock update policy SKIP,
    the stock table is what it was. *)
Theorem skipping_stocks_leaves_the_table (env : Env) (db db' : Database)
    (orders_input : list OrderBulkCreateInput)
    (error_policy : option ErrorPolicy) (response : OrderBulkCreate) :
  perform_mutation env db orders_input error_policy (Some SKIP) =
    inr (response, db') ->
  db_stocks db' = db_stocks db.
Proof.
  intros Hrun.
  apply perform_mutation_inr in Hrun
    as [(_ & -> & _) | (_ & orders & os & t & _ & Hdb & _)]; [reflexivity |].
  cbn zeta in Hdb. subst db'.
  change (db_stocks (notify ?x ?d)) with (db_stocks d).
  destruct (process_orders_stocks db orders
              (default REJECT_EVERYTHING error_policy) SKIP)
    as (stocks & Hs & Hnil).
  simpl in *. rewrite Hs, (Hnil eq_refl). apply bulk_update_quantity_nil.
Qed.

Lemma omap_order_ext (l1 l2 : list OrderBulkClass) :
  Forall2 (fun o o' => order o' = order o) l1 l2 ->
  omap order l2 = omap order l1.
Proof.
  intros H. induction H as [| o o' l1 l2 Ho H IH]; [reflexivity |].
  cbn. rewrite Ho. destruct (order o); cbn; [f_equal |]; exact IH.
Qed.

Lemma save_data_orders db orders stocks :
  db_orders (snd (save_data db orders stocks)) =
    db_orders db ++ omap order (fst (save_data db orders stocks)).
Proof.
  unfold save_data.
  set (finalised := map _ orders).
  pose proof (create_fulfillment_rows_elementwise finalised
                (db_fulfillment_pk db)) as H.
  destruct (create_fulfillment_rows _ _) as [orders' next]. simpl in *.
  f_equal. symmetry. apply omap_order_ext.
  apply Forall2_fmap_r. eapply Forall2_impl; [exact H |].
  intros o o' (Ho & _). exact Ho.
Qed.

Lemma process_orders_orders db orders error_policy stock_update_policy :
  db_orders (snd (process_orders db orders error_policy stock_update_policy)) =
    db_orders db
      ++ omap order
           (fst (process_orders db orders error_policy stock_update_policy)).
Proof.
  unfold process_orders.
  destruct (validate_order_numbers orders (db_order_number_seq db)) as [os seq].
  destruct (if bool_decide (stock_update_policy = SKIP) then _ else _)
    as [os' stocks].
  rewrite save_data_orders. reflexivity.
Qed.

Lemma omap_order_results (orders : list OrderBulkClass) :
  omap res_order
    (map (fun o => {| res_order := order o; res_errors := errors o |}) orders)
  = omap order orders.
Proof.
  induction orders as [| o orders IH]; [reflexivity |].
  cbn. destruct (order o); cbn; [f_equal |]; exact IH.
Qed.

Lemma count_results (orders : list OrderBulkClass) :
  length (filter (fun o => has_order o = true) orders) =
    length (omap order orders).
Proof.
  induction orders as [| o orders IH]; [reflexivity |].
  rewrite filter_cons.
  destruct (decide (has_order o = true)) as [H | H]; unfold has_order in H;
    cbn; destruct (order o); try discriminate;
    try (exfalso; apply H; reflexivity); cbn; [f_equal |]; exact IH.
Qed.

Lemma length_omap_order (orders : list OrderBulkClass) :
  (length (omap order orders) <= length orders)%nat.
Proof.
  induction orders as [| o orders IH]; [reflexivity |].
  cbn. destruct (order o); cbn; lia.
Qed.

(** X13.  For a batch within the limit, when the mutation returns, it
    returns one result per input order, and the count it reports is the
    number of results that carry an order, hence at most the size of the
    batch. *)
Theorem one_result_per_input (env : Env) (db db' : Database)
    (orders_input : list OrderBulkCreateInput)
    (error_policy : option ErrorPolicy)
    (stock_update_policy : option StockUpdatePolicy)
    (response : OrderBulkCreate) :
  (length orders_input <= MAX_ORDERS)%nat ->
  perform_mutation env db orders_input error_policy stock_update_policy =
    inr (response, db') ->
  exists rs,
    results response = OrderResults rs
    /\ length rs = length orders_input
    /\ count response = length (omap res_order rs)
    /\ (count response <= length orders_input)%nat.
Proof.
  intros Hlen Hrun.
  apply perform_mutation_inr in Hrun
    as [(Hlt & _) | (_ & orders & os & t & Hcreate & Hdb & Hresp)]; [lia |].
  cbn zeta in Hresp. subst response. simpl. eexists. split; [reflexivity |].
  destruct (process_orders_stages db orders
              (default REJECT_EVERYTHING error_policy)
              (default UPDATE stock_update_policy))
    as (checked & allocated & Hnum & Hstock & _ & Hsaved & _).
  pose proof (stages_length _ _ _ _ _ Hnum Hstock Hsaved) as Hl.
  apply create_orders_run, Forall2_length in Hcreate.
  rewrite length_map, omap_order_results, count_results.
  split; [lia |]. split; [reflexivity |].
  rewrite Hcreate, <- Hl. apply length_omap_order.
Qed.

(** X14.  For a batch within the limit, when the mutation returns, the
    orders inserted into the database and the orders announced to the
    [order_bulk_created] hook are exactly the orders of the results, in the
    order of the results. *)
Theorem returned_orders_are_the_inserted_ones (env : Env) (db db' : Database)
    (orders_input : list OrderBulkCreateInput)
    (error_policy : option ErrorPolicy)
    (stock_update_policy : option StockUpdatePolicy)
    (response : OrderBulkCreate) :
  (length orders_input <= MAX_ORDERS)%nat ->
  perform_mutation env db orders_input error_policy stock_update_policy =
    inr (response, db') ->
  exists rs,
    results response = OrderResults rs
    /\ db_orders db' = db_orders db ++ omap res_order rs
    /\ db_notified db' = db_notified db ++ omap res_order rs.
Proof.
  intros Hlen Hrun.
  apply perform_mutation_inr in Hrun
    as [(Hlt & _) | (_ & orders & os & t & Hcreate & Hdb & Hresp)]; [lia |].
  cbn zeta in Hresp, Hdb. subst response db'. simpl.
  eexists. split; [reflexivity |]. rewrite omap_order_results.
  split; [apply process_orders_orders |].
  f_equal. unfold process_orders.
  destruct (validate_order_numbers orders (db_order_number_seq db)) as [os1 seq].
  destruct (if bool_decide (default UPDATE stock_update_policy = SKIP)
            then _ else _) as [os' stocks].
  unfold save_data. destruct (create_fulfillment_rows _ _). reflexivity.
Qed.

(** ** Lines with the same stock key *)

Lemma length_remove_dups_le {A : Type} `{EqDecision A} (l : list A) :
  (length (remove_dups l) <= length l)%nat.
Proof.
  induction l as [| x l IH]; [reflexivity |].
  cbn. destruct (decide_rel elem_of x l); cbn; lia.
Qed.

Lemma length_remove_dups_NoDup {A : Type} `{EqDecision A} (l : list A) :
  length (remove_dups l) = length l <-> NoDup l.
Proof.
  induction l as [| x l IH]; [split; [constructor | reflexivity] |].
  pose proof (length_remove_dups_le l) as Hle.
  cbn. destruct (decide_rel elem_of x l) as [Hin | Hout]; cbn.
  - split; [lia |]. intros Hnd. apply NoDup_cons in Hnd as [Hx _]. contradiction.
  - split.
    + intros Hlen. apply NoDup_cons. split; [exact Hout |]. apply IH. lia.
    + intros Hnd. apply NoDup_cons in Hnd as [_ Hnd]. apply IH in Hnd. lia.
Qed.

(** ** Stock keys *)

Lemma digit_is_no_separator (n : N) :
  Ascii.eqb (pretty_N_char n) separator = false.
Proof. unfold pretty_N_char. repeat case_match; reflexivity. Qed.

Lemma pretty_N_go_separator (x : N) : forall s,
  has_separator (pretty_N_go x s) = has_separator s.
Proof.
  induction (N.lt_wf_0 x) as [x _ IH]. intros s.
  destruct (N.eq_dec x 0%N) as [-> | Hx]; [reflexivity |].
  rewrite pretty_N_go_step by lia.
  rewrite IH by (apply N.div_lt; lia).
  cbn. rewrite digit_is_no_separator. reflexivity.
Qed.

Lemma pretty_Z_separator (z : Z) : has_separator (pretty z) = false.
Proof.
  assert (HN : forall n : N, has_separator (pretty n) = false).
  { intros n. unfold pretty, pretty_N. case_decide; [reflexivity |].
    apply pretty_N_go_separator. }
  destruct z as [| p | p]; [reflexivity | apply (HN (Npos p)) |].
  change (pretty (Z.neg p)) with ("-" +:+ pretty (Npos p)).
  cbn. apply (HN (Npos p)).
Qed.

(** Two strings that hold no separator and are followed by one agree as
    soon as the whole strings agree. *)
Lemma split_at_separator (a b c d : string) :
  has_separator a = false -> has_separator c = false ->
  a +:+ String separator b = c +:+ String separator d ->
  a = c /\ b = d.
Proof.
  revert c. induction a as [| x a IH]; intros [| y c] Ha Hc Heq; cbn in *.
  - injection Heq as ->. auto.
  - injection Heq as <- _. discriminate Hc.
  - injection Heq as -> _. discriminate Ha.
  - injection Heq as -> Heq.
    apply orb_false_iff in Ha as [_ Ha]. apply orb_false_iff in Hc as [_ Hc].
    destruct (IH c Ha Hc Heq) as [-> ->]. auto.
Qed.

Lemma stock_key_inj (variant variant' : Z) (warehouse warehouse' : string) :
  stock_key variant warehouse = stock_key variant' warehouse' ->
  variant = variant' /\ warehouse = warehouse'.
Proof.
  unfold stock_key. intros Heq.
  apply split_at_separator in Heq as [Hv Hw];
    try apply pretty_Z_separator.
  split; [| exact Hw]. apply (inj pretty). exact Hv.
Qed.

(** X15.  [order_lines_duplicates] is false exactly when no two lines of
    the aggregate have the same variant id and the same warehouse id. *)
Theorem order_lines_duplicates_iff (o : OrderBulkClass) :
  order_lines_duplicates o = false <-> NoDup (map line_stock (lines o)).
Proof.
  unfold order_lines_duplicates. cbv zeta.
  rewrite negb_false_iff, Nat.eqb_eq.
  set (keys := map _ (lines o)).
  assert (Hkeys : keys = map (fun p => stock_key p.1 p.2)
                           (map line_stock (lines o))).
  { unfold keys. rewrite map_map. reflexivity. }
  transitivity (NoDup keys).
  - rewrite <- length_remove_dups_NoDup. split; congruence.
  - rewrite Hkeys. split.
    + apply NoDup_fmap_1.
    + apply NoDup_fmap_2. intros [v w] [v' w'] Heq. cbn in Heq.
      apply stock_key_inj in Heq as [-> ->]. reflexivity.
Qed.

(** X16.  The key [f"{variant_id}_{warehouse_id}"] of the stock
    dictionary and of the duplicate check determines the variant id and the
    warehouse id, also when the warehouse id contains the separator. *)
Theorem stock_key_is_injective (variant variant' : Z)
    (warehouse warehouse' : string) :
  stock_key variant warehouse = stock_key variant' warehouse' ->
  variant = variant' /\ warehouse = warehouse'.
Proof. apply stock_key_inj. Qed.

(** ** Fulfillments *)

Lemma create_fulfillment_lines_some index order_lines lines_input :
  forall acc line_index s ls s',
    create_fulfillment_lines index order_lines lines_input acc line_index s
      = inr (Some ls, s') ->
    s' = s
    /\ exists new, ls = acc ++ new /\ Forall2 (fulfills order_lines) lines_input new.
Proof.
  induction lines_input as [| li rest IH]; intros acc k s ls s' H.
  - cbn in H. injection H as <- <-. split; [reflexivity |].
    exists []. rewrite app_nil_r. split; [reflexivity | constructor].
  - cbn [create_fulfillment_lines] in H.
    mstep H as v s1 Hv. rewrite get_instance_with_errors_run in Hv.
    injection Hv as <- <-.
    destruct (fli_variant li) as [variant | |] eqn:Hvar; try discriminate H.
    mstep H as w s2 Hw. rewrite get_instance_with_errors_run in Hw.
    injection Hw as <- <-.
    destruct (fli_warehouse li) as [warehouse | |] eqn:Hwar; try discriminate H.
    destruct (Z.ltb_spec (fli_order_line_index li) 0) as [Hneg | Hpos];
      [discriminate H |].
    destruct (order_lines !! Z.to_nat (fli_order_line_index li))
      as [order_line |] eqn:Hline; [| discriminate H].
    destruct (String.eqb_spec (warehouse_id (bol_warehouse order_line))
                (warehouse_id warehouse)) as [Hsame | _]; [| discriminate H].
    destruct (Z.eqb_spec (variant_id (ol_variant (bol_line order_line)))
                (variant_id variant)) as [Hsamev | _]; [| discriminate H].
    cbn in H. apply IH in H as [-> (new & -> & Hnew)].
    split; [reflexivity |].
    eexists (_ :: new). rewrite <- app_assoc. split; [reflexivity |].
    constructor; [| exact Hnew].
    exists variant, warehouse, order_line. repeat split; auto.
Qed.

(** X17.  When [create_single_fulfillment] returns a fulfillment it has
    recorded no error, the fulfillment is numbered 1 and has no primary key
    yet, and it has one line per input line, in order: each refers to the
    order line at the index the input gives, whose warehouse and variant are
    the ones the input line resolves to, and carries the input quantity
    unchanged. *)
Theorem fulfillment_lines_match_order_lines
    (fulfillment_input : OrderBulkCreateFulfillmentInput)
    (order_lines : list OrderBulkOrderLine) (index : nat) (s s' : State)
    (fulfillment : OrderBulkFulfillment) :
  create_single_fulfillment fulfillment_input order_lines index s
    = inr (Some fulfillment, s') ->
  s' = s
  /\ ful_fulfillment_order (bf_fulfillment fulfillment) = 1
  /\ ful_id (bf_fulfillment fulfillment) = None
  /\ Forall2 (fulfills order_lines) (ful_in_lines fulfillment_input)
       (bf_lines fulfillment).
Proof.
  unfold create_single_fulfillment. cbv zeta. intros H.
  mstep H as ls s1 Hls. cbv [mret M_ret] in H. injection H as Hf <-.
  destruct ls as [ls |]; [| discriminate Hf]. injection Hf as <-.
  apply create_fulfillment_lines_some in Hls as [-> (new & -> & Hnew)].
  repeat split; auto.
Qed.

(** X18.  A fulfillment line whose variant and warehouse resolve but
    whose order-line index is negative, or not below the number of order
    lines, makes the loop over the fulfillment lines return nothing, with one
    NEGATIVE_INDEX or NO_RELATED_ORDER_LINE error recorded under the path of
    that line; the rest of the lines is not looked at. *)
Theorem fulfillment_line_index_is_checked (index : nat)
    (order_lines : list OrderBulkOrderLine)
    (li : OrderBulkCreateFulfillmentLineInput)
    (rest : list OrderBulkCreateFulfillmentLineInput)
    (acc : list OrderBulkFulfillmentLine) (line_index : nat) (s : State)
    (variant : ProductVariant) (warehouse : Warehouse) :
  fli_variant li = Instance variant ->
  fli_warehouse li = Instance warehouse ->
  (fli_order_line_index li < 0 ->
   create_fulfillment_lines index order_lines (li :: rest) acc line_index s
     = inr (None, add_errors [negative_index_error index line_index] s))
  /\ (Z.of_nat (length order_lines) <= fli_order_line_index li ->
      create_fulfillment_lines index order_lines (li :: rest) acc line_index s
        = inr (None,
               add_errors
                 [no_related_order_line_error index line_index
                    (fli_order_line_index li)] s)).
Proof.
  intros Hv Hw. cbn [create_fulfillment_lines]. rewrite Hv, Hw.
  split; intros Hidx.
  - cbn. destruct (Z.ltb_spec (fli_order_line_index li) 0); [| lia].
    reflexivity.
  - cbn. destruct (Z.ltb_spec (fli_order_line_index li) 0); [lia |].
    rewrite (proj2 (lookup_ge_None order_lines _)) by lia.
    reflexivity.
Qed.

(** ** Required parts of an order *)

Lemma related_instances_fields oi s s' :
  get_instances_related_to_order oi s = inr (tt, s') ->
  user (st_order s') = instance_of (usr_resolved (oi_user oi))
  /\ channel (st_order s') = instance_of (oi_channel oi)
  /\ billing_address (st_order s') = oi_billing_address oi.
Proof.
  unfold get_instances_related_to_order. intros H.
  mstep H as u s1 Hu. mstep H as x s2 Hx. mstep H as c s3 Hc.
  mstep H as b s4 Hb. mstep H as sh s5 Hsh. mstep H as v s6 Hv.
  mstep H as g s7 Hg. apply modify_order_run in H. subst s'. simpl.
  rewrite get_instance_with_errors_run in Hu.
  rewrite get_instance_with_errors_run in Hc.
  injection Hu as <- _. injection Hc as <- _.
  repeat split.
  destruct (oi_billing_address oi).
  - cbv [mret M_ret] in Hb. injection Hb as <- _. reflexivity.
  - mstep Hb as y s8 Hy. cbv [mret M_ret] in Hb. injection Hb as <- _.
    reflexivity.
Qed.

Lemma get_delivery_method_result input s r s' :
  get_delivery_method input s = inr (r, s') ->
  r = None <->
  delivery_warehouse input = None /\ delivery_shipping_method input = None.
Proof.
  intros H.
  destruct (get_delivery_method_run input s) as (r0 & s0 & Hrun & _ & Hr).
  rewrite Hrun in H. injection H as <- <-.
  destruct (delivery_warehouse input), (delivery_shipping_method input);
    try (destruct Hr as (d & -> & _); split; [discriminate | intros [? ?]; discriminate]).
  split; auto.
Qed.

Lemma order_without_required_part env oi s s' :
  st_order s = new_OrderBulkClass ->
  create_single_order env oi s = inr (tt, s') ->
  lacks_required_part oi ->
  order (st_order s') = None.
Proof.
  intros Hnew H Hlack. unfold create_single_order in H.
  mstep H as u0 s1 Hval. rewrite validate_order_input_run in Hval.
  injection Hval as _ <-.
  mstep H as o1 s1' Ho1. apply get_order_run in Ho1 as [-> ->].
  rewrite Hnew in H.
  destruct (is_critical_error _) eqn:Hcrit.
  { cbv [mret M_ret] in H. injection H as <-.
    destruct (number_exists oi (st_storage s)); reflexivity. }
  mstep H as u1 s2 Hset. apply modify_order_run in Hset. subst s2.
  mstep H as u2 s3 Hrel. destruct u2.
  apply related_instances_fields in Hrel as (Huser & Hchan & Hbill).
  mstep H as dm s4 Hdm.
  pose proof (growing_get_delivery_method _ _ _ _ Hdm)
    as (_ & _ & Hu4 & Hc4 & Hb4 & _).
  apply get_delivery_method_result in Hdm.
  mstep H as o4 s4' Ho4. apply get_order_run in Ho4 as [-> ->].
  rewrite Hu4, Hc4, Hb4, Huser, Hchan, Hbill in H.
  assert (Hnone : forall t, modify_order (set_order None) s4 = inr (tt, t) ->
                            order (st_order t) = None).
  { intros t Ht. apply modify_order_run in Ht. subst t. reflexivity. }
  destruct dm as [d |].
  2:{ apply Hnone. exact H. }
  destruct (instance_of (oi_channel oi)) as [ch |] eqn:Hch.
  2:{ apply Hnone. exact H. }
  destruct (oi_billing_address oi) as [a |] eqn:Hba.
  2:{ apply Hnone. exact H. }
  destruct (bool_decide (is_Some (instance_of (usr_resolved (oi_user oi))))
            || truthy (usr_email (oi_user oi))) eqn:Hcust.
  2:{ apply Hnone. exact H. }
  exfalso. destruct Hlack as [Hd | [[Hu He] | [Hc | Hb]]];
    try congruence.
  - apply Hdm in Hd. discriminate.
  - rewrite Hu, He in Hcust. vm_compute in Hcust. discriminate.
Qed.

(** X19.  For a batch within the limit, when the mutation returns, an
    input order without a resolved delivery method, without a customer (no
    resolved user and no email), without a resolved channel or without a
    valid billing address gets a result without an order, whatever the error
    policy and the stock update policy. *)
Theorem order_without_required_part_is_not_created (env : Env)
    (db db' : Database) (orders_input : list OrderBulkCreateInput)
    (error_policy : option ErrorPolicy)
    (stock_update_policy : option StockUpdatePolicy)
    (response : OrderBulkCreate) (i : nat) (oi : OrderBulkCreateInput) :
  (length orders_input <= MAX_ORDERS)%nat ->
  perform_mutation env db orders_input error_policy stock_update_policy =
    inr (response, db') ->
  orders_input !! i = Some oi ->
  lacks_required_part oi ->
  exists rs r,
    results response = OrderResults rs
    /\ rs !! i = Some r
    /\ res_order r = None.
Proof.
  intros Hlen Hrun Hi Hlack.
  destruct (result_of_input _ _ _ _ _ _ _ _ _ Hlen Hrun Hi)
    as (o & o' & (s & s' & Hnew & _ & Hone & ->) & (Hnone & _) & rs & Hrs & Hr).
  exists rs, {| res_order := order o'; res_errors := errors o' |}.
  split; [exact Hrs |]. split; [exact Hr |]. simpl.
  apply Hnone. eapply order_without_required_part; eassumption.
Qed.

(** ** The error policy *)

(** X20.  [handle_error_policy] returns one aggregate per aggregate, in
    order, each either unchanged or with its order record cleared and
    nothing else changed; under IGNORE_FAILED, and for a batch without any
    error, every aggregate is returned unchanged. *)
Theorem error_policy_only_rejects (orders : list OrderBulkClass)
    (error_policy : ErrorPolicy) :
  Forall2 at_most_rejected orders (handle_error_policy orders error_policy)
  /\ (error_policy = IGNORE_FAILED ->
      handle_error_policy orders error_policy = orders)
  /\ (Forall (fun o => errors o = []) orders ->
      handle_error_policy orders error_policy = orders).
Proof.
  unfold handle_error_policy.
  destruct (concat (map errors orders)) as [| e rest] eqn:Hall.
  - split; [| auto].
    apply Forall_Forall2_diag, Forall_forall. intros o _. left. reflexivity.
  - split; [| split].
    + apply Forall2_fmap_r, Forall_Forall2_diag, Forall_forall. intros o _.
      unfold compose, at_most_rejected.
      destruct error_policy; [| | destruct (errors o)]; auto.
    + intros ->. induction orders as [| o orders IH]; [reflexivity |].
      cbn. f_equal. clear. induction orders as [| o' orders IH];
        [reflexivity | cbn; f_equal; exact IH].
    + intros Hnone. exfalso.
      assert (Hin : e ∈ concat (map errors orders)) by (rewrite Hall; left).
      apply elem_of_concat in Hin as (es & He & Hes).
      apply list_elem_of_fmap in Hes as (o & -> & Ho).
      rewrite Forall_forall in Hnone. rewrite (Hnone o Ho) in He. inversion He.
Qed.

(** ** Numbering of the fulfillments *)

Lemma number_fulfillments_order (fs : list OrderBulkFulfillment) : forall n,
  map (fun f => ful_fulfillment_order (bf_fulfillment f))
      (number_fulfillments n fs)
  = map (fun i => n + Z.of_nat i) (seq 0 (length fs))
  /\ map bf_lines (number_fulfillments n fs) = map bf_lines fs
  /\ map (fun f => ful_tracking_number (bf_fulfillment f))
         (number_fulfillments n fs)
     = map (fun f => ful_tracking_number (bf_fulfillment f)) fs.
Proof.
  induction fs as [| f fs IH]; intros n; [repeat split |].
  destruct (IH (n + 1)) as (Ho & Hl & Ht).
  cbn [number_fulfillments length seq map]. cbn [bf_fulfillment bf_lines
    ful_fulfillment_order ful_tracking_number].
  rewrite Ho, Hl, Ht. repeat split.
  f_equal; [lia |]. rewrite <- seq_shift, map_map.
  apply map_ext. intros i. lia.
Qed.

(** X21.  [set_fulfillment_order] numbers the fulfillments of an
    aggregate 1, 2, 3, ... in their order, and changes neither their lines
    nor the lines or the errors of the aggregate. *)
Theorem fulfillments_are_numbered_from_one (o : OrderBulkClass) :
  map (fun f => ful_fulfillment_order (bf_fulfillment f))
      (fulfillments (set_fulfillment_order o))
  = map (fun i => Z.of_nat (S i)) (seq 0 (length (fulfillments o)))
  /\ map bf_lines (fulfillments (set_fulfillment_order o))
     = map bf_lines (fulfillments o)
  /\ lines (set_fulfillment_order o) = lines o
  /\ errors (set_fulfillment_order o) = errors o.
Proof.
  destruct (number_fulfillments_order (fulfillments o) 1) as (Ho & Hl & _).
  unfold set_fulfillment_order. cbn [fulfillments set_fulfillments lines errors].
  rewrite Ho, Hl. repeat split.
  apply map_ext. intros i. lia.
Qed.

(** ** The simulation of an accepted order *)

Lemma allocate_lines_accepted policy ls : forall o m i,
  is_critical_error (fst (allocate_lines policy o ls m i)) = false ->
  allocate_lines policy o ls m i = (o, foldl (allocate_line o) m ls)
  /\ Forall (fun l => is_Some (foldl (allocate_line o) m ls !! line_key l)) ls.
Proof.
  induction ls as [| l ls IH]; intros o m i Hok; [split; [reflexivity | constructor] |].
  pose proof (allocate_lines_sound policy (l :: ls) o m i) as (_ & _ & _ & Hmono & Hpos).
  cbn zeta in Hmono, Hpos.
  assert (Hc0 : is_critical_error o = false).
  { destruct (is_critical_error o); [specialize (Hmono eq_refl); congruence | reflexivity]. }
  specialize (Hpos Hok). apply Forall_cons in Hpos as [Hpos _].
  destruct (m !! line_key l) as [s |] eqn:Hs.
  - destruct (allocate_lines_step policy o l ls m i s Hpos Hs)
      as (o1 & Heq & _ & _ & _ & Hsame & Hfail).
    rewrite Heq in Hok |- *.
    destruct ((available_quantity s <? quantity_to_allocate o l)
                && negb (bool_decide (policy = FORCE))) eqn:Hcond.
    + destruct Hfail as (e & -> & _); [reflexivity |].
      pose proof (allocate_lines_sound policy ls (mark_critical e o)
                    (<[line_key l := allocated_stock o l s]> m) (S i))
        as (_ & _ & _ & Hm & _).
      cbn zeta in Hm. specialize (Hm eq_refl). congruence.
    + assert (o1 = o) as -> by (apply Hsame; reflexivity).
      assert (Hm : <[line_key l := allocated_stock o l s]> m = allocate_line o m l).
      { unfold allocate_line. apply map_eq. intros k.
        destruct (decide (k = line_key l)) as [-> | Hne].
        - rewrite lookup_insert_eq, lookup_alter_eq, Hs. reflexivity.
        - rewrite lookup_insert_ne, lookup_alter_ne by congruence. reflexivity. }
      rewrite Hm in Hok |- *. destruct (IH o (allocate_line o m l) (S i) Hok)
        as [Hrun Hall].
      cbn [foldl]. split; [exact Hrun |]. constructor; [| exact Hall].
      clear - Hs. assert (Hin : is_Some (allocate_line o m l !! line_key l)).
      { unfold allocate_line. rewrite lookup_alter_eq, Hs. eauto. }
      revert Hin. generalize (allocate_line o m l). clear.
      induction ls as [| l' ls IH]; intros m' Hin; [exact Hin |].
      cbn [foldl]. apply IH. unfold allocate_line.
      destruct (decide (line_key l' = line_key l)) as [-> | Hne].
      * rewrite lookup_alter_eq. destruct Hin as [x ->]. eauto.
      * rewrite lookup_alter_ne by exact Hne. exact Hin.
  - exfalso. unfold quantity_to_allocate, quantity_fulfilled in Hpos.
    unfold line_key in Hs. cbn [allocate_lines] in Hok.
    destruct (Z.ltb_spec (ol_quantity (bol_line l) -
                default 0 (orderline_quantityfulfilled_map o !! ol_id (bol_line l))) 0)
      as [Hlt | _]; [lia |].
    rewrite Hs in Hok. discriminate Hok.
Qed.

(** X22.  When an aggregate leaves the simulation of [handle_stocks]
    without a critical error, it is unchanged, every line of it has a stock
    row and a non-negative quantity to allocate, and the stock dictionary is
    the old one with, line after line, the quantity to allocate added to the
    allocation of the line's row and the fulfilled quantity taken from its
    quantity. *)
Theorem accepted_order_is_simulated_line_by_line
    (policy : StockUpdatePolicy) (o : OrderBulkClass) (m : gmap string Stock) :
  is_critical_error (fst (allocate_order policy o m)) = false ->
  allocate_order policy o m = (o, foldl (allocate_line o) m (lines o))
  /\ Forall (fun l => 0 <= quantity_to_allocate o l
                      /\ is_Some (m !! line_key l)) (lines o).
Proof.
  intros Hok.
  pose proof (allocate_order_commit policy o m) as (Hfst & Hcommit & _).
  cbn zeta in Hfst, Hcommit. rewrite Hfst in Hok.
  destruct (allocate_lines_accepted policy (lines o) o m 0%nat Hok) as [Hrun Hall].
  pose proof (allocate_lines_sound policy (lines o) o m 0%nat) as (_ & _ & _ & _ & Hpos).
  cbn zeta in Hpos. specialize (Hpos Hok).
  split.
  - specialize (Hcommit Hok). rewrite Hrun in Hfst, Hcommit.
    destruct (allocate_order policy o m) as [o' m']. cbn in *. congruence.
  - apply Forall_forall. intros l Hl. rewrite Forall_forall in Hpos, Hall.
    split; [apply Hpos; exact Hl |].
    specialize (Hall l Hl). clear - Hall.
    revert m Hall. induction (lines o) as [| l' ls IH]; intros m Hall; [exact Hall |].
    cbn [foldl] in Hall. apply IH in Hall. unfold allocate_line in Hall.
    destruct (decide (line_key l' = line_key l)) as [Heq | Hne].
    + rewrite Heq, lookup_alter_eq in Hall. destruct (m !! line_key l); [eauto |].
      destruct Hall as [? Hx]; discriminate Hx.
    + rewrite lookup_alter_ne in Hall by exact Hne. exact Hall.
Qed.

(** ** The checks on the order input *)

(** X23.  [validate_order_input] always returns, reads the clock once
    and leaves the object storage alone.  It records a FUTURE_DATE error
    exactly when [created_at] is five minutes or more after the reading of
    the clock, and a UNIQUE error exactly when the number of the input is the
    number of an order of the database; only the latter raises the critical
    flag; an input that fails no check leaves the aggregate as it was. *)
Theorem order_input_checks (env : Env) (oi : OrderBulkCreateInput) (s : State) :
  exists s' es,
    validate_order_input env oi s = inr (tt, s')
    /\ st_storage s' = st_storage s
    /\ errors (st_order s') = errors (st_order s) ++ es
    /\ (Exists (fun e => code e = Some FUTURE_DATE) es
        <-> now_at env s + timedelta_minutes MINUTES_DIFF <= oi_created_at oi)
    /\ (Exists (fun e => code e = Some UNIQUE) es
        <-> number_exists oi (st_storage s) = true)
    /\ is_critical_error (st_order s') =
         is_critical_error (st_order s) || number_exists oi (st_storage s)
    /\ (es = [] -> s' = tick s).
Proof.
  rewrite validate_order_input_run.
  eexists. exists (order_input_errors env oi s).
  split; [reflexivity |].
  assert (Hfuture : is_future env s (oi_created_at oi) = true
                    <-> now_at env s + timedelta_minutes MINUTES_DIFF
                        <= oi_created_at oi).
  { unfold is_future. rewrite negb_true_iff, Z.ltb_ge. reflexivity. }
  destruct s as [o os t]. destruct o. cbn [st_storage st_order] in *.
  unfold order_input_errors. cbn [st_storage].
  destruct (is_future _ _ _);
    destruct (oi_redirect_url oi) as [[[| c u] [msg |]] |];
    destruct (oi_weight oi) as [w |]; try destruct (Decimal.lt w 0);
    destruct (number_exists oi os);
    cbn; rewrite ?orb_true_r, ?orb_false_r;
    (repeat split; try reflexivity; try discriminate;
     rewrite ?Exists_cons, ?Exists_nil; cbn;
     try (intros; rewrite ?app_nil_r; reflexivity);
     try solve [intuition (discriminate || auto)]).
Qed.

(** ** Lines of the aggregate under construction *)

Lemma keeps_lines_ret {A : Type} (a : A) : keeps_lines (mret a).
Proof. intros s b s' H. inversion H; subst. reflexivity. Qed.

Lemma keeps_lines_bind {A B : Type} (m : M A) (k : A -> M B) :
  keeps_lines m -> (forall a, keeps_lines (k a)) -> keeps_lines (m ≫= k).
Proof.
  intros Hm Hk s b s' H. apply bind_inr in H as (a & s1 & H1 & H2).
  rewrite (Hk a s1 b s' H2). exact (Hm s a s1 H1).
Qed.

Lemma keeps_lines_lift {A : Type} (r : Exception + A) : keeps_lines (lift r).
Proof.
  intros s a s' H. unfold lift in H. destruct r; inversion H; subst.
  reflexivity.
Qed.

Lemma keeps_lines_raise {A : Type} (e : Exception) : keeps_lines (@raise A e).
Proof. intros s a s' H. discriminate. Qed.

Lemma keeps_lines_get_order : keeps_lines get_order.
Proof. intros s a s' H. inversion H; subst. reflexivity. Qed.

Lemma keeps_lines_get_storage : keeps_lines get_storage.
Proof. intros s a s' H. inversion H; subst. reflexivity. Qed.

Lemma keeps_lines_put_storage os : keeps_lines (put_storage os).
Proof. intros s a s' H. inversion H; subst. reflexivity. Qed.

Lemma keeps_lines_modify_order f :
  (forall o, lines (f o) = lines o) -> keeps_lines (modify_order f).
Proof. intros Hf s a s' H. inversion H; subst. apply Hf. Qed.

Lemma keeps_lines_append_error e : keeps_lines (append_error e).
Proof. apply keeps_lines_modify_order. reflexivity. Qed.

Lemma keeps_lines_when b m : keeps_lines m -> keeps_lines (when b m).
Proof. intros Hm. destruct b; [exact Hm | apply keeps_lines_ret]. Qed.

Lemma keeps_lines_timezone_now env : keeps_lines (timezone_now env).
Proof. intros s a s' H. inversion H; subst. reflexivity. Qed.

Ltac keeps_lines_step :=
  lazymatch goal with
  | |- keeps_lines (mret _) => apply keeps_lines_ret
  | |- keeps_lines (_ ≫= _) => apply keeps_lines_bind; [| intros ?]
  | |- keeps_lines (append_error _) => apply keeps_lines_append_error
  | |- keeps_lines (when _ _) => apply keeps_lines_when
  | |- keeps_lines (lift _) => apply keeps_lines_lift
  | |- keeps_lines (raise _) => apply keeps_lines_raise
  | |- keeps_lines get_order => apply keeps_lines_get_order
  | |- keeps_lines get_storage => apply keeps_lines_get_storage
  | |- keeps_lines (put_storage _) => apply keeps_lines_put_storage
  | |- keeps_lines (timezone_now _) => apply keeps_lines_timezone_now
  | |- keeps_lines (modify_order _) =>
      apply keeps_lines_modify_order; intros ?; reflexivity
  | |- keeps_lines (match ?x with _ => _ end) => destruct x
  | |- keeps_lines (let _ := _ in _) => cbv zeta
  end.

Ltac keeps_lines_tac :=
  repeat (first [assumption | solve [auto with keeps_lines] | keeps_lines_step]).

Create HintDb keeps_lines.

Section KeepsLines.

Variable env : Env.

Lemma keeps_lines_is_datetime_valid date :
  keeps_lines (is_datetime_valid env date).
Proof. unfold is_datetime_valid. keeps_lines_tac. Qed.
Hint Resolve keeps_lines_is_datetime_valid : keeps_lines.

Lemma keeps_lines_validate_order_input oi :
  keeps_lines (validate_order_input env oi).
Proof. unfold validate_order_input. keeps_lines_tac. Qed.
Hint Resolve keeps_lines_validate_order_input : keeps_lines.

Lemma keeps_lines_validate_order_status status :
  keeps_lines (validate_order_status status).
Proof. unfold validate_order_status. keeps_lines_tac. Qed.
Hint Resolve keeps_lines_validate_order_status : keeps_lines.

Lemma keeps_lines_process_metadata md p f :
  keeps_lines (process_metadata md p f).
Proof. unfold process_metadata. keeps_lines_tac. Qed.
Hint Resolve keeps_lines_process_metadata : keeps_lines.

Lemma keeps_lines_process_metadata_if_given md p f :
  keeps_lines (process_metadata_if_given md p f).
Proof. unfold process_metadata_if_given. keeps_lines_tac. Qed.
Hint Resolve keeps_lines_process_metadata_if_given : keeps_lines.

Lemma keeps_lines_get_instance_with_errors {A : Type} (r : Resolved A) :
  keeps_lines (get_instance_with_errors r).
Proof. unfold get_instance_with_errors. keeps_lines_tac. Qed.
Hint Resolve @keeps_lines_get_instance_with_errors : keeps_lines.

Lemma keeps_lines_resolve_gift_cards codes : forall i,
  keeps_lines (resolve_gift_cards codes i).
Proof. induction codes as [| c codes IH]; intros i; simpl; keeps_lines_tac. Qed.
Hint Resolve keeps_lines_resolve_gift_cards : keeps_lines.

Lemma keeps_lines_get_instances_related_to_order oi :
  keeps_lines (get_instances_related_to_order oi).
Proof. unfold get_instances_related_to_order. keeps_lines_tac. Qed.
Hint Resolve keeps_lines_get_instances_related_to_order : keeps_lines.

Lemma keeps_lines_make_order_line_calculations li currency index :
  keeps_lines (make_order_line_calculations env li currency index).
Proof. unfold make_order_line_calculations. keeps_lines_tac. Qed.
Hint Resolve keeps_lines_make_order_line_calculations : keeps_lines.

Lemma keeps_lines_get_delivery_method input :
  keeps_lines (get_delivery_method input).
Proof. unfold get_delivery_method. keeps_lines_tac. Qed.
Hint Resolve keeps_lines_get_delivery_method : keeps_lines.

Lemma keeps_lines_make_order_calculations dm ols ch di :
  keeps_lines (make_order_calculations env dm ols ch di).
Proof. unfold make_order_calculations. keeps_lines_tac. Qed.
Hint Resolve keeps_lines_make_order_calculations : keeps_lines.

Lemma keeps_lines_create_single_note ni index :
  keeps_lines (create_single_note env ni index).
Proof. unfold create_single_note. keeps_lines_tac. Qed.
Hint Resolve keeps_lines_create_single_note : keeps_lines.

Lemma keeps_lines_create_single_discount di index :
  keeps_lines (create_single_discount di index).
Proof. unfold create_single_discount. keeps_lines_tac. Qed.
Hint Resolve keeps_lines_create_single_discount : keeps_lines.

Lemma keeps_lines_create_single_invoice ii index :
  keeps_lines (create_single_invoice env ii index).
Proof. unfold create_single_invoice. keeps_lines_tac. Qed.
Hint Resolve keeps_lines_create_single_invoice : keeps_lines.

Lemma keeps_lines_create_single_order_line li oi index :
  keeps_lines (create_single_order_line env li oi index).
Proof. unfold create_single_order_line. keeps_lines_tac. Qed.
Hint Resolve keeps_lines_create_single_order_line : keeps_lines.

Lemma keeps_lines_create_fulfillment_lines index order_lines lines_input :
  forall acc line_index,
    keeps_lines
      (create_fulfillment_lines index order_lines lines_input acc line_index).
Proof.
  induction lines_input as [| li rest IH]; intros acc line_index; simpl;
    keeps_lines_tac.
Qed.
Hint Resolve keeps_lines_create_fulfillment_lines : keeps_lines.

Lemma keeps_lines_create_single_fulfillment fi order_lines index :
  keeps_lines (create_single_fulfillment fi order_lines index).
Proof. unfold create_single_fulfillment. keeps_lines_tac. Qed.
Hint Resolve keeps_lines_create_single_fulfillment : keeps_lines.

Lemma keeps_lines_create_fulfillments inputs : forall index,
  keeps_lines (create_fulfillments inputs index).
Proof. induction inputs as [| fi rest IH]; intros index; simpl; keeps_lines_tac. Qed.
Hint Resolve keeps_lines_create_fulfillments : keeps_lines.

Lemma keeps_lines_create_notes inputs : forall index,
  keeps_lines (create_notes env inputs index).
Proof. induction inputs as [| ni rest IH]; intros index; simpl; keeps_lines_tac. Qed.
Hint Resolve keeps_lines_create_notes : keeps_lines.

Lemma keeps_lines_append_transaction_errors errs index :
  keeps_lines (append_transaction_errors errs index).
Proof. induction errs as [| [msg c] rest IH]; simpl; keeps_lines_tac. Qed.
Hint Resolve keeps_lines_append_transaction_errors : keeps_lines.

Lemma keeps_lines_create_transactions inputs : forall index,
  keeps_lines (create_transactions inputs index).
Proof. induction inputs as [| ti rest IH]; intros index; simpl; keeps_lines_tac. Qed.
Hint Resolve keeps_lines_create_transactions : keeps_lines.

Lemma keeps_lines_create_invoices inputs : forall index,
  keeps_lines (create_invoices env inputs index).
Proof. induction inputs as [| ii rest IH]; intros index; simpl; keeps_lines_tac. Qed.
Hint Resolve keeps_lines_create_invoices : keeps_lines.

Lemma keeps_lines_create_discounts inputs : forall index,
  keeps_lines (create_discounts inputs index).
Proof. induction inputs as [| di rest IH]; intros index; simpl; keeps_lines_tac. Qed.
Hint Resolve keeps_lines_create_discounts : keeps_lines.

End KeepsLines.

(** ** Order lines that are built *)

Lemma line_amounts_run env li currency index s la s' :
  make_order_line_calculations env li currency index s = inr (Some la, s') ->
  la_quantity la = li_quantity li
  /\ la_total_net la = tm_net (li_total_price li)
  /\ la_total_gross la = tm_gross (li_total_price li)
  /\ la_undiscounted_total_net la = tm_net (li_undiscounted_total_price li)
  /\ la_undiscounted_total_gross la
     = tm_gross (li_undiscounted_total_price li)
  /\ bad_quantity li = false
  /\ bad_total_price li = false
  /\ bad_undiscounted_total_price li = false.
Proof.
  intros H.
  destruct (line_checks_reported env li currency index s) as [_ Hall].
  destruct (Hall _ _ H) as [[_ Hbad] _].
  destruct (bad_quantity li || bad_total_price li
            || bad_undiscounted_total_price li) eqn:Hb.
  { specialize (Hbad eq_refl). discriminate. }
  apply orb_false_iff in Hb as [Hb Hb3]. apply orb_false_iff in Hb as [Hb1 Hb2].
  repeat split; try assumption.
  all: unfold bad_quantity, bad_total_price, bad_undiscounted_total_price in *;
    unfold make_order_line_calculations in H; cbv zeta in H;
    rewrite Hb1, Hb2, Hb3 in H; simpl in H;
    mstep H as u1 t1 Hw1; mstep H as u2 t2 Hw2; mstep H as u3 t3 Hw3;
    mstep H as net s1 Hnet; mstep H as gross s2 Hgross;
    mstep H as unet s3 Hunet; mstep H as ugross s4 Hugross;
    mstep H as rate s5 Hrate;
    cbv [mret M_ret] in H; injection H as <- _; reflexivity.
Qed.

Lemma not_lt_le (x y : Q) : Decimal.lt x y = false -> (y <= x)%Q.
Proof.
  unfold Decimal.lt. rewrite negb_false_iff. apply Qle_bool_imp_le.
Qed.

Lemma create_single_order_line_some env li oi index s s' l :
  create_single_order_line env li oi index s = inr (Some l, s') ->
  li_variant li = Instance (ol_variant (bol_line l))
  /\ li_warehouse li = Instance (bol_warehouse l)
  /\ ol_id (bol_line l) = index
  /\ ol_currency (bol_line l) = oi_currency oi
  /\ ol_quantity (bol_line l) = li_quantity li
  /\ ol_total_price_net_amount (bol_line l) = tm_net (li_total_price li)
  /\ ol_total_price_gross_amount (bol_line l) = tm_gross (li_total_price li)
  /\ ol_undiscounted_total_price_net_amount (bol_line l)
     = tm_net (li_undiscounted_total_price li)
  /\ ol_undiscounted_total_price_gross_amount (bol_line l)
     = tm_gross (li_undiscounted_total_price li)
  /\ ol_quantity_fulfilled (bol_line l) = 0
  /\ checked_line (bol_line l).
Proof.
  intros H. unfold create_single_order_line in H. cbv zeta in H.
  mstep H as v s1 Hv. rewrite get_instance_with_errors_run in Hv. ret_inv Hv.
  destruct (li_variant li) as [variant | |]; try discriminate H.
  mstep H as w s2 Hw. rewrite get_instance_with_errors_run in Hw. ret_inv Hw.
  destruct (li_warehouse li) as [warehouse | |]; try discriminate H.
  mstep H as c s3 Hc. mstep H as amounts s4 Hla.
  destruct amounts as [la |]; [| discriminate H].
  apply line_amounts_run in Hla
    as (Hq & Hn & Hg & Hun & Hug & Hb1 & Hb2 & Hb3).
  mstep H as valid s5 Hvalid. mstep H as u s6 Hwhen.
  mstep H as m1 s7 Hm1. mstep H as m2 s8 Hm2.
  mstep H as m3 s9 Hm3. mstep H as m4 s10 Hm4.
  cbv [mret M_ret] in H. injection H as <- _. cbn.
  unfold checked_line. cbn. rewrite Hq, Hn, Hg, Hun, Hug.
  repeat split.
  - unfold bad_quantity in Hb1. apply Z.ltb_ge in Hb1. exact Hb1.
  - apply not_lt_le. exact Hb2.
  - apply not_lt_le. exact Hb3.
Qed.

(** X24.  When [create_single_order_line] returns a line, the variant
    and the warehouse of the input resolve and are those of the line, the
    line is identified by its index, carries the currency of the order, the
    quantity and the four total amounts of the input, and nothing fulfilled;
    the quantity is at least 1 and neither total has a net amount above its
    gross amount. *)
Theorem created_line_passes_the_checks (env : Env)
    (li : OrderBulkCreateOrderLineInput) (oi : OrderBulkCreateInput)
    (index : nat) (s s' : State) (l : OrderBulkOrderLine) :
  create_single_order_line env li oi index s = inr (Some l, s') ->
  li_variant li = Instance (ol_variant (bol_line l))
  /\ li_warehouse li = Instance (bol_warehouse l)
  /\ ol_id (bol_line l) = index
  /\ ol_currency (bol_line l) = oi_currency oi
  /\ ol_quantity (bol_line l) = li_quantity li
  /\ ol_total_price_net_amount (bol_line l) = tm_net (li_total_price li)
  /\ ol_total_price_gross_amount (bol_line l) = tm_gross (li_total_price li)
  /\ ol_undiscounted_total_price_net_amount (bol_line l)
     = tm_net (li_undiscounted_total_price li)
  /\ ol_undiscounted_total_price_gross_amount (bol_line l)
     = tm_gross (li_undiscounted_total_price li)
  /\ ol_quantity_fulfilled (bol_line l) = 0
  /\ 1 <= li_quantity li
  /\ (tm_net (li_total_price li) <= tm_gross (li_total_price li))%Q
  /\ (tm_net (li_undiscounted_total_price li)
        <= tm_gross (li_undiscounted_total_price li))%Q.
Proof.
  intros H.
  destruct (create_single_order_line_some env li oi index s s' l H)
    as (Hv & Hw & Hid & Hcur & Hq & Hn & Hg & Hun & Hug & Hqf & Hchk).
  destruct Hchk as (H1 & H2 & H3). rewrite Hq in H1.
  rewrite Hn, Hg in H2. rewrite Hun, Hug in H3.
  repeat split; assumption.
Qed.

Lemma create_order_lines_checked env inputs oi : forall index s s',
  Forall (fun l => checked_line (bol_line l)) (lines (st_order s)) ->
  create_order_lines env inputs oi index s = inr (tt, s') ->
  Forall (fun l => checked_line (bol_line l)) (lines (st_order s')).
Proof.
  induction inputs as [| li rest IH]; intros index s s' Hs H.
  - cbn in H. cbv [mret M_ret] in H. injection H as <-. exact Hs.
  - cbn [create_order_lines] in H.
    mstep H as r s1 Hline. mstep H as u s2 Hmod.
    apply (IH _ _ _) in H; [exact H |].
    pose proof (keeps_lines_create_single_order_line env li oi index s r s1 Hline)
      as Hkeep.
    destruct r as [l |].
    + apply create_single_order_line_some in Hline
        as (_ & _ & _ & _ & _ & _ & _ & _ & _ & _ & Hchk).
      unfold modify_order in Hmod. ret_inv Hmod. cbn.
      rewrite Hkeep. apply Forall_app. split; [exact Hs |].
      constructor; [exact Hchk | constructor].
    + unfold modify_order in Hmod. ret_inv Hmod. cbn.
      rewrite Hkeep. exact Hs.
Qed.

Lemma create_single_order_checked env oi s s' :
  Forall (fun l => checked_line (bol_line l)) (lines (st_order s)) ->
  create_single_order env oi s = inr (tt, s') ->
  Forall (fun l => checked_line (bol_line l)) (lines (st_order s')).
Proof.
  intros Hs H. unfold create_single_order in H.
  mstep H as u0 s1 Hval.
  apply keeps_lines_validate_order_input in Hval.
  mstep H as o1 s1' Hget. ret_inv Hget.
  destruct (is_critical_error (st_order s1')).
  { ret_inv H. rewrite Hval. exact Hs. }
  mstep H as u1 s2 Hset. ret_inv Hset.
  mstep H as u2 s3 Hrel.
  apply keeps_lines_get_instances_related_to_order in Hrel.
  mstep H as dm s4 Hdm. apply keeps_lines_get_delivery_method in Hdm.
  mstep H as o2 s4' Hget. ret_inv Hget.
  assert (Hs4 : Forall (fun l => checked_line (bol_line l))
                  (lines (st_order s4'))).
  { rewrite Hdm, Hrel. cbn. rewrite Hval. exact Hs. }
  clear Hs Hval Hrel Hdm.
  destruct dm as [dm |]; [| ret_inv H; exact Hs4].
  destruct (channel (st_order s4')) as [ch |]; [| ret_inv H; exact Hs4].
  destruct (billing_address (st_order s4')) as [ba |]; [| ret_inv H; exact Hs4].
  destruct (bool_decide (is_Some (user (st_order s4')))
            || truthy (usr_email (oi_user oi))); [| ret_inv H; exact Hs4].
  mstep H as u3 s5 Hlines. destruct u3.
  apply (create_order_lines_checked _ _ _ _ _ _ Hs4) in Hlines.
  clear Hs4.
  mstep H as o3 s5' Hget. ret_inv Hget.
  destruct (is_critical_error (st_order s5')); [ret_inv H; exact Hlines |].
  mstep H as amounts s6 Hcalc.
  apply keeps_lines_make_order_calculations in Hcalc.
  mstep H as u4 s7 Hnotes. apply keeps_lines_create_notes in Hnotes.
  mstep H as u5 s8 Hful. apply keeps_lines_create_fulfillments in Hful.
  mstep H as o4 s8' Hget. ret_inv Hget.
  assert (Hs8 : Forall (fun l => checked_line (bol_line l))
                  (lines (st_order s8'))).
  { rewrite Hful, Hnotes, Hcalc. exact Hlines. }
  clear Hlines Hcalc Hnotes Hful.
  destruct (is_critical_error (st_order s8')); [ret_inv H; exact Hs8 |].
  mstep H as u6 s9 Htr. apply keeps_lines_create_transactions in Htr.
  mstep H as u7 s10 Hinv. apply keeps_lines_create_invoices in Hinv.
  mstep H as u8 s11 Hdis. apply keeps_lines_create_discounts in Hdis.
  mstep H as u9 s12 Hst. apply keeps_lines_validate_order_status in Hst.
  mstep H as m1 s13 Hm1. apply keeps_lines_process_metadata_if_given in Hm1.
  mstep H as m2 s14 Hm2. apply keeps_lines_process_metadata_if_given in Hm2.
  mstep H as m3 s15 Hm3. apply keeps_lines_process_metadata_if_given in Hm3.
  mstep H as m4 s16 Hm4. apply keeps_lines_process_metadata_if_given in Hm4.
  ret_inv H. cbn.
  rewrite Hm4, Hm3, Hm2, Hm1, Hst, Hdis, Hinv, Htr. exact Hs8.
Qed.

(** ** Order lines that are stored *)

Lemma create_orders_checked env inputs : forall os t orders os' t',
  create_orders env inputs os t = inr (orders, os', t') ->
  Forall lines_checked orders.
Proof.
  intros os t orders os' t' Hrun.
  apply create_orders_run in Hrun.
  induction Hrun as [| oi o inputs orders Hbuilt _ IH]; constructor;
    [| exact IH].
  destruct Hbuilt as (s & s' & Hnew & _ & Hrun & ->).
  apply (create_single_order_checked env oi s s'); [| exact Hrun].
  rewrite Hnew. constructor.
Qed.

Lemma same_lines_checked (R : OrderBulkClass -> OrderBulkClass -> Prop)
    (l1 l2 : list OrderBulkClass) :
  (forall o o', R o o' -> lines o' = lines o) ->
  Forall2 R l1 l2 -> Forall lines_checked l1 -> Forall lines_checked l2.
Proof.
  intros HR H12 H1. induction H12 as [| o o' l1 l2 Ho _ IH];
    [constructor |].
  apply Forall_cons in H1 as [Hc H1]. constructor; [| apply IH; exact H1].
  unfold lines_checked. rewrite (HR _ _ Ho). exact Hc.
Qed.

Lemma validate_order_numbers_checked orders seq :
  Forall lines_checked orders ->
  Forall lines_checked (fst (validate_order_numbers orders seq)).
Proof.
  apply (same_lines_checked number_checked);
    [| apply validate_order_numbers_elementwise].
  intros o o' [-> | (n & _ & ->)]; reflexivity.
Qed.

Lemma handle_error_policy_checked orders error_policy :
  Forall lines_checked orders ->
  Forall lines_checked (handle_error_policy orders error_policy).
Proof.
  intros H. unfold handle_error_policy.
  destruct (concat (map errors orders)) as [| e es]; [exact H |].
  apply Forall_fmap. eapply Forall_impl; [exact H |].
  intros a Ha. cbn.
  destruct error_policy; [| | destruct (errors a)]; exact Ha.
Qed.

Lemma handle_stocks_checked table orders policy :
  Forall lines_checked orders ->
  Forall lines_checked (fst (handle_stocks table orders policy)).
Proof.
  unfold handle_stocks.
  generalize (fetch_stocks_map table orders). intros m H.
  assert (Hall : Forall lines_checked (fst (allocate_orders policy orders m))).
  { revert m. induction orders as [| o orders IH]; intros m; simpl;
      [constructor |].
    apply Forall_cons in H as [Ho H].
    pose proof (allocate_order_sound policy o m) as (Hl & _).
    destruct (allocate_order policy o m) as [o' m1]. specialize (IH H m1).
    destruct (allocate_orders policy orders m1). simpl in *.
    constructor; [| exact IH]. unfold lines_checked. rewrite Hl. exact Ho. }
  destruct (allocate_orders policy orders m). exact Hall.
Qed.

Lemma finalized_checked o :
  lines_checked o -> Forall checked_line (all_order_lines (finalized o)).
Proof.
  intros H. unfold finalized. cbn zeta.
  assert (Hfin : Forall checked_line
                   (all_order_lines
                      (set_fulfillment_order (set_quantity_fulfilled o)))).
  { unfold all_order_lines. cbn. rewrite map_map. apply Forall_fmap.
    eapply Forall_impl; [exact H |]. intros l Hl. exact Hl. }
  destruct (is_critical_error _); exact Hfin.
Qed.

Lemma process_orders_checked db orders error_policy stock_update_policy :
  Forall lines_checked orders ->
  exists new_lines,
    db_order_lines
      (snd (process_orders db orders error_policy stock_update_policy))
    = db_order_lines db ++ new_lines
    /\ Forall checked_line new_lines.
Proof.
  intros H. unfold process_orders.
  apply (validate_order_numbers_checked _ (db_order_number_seq db)) in H.
  destruct (validate_order_numbers orders (db_order_number_seq db))
    as [os seq].
  cbn [fst] in H. apply (handle_error_policy_checked _ error_policy) in H.
  assert (Hfinal : forall final stocks,
            Forall lines_checked final ->
            exists new_lines,
              db_order_lines
                (snd (save_data (with_order_number_seq seq db) final stocks))
              = db_order_lines db ++ new_lines
              /\ Forall checked_line new_lines).
  { intros final stocks Hf. rewrite save_data_order_lines.
    eexists. split; [reflexivity |].
    apply Forall_concat, Forall_fmap. unfold kept.
    apply Forall_forall. intros o Ho.
    apply list_elem_of_filter in Ho as [_ Ho].
    apply list_elem_of_fmap in Ho as (o0 & -> & Ho0).
    apply finalized_checked. rewrite Forall_forall in Hf. apply Hf, Ho0. }
  case_bool_decide.
  - apply Hfinal. exact H.
  - apply (handle_stocks_checked (db_stocks (with_order_number_seq seq db))
             _ stock_update_policy) in H.
    destruct (handle_stocks _ _ _) as [os' stocks]. apply Hfinal. exact H.
Qed.

(** X25.  When the mutation returns, the order lines it has added to the
    database all have a quantity of at least 1, a total net amount of at
    most the total gross amount and an undiscounted total net amount of at
    most the undiscounted total gross amount, under every error policy and
    stock update policy; the lines stored before are untouched. *)
Theorem stored_lines_pass_the_checks (env : Env) (db db' : Database)
    (orders_input : list OrderBulkCreateInput)
    (error_policy : option ErrorPolicy)
    (stock_update_policy : option StockUpdatePolicy)
    (response : OrderBulkCreate) :
  perform_mutation env db orders_input error_policy stock_update_policy =
    inr (response, db') ->
  exists new_lines,
    db_order_lines db' = db_order_lines db ++ new_lines
    /\ Forall checked_line new_lines.
Proof.
  intros Hrun.
  apply perform_mutation_inr in Hrun
    as [(_ & -> & _) | (_ & orders & os & t & Hbuilt & Hdb & _)].
  - exists []. rewrite app_nil_r. split; [reflexivity | constructor].
  - cbn zeta in Hdb. subst db'.
    change (db_order_lines (notify ?x ?d)) with (db_order_lines d).
    apply process_orders_checked.
    apply (create_orders_checked _ _ _ _ _ _ _ Hbuilt).
Qed.

(** ** The further properties on sample data *)

(** Two mugs ordered and one fulfilled: FULFILLED is not the fitting
    status. *)
Lemma order_status_follows_quantities_witness :
  validate_order_status FULFILLED
    (Cases.built_state Sample.partly_fulfilled_order)
  = inr (tt,
         with_order
           (add_error invalid_status_error
              (st_order (Cases.built_state Sample.partly_fulfilled_order)))
           (Cases.built_state Sample.partly_fulfilled_order)).
Proof.
  pose proof (order_status_follows_quantities FULFILLED
                (Cases.built_state Sample.partly_fulfilled_order)
                ltac:(vm_compute; reflexivity)
                ltac:(vm_compute; split; discriminate)) as Hrun.
  rewrite Hrun. vm_compute. reflexivity.
Defined.

Lemma empty_order_fits_no_named_status_witness :
  validate_order_status UNFULFILLED Sample.fresh
  = inr (tt,
         with_order (add_error invalid_status_error (st_order Sample.fresh))
           Sample.fresh).
Proof.
  exact (empty_order_fits_no_named_status UNFULFILLED Sample.fresh
           eq_refl eq_refl).
Defined.

(** One mug ordered and two fulfilled: UNFULFILLED passes. *)
Lemma overfulfilled_order_passes_status_check_witness :
  validate_order_status UNFULFILLED
    (Cases.built_state Sample.overfulfilled_order)
  = inr (tt, Cases.built_state Sample.overfulfilled_order).
Proof.
  apply (overfulfilled_order_passes_status_check UNFULFILLED
           (Cases.built_state Sample.overfulfilled_order)).
  vm_compute. split; [discriminate | reflexivity].
Defined.

(** Twelve gross on ten net implies a rate within the rounding of 0.2. *)
Lemma implied_tax_rate_witness :
  exists r,
    la_tax_rate
      (Cases.line_amounts
         (make_order_line_calculations Sample.env Cases.taxed_line_input
            "USD" 0 Sample.fresh)) = Some r
    /\ (Qabs (r - (12 / 10 - 1))
          <= (3 * Qabs (12 / 10) + 1) * context_error)%Q.
Proof.
  pose proof (implied_tax_rate Sample.env Cases.taxed_line_input "USD" 0%nat
                Sample.fresh
                (Cases.final_state
                   (make_order_line_calculations Sample.env
                      Cases.taxed_line_input "USD" 0 Sample.fresh))
                (Cases.line_amounts
                   (make_order_line_calculations Sample.env
                      Cases.taxed_line_input "USD" 0 Sample.fresh))
                ltac:(vm_compute; reflexivity)) as (_ & _ & Hrate).
  exact (Hrate eq_refl eq_refl).
Defined.

Lemma shipping_price_with_zero_net_raises_witness :
  make_order_calculations Sample.env Cases.by_courier [] Sample.main_channel
    (Cases.courier_input 5) Sample.fresh = inl DivisionByZero
  /\ make_order_calculations Sample.env Cases.by_courier []
       Sample.main_channel (Cases.courier_input 0) Sample.fresh
     = inl InvalidOperation.
Proof.
  split.
  - exact (shipping_price_with_zero_net_raises Sample.env Cases.by_courier []
             Sample.main_channel (Cases.courier_input 5)
             {| tm_gross := 5; tm_net := 0 |} Sample.fresh
             ltac:(discriminate) eq_refl ltac:(reflexivity)).
  - exact (shipping_price_with_zero_net_raises Sample.env Cases.by_courier []
             Sample.main_channel (Cases.courier_input 0)
             {| tm_gross := 0; tm_net := 0 |} Sample.fresh
             ltac:(discriminate) eq_refl ltac:(reflexivity)).
Defined.

Lemma skipping_stocks_leaves_the_table_witness :
  db_stocks (Sample.run Sample.database [Sample.simple_order "A1" 1]
               None (Some SKIP)).2
  = db_stocks Sample.database.
Proof.
  apply (skipping_stocks_leaves_the_table Sample.env Sample.database
           (Sample.run Sample.database [Sample.simple_order "A1" 1]
              None (Some SKIP)).2
           [Sample.simple_order "A1" 1] None
           (Sample.run Sample.database [Sample.simple_order "A1" 1]
              None (Some SKIP)).1).
  vm_compute. reflexivity.
Defined.

Lemma one_result_per_input_witness :
  exists rs,
    results (Sample.run Sample.database Sample.competing_orders
               (Some REJECT_FAILED_ROWS) None).1 = OrderResults rs
    /\ length rs = length Sample.competing_orders
    /\ count (Sample.run Sample.database Sample.competing_orders
                (Some REJECT_FAILED_ROWS) None).1
       = length (omap res_order rs)
    /\ (count (Sample.run Sample.database Sample.competing_orders
                 (Some REJECT_FAILED_ROWS) None).1
        <= length Sample.competing_orders)%nat.
Proof.
  apply (one_result_per_input Sample.env Sample.database
           (Sample.run Sample.database Sample.competing_orders
              (Some REJECT_FAILED_ROWS) None).2
           Sample.competing_orders (Some REJECT_FAILED_ROWS) None
           (Sample.run Sample.database Sample.competing_orders
              (Some REJECT_FAILED_ROWS) None).1).
  - vm_compute. lia.
  - vm_compute. reflexivity.
Defined.

Lemma returned_orders_are_the_inserted_ones_witness :
  exists rs,
    results (Sample.run (Sample.database_with_order "B7")
               Sample.competing_orders (Some REJECT_FAILED_ROWS) None).1
    = OrderResults rs
    /\ db_orders (Sample.run (Sample.database_with_order "B7")
                    Sample.competing_orders (Some REJECT_FAILED_ROWS) None).2
       = db_orders (Sample.database_with_order "B7") ++ omap res_order rs
    /\ db_notified (Sample.run (Sample.database_with_order "B7")
                      Sample.competing_orders (Some REJECT_FAILED_ROWS) None).2
       = db_notified (Sample.database_with_order "B7") ++ omap res_order rs.
Proof.
  apply (returned_orders_are_the_inserted_ones Sample.env
           (Sample.database_with_order "B7")
           (Sample.run (Sample.database_with_order "B7")
              Sample.competing_orders (Some REJECT_FAILED_ROWS) None).2
           Sample.competing_orders (Some REJECT_FAILED_ROWS) None
           (Sample.run (Sample.database_with_order "B7")
              Sample.competing_orders (Some REJECT_FAILED_ROWS) None).1).
  - vm_compute. lia.
  - vm_compute. reflexivity.
Defined.

Lemma stock_key_is_injective_witness :
  variant_id Sample.variant = 1 /\ warehouse_id Sample.warehouse = "wh-1".
Proof.
  exact (stock_key_is_injective (variant_id Sample.variant) 1
           (warehouse_id Sample.warehouse) "wh-1" eq_refl).
Defined.

Lemma fulfillment_lines_match_order_lines_witness :
  exists fulfillment,
    create_single_fulfillment (Sample.fulfillment_input 1)
      [Sample.mug_line 2 5] 0 Sample.fresh
    = inr (Some fulfillment, Sample.fresh)
    /\ Forall2 (fulfills [Sample.mug_line 2 5])
         (ful_in_lines (Sample.fulfillment_input 1)) (bf_lines fulfillment).
Proof.
  eexists. split; [vm_compute; reflexivity |].
  refine (proj2 (proj2 (proj2
            (fulfillment_lines_match_order_lines (Sample.fulfillment_input 1)
               [Sample.mug_line 2 5] 0%nat Sample.fresh Sample.fresh _ _)))).
  vm_compute. reflexivity.
Defined.

Lemma fulfillment_line_index_is_checked_witness :
  create_fulfillment_lines 0 [Sample.mug_line 2 5] [Cases.stray_line] [] 0
    Sample.fresh
  = inr (None,
         add_errors [no_related_order_line_error 0 0 5] Sample.fresh).
Proof.
  apply (proj2 (fulfillment_line_index_is_checked 0 [Sample.mug_line 2 5]
                  Cases.stray_line [] [] 0 Sample.fresh
                  Sample.variant Sample.warehouse eq_refl eq_refl)).
  vm_compute. discriminate.
Defined.

Lemma order_without_required_part_is_not_created_witness :
  exists rs r,
    results (Sample.run Sample.database
               [Sample.simple_order "A0" 1; Cases.nameless_order]
               (Some IGNORE_FAILED) None).1 = OrderResults rs
    /\ rs !! 1%nat = Some r
    /\ res_order r = None.
Proof.
  apply (order_without_required_part_is_not_created Sample.env Sample.database
           (Sample.run Sample.database
              [Sample.simple_order "A0" 1; Cases.nameless_order]
              (Some IGNORE_FAILED) None).2
           [Sample.simple_order "A0" 1; Cases.nameless_order]
           (Some IGNORE_FAILED) None
           (Sample.run Sample.database
              [Sample.simple_order "A0" 1; Cases.nameless_order]
              (Some IGNORE_FAILED) None).1
           1%nat Cases.nameless_order).
  - vm_compute. lia.
  - vm_compute. reflexivity.
  - reflexivity.
  - right. left. split; reflexivity.
Defined.

(** The partly fulfilled order passes the simulation: its row loses the
    fulfilled mug and has the other one allocated. *)
Lemma accepted_order_is_simulated_line_by_line_witness :
  allocate_order UPDATE (Sample.aggregate 0 [Sample.partly_fulfilled_order])
    (fetch_stocks_map (db_stocks Sample.database)
       (Sample.aggregates [Sample.partly_fulfilled_order]))
  = (Sample.aggregate 0 [Sample.partly_fulfilled_order],
     foldl (allocate_line (Sample.aggregate 0 [Sample.partly_fulfilled_order]))
       (fetch_stocks_map (db_stocks Sample.database)
          (Sample.aggregates [Sample.partly_fulfilled_order]))
       (lines (Sample.aggregate 0 [Sample.partly_fulfilled_order]))).
Proof.
  apply (accepted_order_is_simulated_line_by_line UPDATE
           (Sample.aggregate 0 [Sample.partly_fulfilled_order])
           (fetch_stocks_map (db_stocks Sample.database)
              (Sample.aggregates [Sample.partly_fulfilled_order]))).
  vm_compute. reflexivity.
Defined.

(** The line built for two mugs at ten dollars. *)
Lemma created_line_passes_the_checks_witness :
  ol_quantity (bol_line (Sample.mug_line 2 5)) = 2
  /\ ol_quantity_fulfilled (bol_line (Sample.mug_line 2 5)) = 0
  /\ 1 <= li_quantity (Sample.line_input 2 10).
Proof.
  pose proof (created_line_passes_the_checks Sample.env
                (Sample.line_input 2 10) (Sample.simple_order "A1" 2) 0%nat
                Sample.fresh
                (Cases.final_state
                   (create_single_order_line Sample.env
                      (Sample.line_input 2 10) (Sample.simple_order "A1" 2)
                      0 Sample.fresh))
                (Sample.mug_line 2 5)
                ltac:(vm_compute; reflexivity))
    as (_ & _ & _ & _ & Hq & _ & _ & _ & _ & Hqf & Hone & _).
  repeat split; assumption.
Defined.

Lemma stored_lines_pass_the_checks_witness :
  exists new_lines,
    db_order_lines
      (Sample.run Sample.database [Sample.partly_fulfilled_order] None None).2
    = db_order_lines Sample.database ++ new_lines
    /\ Forall checked_line new_lines.
Proof.
  apply (stored_lines_pass_the_checks Sample.env Sample.database
           (Sample.run Sample.database [Sample.partly_fulfilled_order]
              None None).2
           [Sample.partly_fulfilled_order] None None
           (Sample.run Sample.database [Sample.partly_fulfilled_order]
              None None).1).
  vm_compute. reflexivity.
Defined.
